(** * DocScraper: a shallow embedding of [main.go]

    The crawler of SellMindsAI/DocScraper is one Go file.  This development
    embeds its pure functions as Rocq functions over byte strings, its
    crawl loop as a step function over an explicit crawl state, and the
    outside world (HTTP, file system) as oracles consulted with a clock.

    Go strings are byte sequences: they are embedded as [string], whose
    characters are the 256 byte values; [String.length] is Go's [len].

    Layout: the Go library functions the program calls; the program; a
    concrete runtime and site for the examples; the vocabulary of the
    statements; facts about the library functions; the properties of the
    program. *)

From Stdlib Require Import ZArith Ascii String List Lia Bool.
From stdpp Require Import base gmap strings list.

Set Default Proof Using "Type".

(** ** Bytes and runes: the part of [unicode/utf8] the program reaches *)

Module GoUtf8.

Definition byte_val (c : ascii) : Z := Z.of_N (N_of_ascii c).

(** Go's conversion [byte(x)] keeps the low eight bits. *)
Definition byte_of (z : Z) : ascii := ascii_of_N (Z.to_N (Z.land z 255)).

Definition RuneError : Z := 65533.
Definition MaxRune : Z := 1114111.
Definition RuneSelf : Z := 128.

(** The [first] table of the decoder with its accept ranges: for a leading
    byte, the length of the sequence it starts and the bounds of the
    second byte.  [None] is the table's [xx] (not a leading byte). *)
Definition first (s0 : Z) : option (nat * Z * Z) :=
  (if (194 <=? s0) && (s0 <=? 223) then Some (2%nat, 128, 191)
   else if s0 =? 224 then Some (3%nat, 160, 191)
   else if (225 <=? s0) && (s0 <=? 236) then Some (3%nat, 128, 191)
   else if s0 =? 237 then Some (3%nat, 128, 159)
   else if (238 <=? s0) && (s0 <=? 239) then Some (3%nat, 128, 191)
   else if s0 =? 240 then Some (4%nat, 144, 191)
   else if (241 <=? s0) && (s0 <=? 243) then Some (4%nat, 128, 191)
   else if s0 =? 244 then Some (4%nat, 128, 143)
   else None)%Z.

Definition continuation (b : Z) : bool := ((128 <=? b) && (b <=? 191))%Z.

(** [utf8.DecodeRuneInString]: the first rune of [s] and its width in
    bytes; an invalid or truncated sequence is [RuneError] of width 1. *)
Definition DecodeRuneInString (s : string) : Z * nat :=
  match s with
  | EmptyString => (RuneError, 0)
  | String c0 t =>
    let s0 := byte_val c0 in
    if (s0 <? RuneSelf)%Z then (s0, 1)
    else
      match first s0 with
      | None => (RuneError, 1)
      | Some (sz, lo, hi) =>
        if String.length s <? sz then (RuneError, 1)
        else
          match t with
          | EmptyString => (RuneError, 1)
          | String c1 t1 =>
            let s1 := byte_val c1 in
            if ((s1 <? lo) || (hi <? s1))%Z then (RuneError, 1)
            else if sz <=? 2 then
              (Z.lor (Z.shiftl (Z.land s0 31) 6) (Z.land s1 63), 2)
            else
              match t1 with
              | EmptyString => (RuneError, 1)
              | String c2 t2 =>
                let s2 := byte_val c2 in
                if negb (continuation s2) then (RuneError, 1)
                else if sz <=? 3 then
                  (Z.lor (Z.lor (Z.shiftl (Z.land s0 15) 12)
                                (Z.shiftl (Z.land s1 63) 6))
                         (Z.land s2 63), 3)
                else
                  match t2 with
                  | EmptyString => (RuneError, 1)
                  | String c3 _ =>
                    let s3 := byte_val c3 in
                    if negb (continuation s3) then (RuneError, 1)
                    else
                      (Z.lor (Z.lor (Z.lor (Z.shiftl (Z.land s0 7) 18)
                                           (Z.shiftl (Z.land s1 63) 12))
                                    (Z.shiftl (Z.land s2 63) 6))
                             (Z.land s3 63), 4)
                  end
              end
          end
      end
  end.

Definition encode3 (r : Z) : string :=
  String (byte_of (Z.lor 224 (Z.shiftr r 12)))
    (String (byte_of (Z.lor 128 (Z.land (Z.shiftr r 6) 63)))
       (String (byte_of (Z.lor 128 (Z.land r 63))) EmptyString)).

(** [utf8.AppendRune] on an empty buffer: the bytes of [r].  A rune out
    of range or in the surrogate gap is written as [RuneError]. *)
Definition EncodeRune (r : Z) : string :=
  (if (0 <=? r) && (r <=? 127) then String (byte_of r) EmptyString
   else if (0 <=? r) && (r <=? 2047) then
     String (byte_of (Z.lor 192 (Z.shiftr r 6)))
       (String (byte_of (Z.lor 128 (Z.land r 63))) EmptyString)
   else if (r <? 0) || (MaxRune <? r) || ((55296 <=? r) && (r <=? 57343))
     then encode3 RuneError
   else if r <=? 65535 then encode3 r
   else
     String (byte_of (Z.lor 240 (Z.shiftr r 18)))
       (String (byte_of (Z.lor 128 (Z.land (Z.shiftr r 12) 63)))
          (String (byte_of (Z.lor 128 (Z.land (Z.shiftr r 6) 63)))
             (String (byte_of (Z.lor 128 (Z.land r 63))) EmptyString))))%Z.

(** The runes a [for _, c := range s] loop sees.  [skip] counts the bytes
    of the current rune that are still to be passed over. *)
Fixpoint runes_from (skip : nat) (s : string) : list Z :=
  match s with
  | EmptyString => []
  | String _ t =>
    match skip with
    | S k => runes_from k t
    | O => let '(r, size) := DecodeRuneInString s in
           r :: runes_from (size - 1) t
    end
  end.

Definition runes (s : string) : list Z := runes_from 0 s.

End GoUtf8.

(** ** The functions of package [strings] the program calls *)

Module GoStrings.
Import GoUtf8.

Definition HasPrefix (s pre : string) : bool := String.prefix pre s.

(** The slices [s[n:]] and [s[:n]]. *)
Fixpoint slice_from (n : nat) (s : string) : string :=
  match n, s with
  | S k, String _ t => slice_from k t
  | _, _ => s
  end.

Definition slice_to (n : nat) (s : string) : string := substring 0 n s.

Definition HasSuffix (s suf : string) : bool :=
  (String.length suf <=? String.length s)
  && String.eqb (slice_from (String.length s - String.length suf) s) suf.

Definition TrimPrefix (s pre : string) : string :=
  if HasPrefix s pre then slice_from (String.length pre) s else s.

Definition TrimSuffix (s suf : string) : string :=
  if HasSuffix s suf then slice_to (String.length s - String.length suf) s else s.

Fixpoint Contains (s substr : string) : bool :=
  String.prefix substr s
  || match s with
     | EmptyString => false
     | String _ t => Contains t substr
     end.

(** [piece] is the piece read so far; [skip] counts the bytes of a matched
    separator that are still to be passed over. *)
Fixpoint split_from (sep : string) (skip : nat) (piece : string) (s : string)
  : list string :=
  match s with
  | EmptyString => [piece]
  | String c t =>
    match skip with
    | S k => split_from sep k piece t
    | O =>
      if String.prefix sep s
      then piece :: split_from sep (String.length sep - 1) EmptyString t
      else split_from sep 0 (piece +:+ String c EmptyString) t
    end
  end.

(** [explode]: the UTF-8 sequences of [s], one piece per rune. *)
Fixpoint explode_from (skip : nat) (piece : string) (s : string) : list string :=
  match s with
  | EmptyString => match piece with EmptyString => [] | _ => [piece] end
  | String c t =>
    match skip with
    | S k => explode_from k (piece +:+ String c EmptyString) t
    | O =>
      let rest := explode_from (snd (DecodeRuneInString s) - 1)
                               (String c EmptyString) t in
      match piece with EmptyString => rest | _ => piece :: rest end
    end
  end.

(** [strings.Split(s, sep)]: the pieces of [s] between the leftmost,
    non-overlapping occurrences of [sep]; always at least one piece when
    [sep] is not empty. *)
Definition Split (s sep : string) : list string :=
  match sep with
  | EmptyString => explode_from 0 EmptyString s
  | _ => split_from sep 0 EmptyString s
  end.

Fixpoint replace_from (old new : string) (skip : nat) (s : string) : string :=
  match s with
  | EmptyString => EmptyString
  | String c t =>
    match skip with
    | S k => replace_from old new k t
    | O =>
      if String.prefix old s
      then new +:+ replace_from old new (String.length old - 1) t
      else String c (replace_from old new 0 t)
    end
  end.

(** [strings.ReplaceAll(s, old, new)] for a non-empty [old]: every
    leftmost, non-overlapping occurrence is replaced.  With an empty [old]
    Go inserts [new] around every rune; the program never does that and
    the case is the identity here. *)
Definition ReplaceAll (s old new : string) : string :=
  match old with
  | EmptyString => s
  | _ => replace_from old new 0 s
  end.

Fixpoint mem_byte (c : ascii) (cutset : string) : bool :=
  match cutset with
  | EmptyString => false
  | String d t => Ascii.eqb c d || mem_byte c t
  end.

(** The bytes marked in the table [asciiSpace]: tab, line feed, vertical
    tab, form feed, carriage return, space. *)
Definition asciiSpace : string :=
  String (ascii_of_nat 9) (String (ascii_of_nat 10) (String (ascii_of_nat 11)
    (String (ascii_of_nat 12) (String (ascii_of_nat 13)
      (String (ascii_of_nat 32) EmptyString))))).

Fixpoint TrimLeft (s cutset : string) : string :=
  match s with
  | String c t => if mem_byte c cutset then TrimLeft t cutset else s
  | EmptyString => EmptyString
  end.

Fixpoint TrimRight (s cutset : string) : string :=
  match s with
  | EmptyString => EmptyString
  | String c t =>
    match TrimRight t cutset with
    | EmptyString => if mem_byte c cutset then EmptyString
                     else String c EmptyString
    | t' => String c t'
    end
  end.

(** [strings.Trim(s, cutset)] for a cutset of ASCII bytes, which Go trims
    byte by byte from both ends. *)
Definition Trim (s cutset : string) : string :=
  TrimLeft (TrimRight s cutset) cutset.

Fixpoint Repeat (s : string) (count : nat) : string :=
  match count with
  | O => EmptyString
  | S k => s +:+ Repeat s k
  end.

Fixpoint all_bytes (p : ascii -> bool) (s : string) : bool :=
  match s with
  | EmptyString => true
  | String c t => p c && all_bytes p t
  end.

Fixpoint map_bytes (f : ascii -> ascii) (s : string) : string :=
  match s with
  | EmptyString => EmptyString
  | String c t => String (f c) (map_bytes f t)
  end.

Definition is_ascii (c : ascii) : bool := (byte_val c <? RuneSelf)%Z.
Definition is_upper (c : ascii) : bool :=
  ((65 <=? byte_val c) && (byte_val c <=? 90))%Z.
Definition lower_byte (c : ascii) : ascii :=
  if is_upper c then byte_of (byte_val c + 32) else c.

(** [strings.Map(mapping, s)]: every rune of [s] is replaced by its image,
    a negative image drops the rune.  An invalid byte is seen as
    [RuneError] and is therefore rewritten as the three bytes of U+FFFD
    (when the mapping keeps [RuneError]). *)
Definition Map (mapping : Z -> Z) (s : string) : string :=
  String.concat EmptyString
    (List.map (fun c => let r := mapping c in
                        if (0 <=? r)%Z then EncodeRune r else EmptyString)
              (runes s)).

(** [strings.ToLower]: an ASCII-only string is lower-cased byte by byte;
    any other string goes through [Map] with [unicode.ToLower], here the
    table [tolower]. *)
Definition ToLower (tolower : Z -> Z) (s : string) : string :=
  if all_bytes is_ascii s
  then (if all_bytes (fun c => negb (is_upper c)) s then s
        else map_bytes lower_byte s)
  else Map tolower s.

End GoStrings.

(** ** [path.Dir], [filepath.Base], [filepath.Ext], [filepath.Join] (Unix) *)

Module GoPath.
Import GoStrings.

Definition slash : string := "/".

(** The element after the last separator (the whole string without one). *)
Definition last_element (p : string) : string :=
  List.last (Split p slash) EmptyString.

(** Everything up to and including the last separator. *)
Definition dir_part (p : string) : string :=
  slice_to (String.length p - String.length (last_element p)) p.

Definition is_dot (seg : string) : bool :=
  String.eqb seg EmptyString || String.eqb seg ".".

(** One element of the path met by [Clean]; [stack] holds the elements
    kept so far, last first. *)
Definition clean_step (rooted : bool) (stack : list string) (seg : string)
  : list string :=
  if is_dot seg then stack
  else if String.eqb seg ".." then
    match stack with
    | top :: rest => if String.eqb top ".." then seg :: stack else rest
    | [] => if rooted then [] else [seg]
    end
  else seg :: stack.

(** [Clean]: the shortest path naming the same file by lexical
    processing alone. *)
Definition Clean (p : string) : string :=
  match p with
  | EmptyString => "."
  | _ =>
    let rooted := String.prefix slash p in
    let stack := fold_left (clean_step rooted) (Split p slash) [] in
    let body := String.concat slash (rev stack) in
    let out := if rooted then slash +:+ body else body in
    match out with EmptyString => "." | _ => out end
  end.

Definition Dir (p : string) : string := Clean (dir_part p).

Definition Base (p : string) : string :=
  match p with
  | EmptyString => "."
  | _ =>
    match last_element (TrimRight p slash) with
    | EmptyString => slash
    | e => e
    end
  end.

Fixpoint ext_of (s : string) : option string :=
  match s with
  | EmptyString => None
  | String c t =>
    match ext_of t with
    | Some e => Some e
    | None => if Ascii.eqb c "."%char then Some s else None
    end
  end.

Definition Ext (p : string) : string :=
  default EmptyString (ext_of (last_element p)).

(** [filepath.Join] of two elements. *)
Definition Join (a b : string) : string :=
  match a, b with
  | EmptyString, EmptyString => EmptyString
  | EmptyString, _ => Clean b
  | _, _ => Clean (a +:+ slash +:+ b)
  end.

End GoPath.

(** ** What the program takes from the Go runtime as given *)

(** [url.URL], with the fields the program reads. *)
Record url_URL := {
  Scheme : string;
  Opaque : string;
  Host : string;
  Path : string;
  RawQuery : string;
  Fragment : string
}.

(** The Unicode case table, [strings.TrimSpace] (which consults the Unicode
    white-space table) and the URL parser of [net/url] are not code of the
    program: every definition below takes them from this interface, and
    every theorem holds for whatever they compute.  [url_Parse] answers
    [None] where [url.Parse] reports an error. *)
Class GoEnv := {
  unicode_ToLower : Z -> Z;
  TrimSpace : string -> string;
  url_Parse : string -> option url_URL;
  url_String : url_URL -> string
}.

Definition nl : string := String (ascii_of_nat 10) EmptyString.
Definition dquote : string := String (ascii_of_nat 34) EmptyString.
Definition backslash : string := String (ascii_of_nat 92) EmptyString.

(** Reading a Go [map[string]bool]: a missing key reads as [false]. *)
Definition mget (m : gmap string bool) (k : string) : bool :=
  default false (m !! k).

(** ** The data model of [main.go] *)

Inductive Organization := SingleFile | ByChapters | ByPages.

Record Page := {
  Title : string;
  Content : string;
  URL : string;
  Filename : string;
  Level : nat
}.

(** The [client], [minDelay] and [maxDelay] fields (an HTTP client and two
    floats that only feed [time.Sleep]) carry nothing the crawl reads back
    and are left out. *)
Record Scraper := {
  baseURL : string;
  outputPath : string;
  outputDir : string;
  visitedURLs : gmap string bool;
  domainPrefix : string;
  organization : Organization;
  pages : list Page;
  singlePage : bool
}.

(** What goquery hands to the program.  A [code] element found inside a
    [pre]: its class attribute, when it has one, and its text. *)
Record CodeElem := {
  code_class : option string;
  code_text : string
}.

(** One element matched by the selector
    [h2, h3, h4, h5, h6, p, pre, ul, ol, code, blockquote], with what the
    [switch] on its tag name reads from it. *)
Inductive Block :=
| Heading (tag text : string)
| Paragraph (text : string)
| Pre (codes : list CodeElem)
| ListBlock (items : list string)
| Code (text : string)
| Blockquote (text : string).

(** A fetched and parsed document, after the boilerplate regions were
    removed and the main region was chosen: the text of the first [h1] of
    the main region, the matched blocks in document order, and the [href]
    attribute of every [a[href]] of the whole document. *)
Record Document := {
  doc_h1 : option string;
  doc_blocks : list Block;
  doc_hrefs : list string
}.

(** ** The pure functions of [main.go] *)

Section Program.
Context {env : GoEnv}.
Import GoStrings GoPath.

Definition sanitizeURL (rawURL : string) : string :=
  match url_Parse rawURL with
  | None => rawURL
  | Some u => url_String u
  end.

Definition extractDomainPrefix (rawURL : string) : string :=
  match url_Parse rawURL with
  | None => rawURL
  | Some u => Scheme u +:+ "://" +:+ Host u
  end.

Definition NewScraper (baseURL outputPath : string) (org : Organization)
    (singlePage : bool) : Scraper :=
  {| baseURL := sanitizeURL baseURL;
     outputPath := outputPath;
     outputDir := TrimSuffix outputPath (Ext outputPath);
     visitedURLs := ∅;
     domainPrefix := extractDomainPrefix baseURL;
     organization := org;
     pages := [];
     singlePage := singlePage |}.

Definition invalid : list string :=
  ["/"; backslash; "?"; "%"; "*"; ":"; "|"; dquote; "<"; ">"; "."; " "]%string.

Definition sanitizeFilename (name : string) : string :=
  let result := ToLower unicode_ToLower name in
  let result := fold_left (fun r char => ReplaceAll r char "_") invalid result in
  let result := if String.length result =? 0 then "unnamed"%string else result in
  if 100 <? String.length result then slice_to 100 result else result.

Definition resolveURL (s : Scraper) (href : string) : string :=
  if HasPrefix href "http" then href
  else if HasPrefix href "//" then
    match url_Parse (baseURL s) with
    | None => EmptyString
    | Some u => Scheme u +:+ ":" +:+ href
    end
  else if HasPrefix href "/" then domainPrefix s +:+ href
  else baseURL s +:+ "/" +:+ href.

Definition ignorePaths : list string :=
  ["/assets/"; "/static/"; "/img/"; "/images/";
   "/js/"; "/css/"; "/fonts/"; "/examples/";
   "/blog/"; "/community/"; "/download/"]%string.

Definition shouldProcessURL (s : Scraper) (urlStr : string) : bool :=
  match url_Parse (baseURL s) with
  | None => false
  | Some base =>
    match url_Parse urlStr with
    | None => false
    | Some checkURL =>
      if negb (String.eqb (Host checkURL) (Host base)) then false
      else if mget (visitedURLs s) urlStr then false
      else
        let relPath := TrimPrefix (Path checkURL) (Path base) in
        negb (existsb (fun ignore => Contains relPath ignore) ignorePaths)
    end
  end.

(** [getAllDocLinks] on the outcome of its GET: [None] is any of its three
    error returns. *)
Definition getAllDocLinks (s : Scraper) (resp : option Document)
  : option (list string) :=
  match resp with
  | None => None
  | Some doc =>
    Some (List.filter
            (fun fullURL => negb (String.eqb fullURL EmptyString)
                            && shouldProcessURL s fullURL)
            (List.map (resolveURL s) (doc_hrefs doc)))
  end.

Definition langClasses : list string := ["language-"; "lang-"; "brush:"]%string.

(** The loop over [langClasses] with its [break]. *)
Fixpoint detectLang (prefixes : list string) (className : string) : string :=
  match prefixes with
  | [] => EmptyString
  | pre :: rest =>
    if Contains className pre then
      match Split className pre with
      | _ :: part1 :: _ => List.hd EmptyString (Split part1 " ")
      | _ => detectLang rest className
      end
    else detectLang rest className
  end.

(** The [pre] case; [codes] is the selection [sel.Find("code")]: [Attr]
    reads its first element, [Text] concatenates all of them. *)
Definition renderPre (codes : list CodeElem) : string :=
  match codes with
  | [] => EmptyString
  | first :: _ =>
    let lang := match code_class first with
                | Some className => detectLang langClasses className
                | None => EmptyString
                end in
    let code := TrimSpace (String.concat EmptyString (List.map code_text codes)) in
    if String.eqb code EmptyString then EmptyString
    else if negb (String.eqb lang EmptyString)
    then "```" +:+ lang +:+ nl +:+ code +:+ nl +:+ "```" +:+ nl +:+ nl
    else "```" +:+ nl +:+ code +:+ nl +:+ "```" +:+ nl +:+ nl
  end.

(** [int(sel.Get(0).Data[1] - '0')]: byte arithmetic on the second byte
    of the tag name.  The selector yields [h2] to [h6] only; on a tag name
    of fewer than two bytes Go would panic, and the level is 0 here. *)
Definition headingLevel (tag : string) : nat :=
  match String.get 1 tag with
  | Some c => Z.to_nat ((GoUtf8.byte_val c - 48) mod 256)
  | None => 0
  end.

Definition renderBlock (b : Block) : string :=
  match b with
  | Heading tag text =>
    let text := TrimSpace text in
    if String.eqb text EmptyString then EmptyString
    else Repeat "#" (headingLevel tag) +:+ " " +:+ text +:+ nl +:+ nl
  | Paragraph text =>
    let text := TrimSpace text in
    if String.eqb text EmptyString then EmptyString
    else text +:+ nl +:+ nl
  | Pre codes => renderPre codes
  | ListBlock items =>
    String.concat EmptyString
      (List.map (fun li => let text := TrimSpace li in
                           if String.eqb text EmptyString then EmptyString
                           else "- " +:+ text +:+ nl) items)
    +:+ nl
  | Code _ => EmptyString
  | Blockquote text =>
    let text := TrimSpace text in
    if String.eqb text EmptyString then EmptyString
    else String.concat EmptyString
           (List.map (fun line => "> " +:+ TrimSpace line +:+ nl)
                     (Split text nl))
         +:+ nl
  end.

(** [urlPath] and [level] of [scrapePage]. *)
Definition pageLevel (s : Scraper) (url : string) : nat :=
  let urlPath := Trim (TrimPrefix url (baseURL s)) "/" in
  List.length (Split urlPath "/").

(** The file name of a page: from the title, or from the URL when the
    sanitized title is the empty string. *)
Definition pageFilename (title url : string) : string :=
  let filename := sanitizeFilename title in
  let filename := if String.eqb filename EmptyString
                  then sanitizeFilename (Base url) else filename in
  filename +:+ ".md".

(** [scrapePage] on the outcome of its GET: [None] is any of its three
    error returns. *)
Definition scrapePage (s : Scraper) (url : string) (resp : option Document)
  : option Page :=
  match resp with
  | None => None
  | Some doc =>
    let content := nl +:+ "## Source: " +:+ url +:+ nl +:+ nl in
    let title := match doc_h1 doc with
                 | Some h1 => TrimSpace h1
                 | None => EmptyString
                 end in
    let content := match doc_h1 doc with
                   | Some _ => content +:+ "# " +:+ title +:+ nl +:+ nl
                   | None => content
                   end in
    let level := pageLevel s url in
    let content := fold_left (fun acc b => acc +:+ renderBlock b)
                             (doc_blocks doc) content in
    let content := content +:+ "---" +:+ nl +:+ nl in
    Some {| Title := title;
            Content := content;
            URL := url;
            Filename := pageFilename title url;
            Level := level |}
  end.

Definition corpusTitle (s : Scraper) : string :=
  TrimPrefix (TrimPrefix (baseURL s) "https://") "http://".

(** The text [createIndex] writes to [index.md]. *)
Definition indexContent (s : Scraper) : string :=
  fold_left
    (fun acc page =>
       acc +:+ Repeat "  " (Level page - 1) +:+ "- [" +:+ Title page
           +:+ "](" +:+ Filename page +:+ ") - [source](" +:+ URL page
           +:+ ")" +:+ nl)
    (pages s)
    ("# Documentation: " +:+ corpusTitle s +:+ nl +:+ nl
     +:+ "## Table of Contents" +:+ nl +:+ nl).

End Program.

(** ** The outside world and the crawl loop of [Scrape] *)

(** The network and the file system answer by the clock: the same URL may
    fail now and load later.  [http_get t url] is the parsed body of the
    GET issued at time [t], or [None] when the request, the transport or
    the parser reports an error; [mkdir_all] and [write_file] tell whether
    [os.MkdirAll] and [os.WriteFile] succeed. *)
Record World := {
  http_get : nat -> string -> option Document;
  mkdir_all : nat -> string -> bool;
  write_file : nat -> string -> string -> bool
}.

(** What a run does, in order.  [EvEnqueue] and [EvDequeue] record the
    queue operations of the loop; the others are calls that reach the
    outside world, with their outcome. *)
Inductive Event :=
| EvEnqueue (url : string)
| EvDequeue (url : string)
| EvScrape (url : string) (ok : bool)
| EvLinks (url : string) (ok : bool)
| EvWrite (path content : string) (ok : bool).

(** The state of a run: the scraper, the locals [links], [processed] and
    [mainContent] of [Scrape], and the world's side: the clock, the files
    written so far and the events so far. *)
Record Crawl := {
  scraper : Scraper;
  links : list string;
  processed : gmap string bool;
  mainContent : string;
  clock : nat;
  files : gmap string string;
  trace : list Event
}.

Definition with_links (l : list string) (c : Crawl) : Crawl :=
  {| scraper := scraper c; links := l; processed := processed c;
     mainContent := mainContent c; clock := clock c; files := files c;
     trace := trace c |}.

Definition with_processed (p : gmap string bool) (c : Crawl) : Crawl :=
  {| scraper := scraper c; links := links c; processed := p;
     mainContent := mainContent c; clock := clock c; files := files c;
     trace := trace c |}.

Definition with_mainContent (m : string) (c : Crawl) : Crawl :=
  {| scraper := scraper c; links := links c; processed := processed c;
     mainContent := m; clock := clock c; files := files c;
     trace := trace c |}.

Definition with_files (f : gmap string string) (c : Crawl) : Crawl :=
  {| scraper := scraper c; links := links c; processed := processed c;
     mainContent := mainContent c; clock := clock c; files := f;
     trace := trace c |}.

(** [s.pages = append(s.pages, page)]. *)
Definition add_page (page : Page) (c : Crawl) : Crawl :=
  {| scraper :=
       {| baseURL := baseURL (scraper c); outputPath := outputPath (scraper c);
          outputDir := outputDir (scraper c);
          visitedURLs := visitedURLs (scraper c);
          domainPrefix := domainPrefix (scraper c);
          organization := organization (scraper c);
          pages := pages (scraper c) ++ [page];
          singlePage := singlePage (scraper c) |};
     links := links c; processed := processed c;
     mainContent := mainContent c; clock := clock c; files := files c;
     trace := trace c |}.

(** A call that reaches the world: the clock advances. *)
Definition emit (evs : list Event) (c : Crawl) : Crawl :=
  {| scraper := scraper c; links := links c; processed := processed c;
     mainContent := mainContent c; clock := S (clock c); files := files c;
     trace := trace c ++ evs |}.

(** A queue operation: recorded, the clock stands. *)
Definition note (evs : list Event) (c : Crawl) : Crawl :=
  {| scraper := scraper c; links := links c; processed := processed c;
     mainContent := mainContent c; clock := clock c; files := files c;
     trace := trace c ++ evs |}.

Section Crawl.
Context {env : GoEnv}.
Variable w : World.
Import GoStrings GoPath.

(** [writeContentToFile]: the directory is made, then the file written;
    the result tells whether both succeeded. *)
Definition writeContentToFile (filepath content : string) (c : Crawl)
  : Crawl * bool :=
  if mkdir_all w (clock c) (Dir filepath)
     && write_file w (clock c) filepath content
  then (emit [EvWrite filepath content true]
             (with_files (<[filepath := content]> (files c)) c), true)
  else (emit [EvWrite filepath content false] c, false).

Definition createIndex (c : Crawl) : Crawl * bool :=
  writeContentToFile (Join (outputDir (scraper c)) "index.md")
                     (indexContent (scraper c)) c.

(** One turn of [for len(links) > 0]; the identity once the queue is
    empty.  The [log.Printf] lines and [humanizedDelay], which only sleeps,
    leave nothing in the state and are left out. *)
Definition iterate (c : Crawl) : Crawl :=
  match links c with
  | [] => c
  | currentURL :: rest =>
    let c := note [EvDequeue currentURL] (with_links rest c) in
    if mget (processed c) currentURL then c
    else
      match scrapePage (scraper c) currentURL
                       (http_get w (clock c) currentURL) with
      | None => emit [EvScrape currentURL false] c
      | Some page =>
        let c := emit [EvScrape currentURL true] c in
        let c :=
          match organization (scraper c) with
          | SingleFile =>
            with_mainContent (mainContent c +:+ Content page) c
          | ByChapters | ByPages =>
            fst (writeContentToFile
                   (Join (outputDir (scraper c)) (Filename page))
                   (Content page) c)
          end in
        let c := add_page page c in
        let c := with_processed (<[currentURL := true]> (processed c)) c in
        match getAllDocLinks (scraper c)
                             (http_get w (clock c) currentURL) with
        | None => emit [EvLinks currentURL false] c
        | Some newLinks =>
          let fresh :=
            List.filter (fun link => negb (mget (processed c) link))
                        newLinks in
          note (List.map EvEnqueue fresh)
               (emit [EvLinks currentURL true]
                     (with_links (links c ++ fresh) c))
        end
      end
  end.

(** The state [Scrape] enters its loop with. *)
Definition start (s : Scraper) : Crawl :=
  {| scraper := s; links := [baseURL s]; processed := ∅;
     mainContent := EmptyString; clock := 0; files := ∅;
     trace := [EvEnqueue (baseURL s)] |}.

(** The state after [n] turns of the loop. *)
Definition run (n : nat) (c : Crawl) : Crawl := Nat.iter n iterate c.

(** The loop run to the end, when [fuel] turns suffice. *)
Fixpoint crawl (fuel : nat) (c : Crawl) : option Crawl :=
  match links c with
  | [] => Some c
  | _ :: _ =>
    match fuel with
    | O => None
    | S k => crawl k (iterate c)
    end
  end.

(** The single-page branch of [Scrape]: no queue, no loop. *)
Definition scrapeSingle (s : Scraper) : Crawl * bool :=
  let c := {| scraper := s; links := []; processed := ∅;
              mainContent := EmptyString; clock := 0; files := ∅;
              trace := [] |} in
  match scrapePage s (baseURL s) (http_get w (clock c) (baseURL s)) with
  | None => (emit [EvScrape (baseURL s) false] c, false)
  | Some page =>
    let c := emit [EvScrape (baseURL s) true] c in
    match organization s with
    | SingleFile => writeContentToFile (outputPath s) (Content page) c
    | ByChapters | ByPages =>
      writeContentToFile (Join (outputDir s) (Filename page)) (Content page) c
    end
  end.

(** [Scrape]: the final state and whether the returned error is [nil];
    [None] when [fuel] turns of the loop leave the queue non-empty. *)
Definition Scrape (fuel : nat) (s : Scraper) : option (Crawl * bool) :=
  if singlePage s then Some (scrapeSingle s)
  else
    match crawl fuel (start s) with
    | None => None
    | Some c =>
      match organization (scraper c) with
      | SingleFile =>
        Some (writeContentToFile
                (outputPath (scraper c))
                ("# Documentation: " +:+ corpusTitle (scraper c) +:+ nl +:+ nl
                 +:+ mainContent c) c)
      | ByChapters | ByPages => Some (createIndex c)
      end
    end.

End Crawl.

(** ** The part of [net/url] the examples need *)

Module GoUrl.
Import GoUtf8 GoStrings.

Definition is_ctl (c : ascii) : bool :=
  ((byte_val c <? 32) || (byte_val c =? 127))%Z.

Definition is_letter (c : ascii) : bool :=
  (((65 <=? byte_val c) && (byte_val c <=? 90))
   || ((97 <=? byte_val c) && (byte_val c <=? 122)))%Z.

Definition is_digit (c : ascii) : bool :=
  ((48 <=? byte_val c) && (byte_val c <=? 57))%Z.

(** [strings.Cut] at a byte: the text before its first occurrence and,
    when it occurs, the text after. *)
Fixpoint cut (sep : ascii) (s : string) : string * option string :=
  match s with
  | EmptyString => (EmptyString, None)
  | String c t =>
    if Ascii.eqb c sep then (EmptyString, Some t)
    else let '(a, b) := cut sep t in (String c a, b)
  end.

Inductive scheme_result :=
| NoScheme
| MissingScheme
| HasScheme (len : nat).

(** [getScheme]: the scan for [scheme:] at the head of a URL, [i] bytes
    of which were read; the scheme found is the first [len] bytes. *)
Fixpoint getScheme (i : nat) (s : string) : scheme_result :=
  match s with
  | EmptyString => NoScheme
  | String c t =>
    if is_letter c then getScheme (S i) t
    else if is_digit c || mem_byte c "+-." then
      match i with O => NoScheme | _ => getScheme (S i) t end
    else if Ascii.eqb c ":"%char then
      match i with O => MissingScheme | _ => HasScheme i end
    else NoScheme
  end.

Definition hex_val (c : ascii) : option Z :=
  (if is_digit c then Some (byte_val c - 48)
   else if (97 <=? byte_val c) && (byte_val c <=? 102) then Some (byte_val c - 87)
   else if (65 <=? byte_val c) && (byte_val c <=? 70) then Some (byte_val c - 55)
   else None)%Z.

(** [unescape] in path mode: [%XX] is decoded, a [%] without two
    hexadecimal digits is an error. *)
Fixpoint unescape_from (skip : nat) (s : string) : option string :=
  match s with
  | EmptyString => Some EmptyString
  | String c t =>
    match skip with
    | S k => unescape_from k t
    | O =>
      if Ascii.eqb c "%"%char then
        match t with
        | String h (String l _) =>
          match hex_val h, hex_val l with
          | Some a, Some b =>
            option_map (String (byte_of (16 * a + b))) (unescape_from 2 t)
          | _, _ => None
          end
        | _ => None
        end
      else option_map (String c) (unescape_from 0 t)
    end
  end.

Definition unescape (s : string) : option string := unescape_from 0 s.

Definition host_byte (c : ascii) : bool :=
  is_letter c || is_digit c || mem_byte c ".-:".

(** [url.Parse] on the URLs of plain sites:
    [scheme://host[:port]/path?query#fragment], [scheme:opaque] and
    references without a scheme, with host names of letters, digits, [.]
    and [-].  It reports the errors of the real parser for a control byte,
    a bad [%] escape, a missing scheme and a colon in the first segment of
    a relative path.  An authority outside that alphabet (a space, user
    info, brackets, escapes) is answered [None] as well: the real parser
    refuses a space there, and the examples use none of the others. *)
Definition parse (rawURL : string) : option url_URL :=
  if negb (all_bytes (fun c => negb (is_ctl c)) rawURL) then None
  else
    let '(u, frag) := cut "#"%char rawURL in
    let frag := default EmptyString frag in
    let scanned := getScheme 0 u in
    match scanned with
    | MissingScheme => None
    | _ =>
      let '(scheme, rest) :=
        match scanned with
        | HasScheme n => (map_bytes lower_byte (slice_to n u), slice_from (S n) u)
        | _ => (EmptyString, u)
        end in
      let '(rest, query) := cut "?"%char rest in
      let query := default EmptyString query in
      let rooted := HasPrefix rest "/" in
      if negb rooted && negb (String.eqb scheme EmptyString) then
        option_map (fun f => {| Scheme := scheme; Opaque := rest;
                                Host := EmptyString; Path := EmptyString;
                                RawQuery := query; Fragment := f |})
                   (unescape frag)
      else if negb rooted && Contains (fst (cut "/"%char rest)) ":" then None
      else
        let '(host, path) :=
          if HasPrefix rest "//" && negb (HasPrefix rest "///")
             || HasPrefix rest "//" && negb (String.eqb scheme EmptyString)
          then
            let a := slice_from 2 rest in
            let host := fst (cut "/"%char a) in
            (host, slice_from (String.length host) a)
          else (EmptyString, rest) in
        if negb (all_bytes host_byte host) then None
        else
          match unescape path, unescape frag with
          | Some p, Some f =>
            Some {| Scheme := scheme; Opaque := EmptyString; Host := host;
                    Path := p; RawQuery := query; Fragment := f |}
          | _, _ => None
          end
    end.

(** [URL.String] for a URL with a host, or with an opaque part, whose path
    and fragment need no escaping. *)
Definition to_string (u : url_URL) : string :=
  (match Scheme u with EmptyString => EmptyString | sc => sc +:+ ":" end)
  +:+ (match Opaque u with
       | EmptyString =>
         (match Scheme u, Host u with
          | EmptyString, EmptyString => EmptyString
          | _, _ => "//" +:+ Host u
          end) +:+ Path u
       | o => o
       end)
  +:+ (match RawQuery u with EmptyString => EmptyString | q => "?" +:+ q end)
  +:+ (match Fragment u with EmptyString => EmptyString | f => "#" +:+ f end).

End GoUrl.

(** ** A concrete runtime and a concrete site, for the examples *)

Module Sample.
Import GoUtf8 GoStrings GoPath.

(** [unicode.ToLower] on U+0000..U+00FF; the identity elsewhere, which is
    what the real table does on U+FFFD, the only other rune the examples
    meet. *)
Definition to_lower (r : Z) : Z :=
  (if (65 <=? r) && (r <=? 90) then r + 32
   else if ((192 <=? r) && (r <=? 214)) || ((216 <=? r) && (r <=? 222))
   then r + 32
   else r)%Z.

(** [strings.TrimSpace] as its ASCII fast path computes it: exact on
    strings that neither start nor end with a non-ASCII byte once the
    ASCII white space is gone. *)
Definition trim_space (s : string) : string := Trim s asciiSpace.

Definition go : GoEnv :=
  {| unicode_ToLower := to_lower;
     TrimSpace := trim_space;
     url_Parse := GoUrl.parse;
     url_String := GoUrl.to_string |}.

(** A small documentation site. *)
Definition seed : string := "https://example.com/docs".
Definition page_a : string := "https://example.com/docs/a".
Definition page_b : string := "https://example.com/docs/b".

Definition doc (hrefs : list string) : Document :=
  {| doc_h1 := Some "Guide";
     doc_blocks := [Paragraph "text"];
     doc_hrefs := hrefs |}.

Definition disk_ok (get : nat -> string -> option Document) : World :=
  {| http_get := get;
     mkdir_all := fun _ _ => true;
     write_file := fun _ _ _ => true |}.

(** The seed links to [a] twice and to [b] twice; [a] links back to the
    seed; [b] never loads. *)
Definition site : World :=
  disk_ok (fun _ url =>
             if String.eqb url seed
             then Some (doc ["/docs/a"; "/docs/a"; "/docs/b"; "/docs/b"])
             else if String.eqb url page_a then Some (doc ["/docs"])
             else None).

(** The same pages when all of them load. *)
Definition healthy : World :=
  disk_ok (fun _ url =>
             if String.eqb url seed
             then Some (doc ["/docs/a"; "/docs/a"; "/docs/b"; "/docs/b"])
             else if String.eqb url page_a then Some (doc ["/docs"])
             else if String.eqb url page_b then Some (doc [])
             else None).

(** Nothing loads. *)
Definition offline : World := disk_ok (fun _ _ => None).

Definition scraper (org : Organization) (single : bool) : Scraper :=
  @NewScraper go seed "out/doc.md" org single.

(** A scraper whose base URL [url.Parse] refuses (a space in the host). *)
Definition scraper_bad_base : Scraper :=
  @NewScraper go "https://exa mple.com/docs" "out/doc.md" SingleFile false.

(** The same seed with the separator at its end. *)
Definition scraper_slash : Scraper :=
  @NewScraper go "https://example.com/docs/" "out/doc.md" SingleFile false.

(** The seed links to a page past a doubled separator and to a page
    outside the base path; every page loads. *)
Definition byways : World :=
  disk_ok (fun _ url =>
             if String.eqb url seed then Some (doc ["/docs/a//b"; "/other/x"])
             else Some (doc [])).

(** 99 bytes [a], then U+00E9 in its two bytes. *)
Definition long_name : string :=
  Repeat "a" 99 +:+ String (byte_of 195) (String (byte_of 169) EmptyString).


Definition no_page : Page :=
  {| Title := EmptyString; Content := EmptyString; URL := EmptyString;
     Filename := EmptyString; Level := 0 |}.

(** The page [scrapePage] makes of the seed of the healthy site. *)
Definition seed_page : Page :=
  default no_page
          (@scrapePage go (scraper ByPages true) seed (http_get healthy 0 seed)).

End Sample.

(** * The vocabulary of the statements *)

(** ** Strings *)

(** [s[:Index(s, sep)]], the whole of [s] when [sep] does not occur. *)
Fixpoint before_first (sep s : string) : string :=
  if String.prefix sep s then EmptyString
  else match s with
       | EmptyString => EmptyString
       | String c t => String c (before_first sep t)
       end.

(** [s[Index(s, sep)+len(sep):]], when [sep] occurs. *)
Fixpoint after_first (sep s : string) : option string :=
  if String.prefix sep s
  then Some (GoStrings.slice_from (String.length sep) s)
  else match s with
       | EmptyString => None
       | String _ t => after_first sep t
       end.

(** [sub] occurs in [s]. *)
Definition infix_of (sub s : string) : Prop :=
  exists a b, s = a +:+ sub +:+ b.

Fixpoint count_byte (c : ascii) (s : string) : nat :=
  match s with
  | EmptyString => 0
  | String d t => (if Ascii.eqb d c then 1 else 0) + count_byte c t
  end.

Definition no_byte (c : ascii) (s : string) : bool :=
  GoStrings.all_bytes (fun d => negb (Ascii.eqb d c)) s.

(** A path segment: not empty, no separator in it. *)
Definition segment (seg : string) : Prop :=
  seg <> EmptyString /\ no_byte "/" seg = true.

Definition subst_byte (c d x : ascii) : ascii := if Ascii.eqb x c then d else x.

(** ** File names *)

(** The bytes [sanitizeFilename] replaces: the entries of [invalid]. *)
Definition unsafe_byte (c : ascii) : bool :=
  GoStrings.mem_byte c ("/" +:+ backslash +:+ "?%*:|" +:+ dquote +:+ "<>. ").

Definition scrub (c : ascii) : ascii := if unsafe_byte c then "_"%char else c.

Definition safe_byte (c : ascii) : bool := negb (unsafe_byte c).

Definition not_upper (c : ascii) : bool := negb (GoStrings.is_upper c).

(** The name before the cut at 100 bytes. *)
Definition scrubbed {env : GoEnv} (name : string) : string :=
  let r := GoStrings.map_bytes scrub (GoStrings.ToLower unicode_ToLower name) in
  if String.length r =? 0 then "unnamed" else r.

(** ** URLs *)

(** A URL reference that starts with [scheme:], as [getScheme] of [net/url]
    and RFC 3986 read it. *)
Definition has_scheme (href : string) : bool :=
  match GoUrl.getScheme 0 href with
  | GoUrl.HasScheme _ => true
  | _ => false
  end.

(** Both URLs parse and name the same host. *)
Definition same_host {env : GoEnv} (s : Scraper) (urlStr : string) : Prop :=
  exists base checkURL,
    url_Parse (baseURL s) = Some base /\ url_Parse urlStr = Some checkURL
    /\ Host checkURL = Host base.

(** Both URLs parse and name different hosts. *)
Definition other_host {env : GoEnv} (s : Scraper) (urlStr : string) : Prop :=
  exists base checkURL,
    url_Parse (baseURL s) = Some base /\ url_Parse urlStr = Some checkURL
    /\ Host checkURL <> Host base.

(** The path of the URL, relative to the path of the base URL, contains an
    entry of [ignorePaths]. *)
Definition denylisted {env : GoEnv} (s : Scraper) (urlStr : string) : Prop :=
  exists base checkURL ignore,
    url_Parse (baseURL s) = Some base /\ url_Parse urlStr = Some checkURL
    /\ In ignore ignorePaths
    /\ infix_of ignore (GoStrings.TrimPrefix (Path checkURL) (Path base)).

(** ** Depth *)

(** The level as the specification words it: the number of non-empty
    segments of what is left of the URL once the base URL is stripped and
    the separators are trimmed, 1 at least. *)
Definition claimedLevel (s : Scraper) (url : string) : nat :=
  Nat.max 1
    (List.length
       (List.filter (fun seg => negb (String.eqb seg EmptyString))
          (GoStrings.Split
             (GoStrings.Trim (GoStrings.TrimPrefix url (baseURL s)) "/") "/"))).

(** ** Code fences *)






(** ** Traces *)

Definition enqueued (tr : list Event) : list string :=
  omap (fun e => match e with EvEnqueue u => Some u | _ => None end) tr.

Definition dequeued (tr : list Event) : list string :=
  omap (fun e => match e with EvDequeue u => Some u | _ => None end) tr.

(** The URLs [scrapePage] was called on, in order. *)
Definition attempts (tr : list Event) : list string :=
  omap (fun e => match e with EvScrape u _ => Some u | _ => None end) tr.

(** The URLs whose [scrapePage] call succeeded ([ok = true]) or failed. *)
Definition scraped (ok : bool) (tr : list Event) : list string :=
  omap (fun e => match e with
                 | EvScrape u b => if Bool.eqb b ok then Some u else None
                 | _ => None
                 end) tr.

(** The calls of [writeContentToFile]: path and content. *)
Definition writes (tr : list Event) : list (string * string) :=
  omap (fun e => match e with EvWrite p ct _ => Some (p, ct) | _ => None end) tr.

Definition is_write (e : Event) : Prop :=
  match e with EvWrite _ _ _ => True | _ => False end.

(** Two scrapers that differ in their [pages] at most. *)
Definition same_config (s s' : Scraper) : Prop :=
  baseURL s' = baseURL s /\ outputPath s' = outputPath s
  /\ outputDir s' = outputDir s /\ visitedURLs s' = visitedURLs s
  /\ domainPrefix s' = domainPrefix s /\ organization s' = organization s
  /\ singlePage s' = singlePage s.

(** Where the single-page branch writes the page. *)
Definition singleTarget (s : Scraper) (page : Page) : string :=
  match organization s with
  | SingleFile => outputPath s
  | ByChapters | ByPages => GoPath.Join (outputDir s) (Filename page)
  end.

Section Relations.
Context {env : GoEnv}.
Variable w : World.

(** One turn of the loop as a relation between states: the head of the
    queue is skipped, fails, or yields a page (and perhaps links). *)
Inductive turn (c c' : Crawl) : Prop :=
| turn_skip u rest :
    links c = u :: rest ->
    mget (processed c) u = true ->
    c' = note [EvDequeue u] (with_links rest c) ->
    turn c c'
| turn_fail u rest :
    links c = u :: rest ->
    mget (processed c) u = false ->
    scrapePage (scraper c) u (http_get w (clock c) u) = None ->
    c' = emit [EvScrape u false] (note [EvDequeue u] (with_links rest c)) ->
    turn c c'
| turn_page u rest page wr lk fresh :
    links c = u :: rest ->
    mget (processed c) u = false ->
    scrapePage (scraper c) u (http_get w (clock c) u) = Some page ->
    links c' = rest ++ fresh ->
    processed c' = <[u := true]> (processed c) ->
    pages (scraper c') = pages (scraper c) ++ [page] ->
    same_config (scraper c) (scraper c') ->
    trace c' = trace c ++ [EvDequeue u; EvScrape u true] ++ wr
                       ++ [EvLinks u lk] ++ List.map EvEnqueue fresh ->
    Forall is_write wr ->
    Forall (fun l => mget (processed c') l = false) fresh ->
    turn c c'.

(** What every state of a run started from scraper [s0] satisfies. *)
Record Inv (s0 : Scraper) (c : Crawl) : Prop := {
  inv_config : same_config s0 (scraper c);
  inv_pages :
    List.map URL (pages (scraper c))
    = List.map URL (pages s0) ++ scraped true (trace c);
  inv_nodup : NoDup (scraped true (trace c));
  inv_dom : dom (processed c) = list_to_set (scraped true (trace c));
  inv_true : forall u b, processed c !! u = Some b -> b = true;
  inv_queue : enqueued (trace c) = dequeued (trace c) ++ links c;
  inv_dequeued :
    forall u, u ∈ dequeued (trace c)
              <-> u ∈ scraped true (trace c) \/ u ∈ scraped false (trace c);
  inv_attempts : attempts (trace c) `sublist_of` dequeued (trace c)
}.

End Relations.

(** * The vocabulary of the further properties *)

(** ** The turns of the loop in full *)

Section Steps.
Context {env : GoEnv}.
Variable w : World.

(** What a turn does with the page it made: appended to the corpus in mode
    single, written to a file of its own in modes chapters and pages,
    whether or not the write succeeds. *)
Definition kept (c c' : Crawl) (page : Page) (wr : list Event) : Prop :=
  match organization (scraper c) with
  | SingleFile =>
    wr = [] /\ mainContent c' = mainContent c +:+ Content page
    /\ files c' = files c
  | ByChapters | ByPages =>
    exists ok,
      ok = (mkdir_all w (S (clock c))
              (GoPath.Dir (GoPath.Join (outputDir (scraper c)) (Filename page)))
            && write_file w (S (clock c))
                 (GoPath.Join (outputDir (scraper c)) (Filename page))
                 (Content page))
      /\ wr = [EvWrite (GoPath.Join (outputDir (scraper c)) (Filename page))
                       (Content page) ok]
      /\ mainContent c' = mainContent c
      /\ files c'
         = if ok
           then <[GoPath.Join (outputDir (scraper c)) (Filename page)
                  := Content page]> (files c)
           else files c
  end.

(** The clock when a turn that makes a page calls [getAllDocLinks]: the
    scrape and, in modes chapters and pages, the write have advanced it. *)
Definition linkTime (c : Crawl) : nat :=
  match organization (scraper c) with
  | SingleFile => S (clock c)
  | ByChapters | ByPages => S (S (clock c))
  end.

(** What a turn does after the page was recorded: [getAllDocLinks] fetches
    the URL a second time; [lk] tells whether that succeeded and [fresh] is
    what goes to the back of the queue. *)
Definition followed (c : Crawl) (u : string) (lk : bool) (fresh : list string)
  : Prop :=
  match getAllDocLinks (scraper c) (http_get w (linkTime c) u) with
  | None => lk = false /\ fresh = []
  | Some newLinks =>
    lk = true
    /\ fresh = List.filter
                 (fun l => negb (mget (<[u := true]> (processed c)) l))
                 newLinks
  end.

(** One call of [iterate], case by case, with everything it changes. *)
Inductive step (c c' : Crawl) : Prop :=
| step_done :
    links c = [] -> c' = c -> step c c'
| step_skip u rest :
    links c = u :: rest ->
    mget (processed c) u = true ->
    c' = note [EvDequeue u] (with_links rest c) ->
    step c c'
| step_fail u rest :
    links c = u :: rest ->
    mget (processed c) u = false ->
    scrapePage (scraper c) u (http_get w (clock c) u) = None ->
    c' = emit [EvScrape u false] (note [EvDequeue u] (with_links rest c)) ->
    step c c'
| step_page u rest page wr lk fresh :
    links c = u :: rest ->
    mget (processed c) u = false ->
    scrapePage (scraper c) u (http_get w (clock c) u) = Some page ->
    links c' = rest ++ fresh ->
    processed c' = <[u := true]> (processed c) ->
    pages (scraper c') = pages (scraper c) ++ [page] ->
    same_config (scraper c) (scraper c') ->
    trace c' = trace c ++ [EvDequeue u; EvScrape u true] ++ wr
                       ++ [EvLinks u lk] ++ List.map EvEnqueue fresh ->
    clock c' = S (linkTime c) ->
    kept c c' page wr ->
    followed c u lk fresh ->
    step c c'.

End Steps.

(** ** The books of a run *)

(** The successful writes of a trace replayed on an empty disk; a later
    write to a path replaces what an earlier one left there. *)
Definition written (m : gmap string string) (e : Event) : gmap string string :=
  match e with
  | EvWrite p ct true => <[p := ct]> m
  | _ => m
  end.

Definition replay (tr : list Event) : gmap string string :=
  fold_left written tr ∅.

(** The URLs [getAllDocLinks] was called on, in order. *)
Definition linkFetches (tr : list Event) : list string :=
  omap (fun e => match e with EvLinks u _ => Some u | _ => None end) tr.

(** The write of a page in modes chapters and pages: path and content. *)
Definition pageFile (s : Scraper) (page : Page) : string * string :=
  (GoPath.Join (outputDir s) (Filename page), Content page).

(** A URL the crawl may meet: the seed, or a link [getAllDocLinks] lets
    through. *)
Definition admitted {env : GoEnv} (s : Scraper) (u : string) : Prop :=
  u = baseURL s \/ (u <> EmptyString /\ shouldProcessURL s u = true).

Section Books.
Context {env : GoEnv}.
Variable w : World.

(** What every state of a run started from scraper [s0] satisfies, [ps]
    being the pages recorded since the start. *)
Record Ledger (s0 : Scraper) (c : Crawl) (ps : list Page) : Prop := {
  led_pages : pages (scraper c) = pages s0 ++ ps;
  led_made :
    Forall (fun p => exists t,
                scrapePage s0 (URL p) (http_get w t (URL p)) = Some p) ps;
  led_store :
    match organization s0 with
    | SingleFile =>
      mainContent c = String.concat EmptyString (List.map Content ps)
      /\ writes (trace c) = []
    | ByChapters | ByPages =>
      mainContent c = EmptyString
      /\ writes (trace c) = List.map (pageFile s0) ps
    end;
  led_files : files c = replay (trace c);
  led_fetch : linkFetches (trace c) = scraped true (trace c);
  led_scope : Forall (admitted s0) (enqueued (trace c))
}.

End Books.

(** ** The index and the last write *)

(** The head of [index.md] and one entry of its table of contents. *)
Definition indexHeader (s : Scraper) : string :=
  "# Documentation: " +:+ corpusTitle s +:+ nl +:+ nl
  +:+ "## Table of Contents" +:+ nl +:+ nl.

Definition indexLine (page : Page) : string :=
  GoStrings.Repeat "  " (Level page - 1) +:+ "- [" +:+ Title page
  +:+ "](" +:+ Filename page +:+ ") - [source](" +:+ URL page
  +:+ ")" +:+ nl.

(** The write [Scrape] ends a crawl with: path and content. *)
Definition finalFile (c : Crawl) : string * string :=
  match organization (scraper c) with
  | SingleFile =>
    (outputPath (scraper c),
     "# Documentation: " +:+ corpusTitle (scraper c) +:+ nl +:+ nl
     +:+ mainContent c)
  | ByChapters | ByPages =>
    (GoPath.Join (outputDir (scraper c)) "index.md", indexContent (scraper c))
  end.

(** ** More of the sample site *)

Module Scenes.

(** The seed answers the first request only: its links cannot be read. *)
Definition once : World :=
  Sample.disk_ok (fun t url =>
                    if (t =? 0) && String.eqb url Sample.seed
                    then Some (Sample.doc ["/docs/a"])
                    else None).

End Scenes.

(** ** Sites a crawl comes to the end of *)

(** Whatever is fetched, and whenever, [getAllDocLinks] returns at most [k]
    links, all of them among the seed and the URLs [urls]. *)
Definition finite_site {env : GoEnv} (w : World) (s : Scraper)
    (urls : list string) (k : nat) : Prop :=
  forall t u found,
    getAllDocLinks s (http_get w t u) = Some found ->
    List.length found <= k /\ Forall (fun l => In l (baseURL s :: urls)) found.

(** The number of URLs of a list that are not marked processed. *)
Definition pending (m : gmap string bool) (urls : list string) : nat :=
  List.length (List.filter (fun u => negb (mget m u)) urls).

(** A bound on the turns a crawl still has before it: the queue, and [k]
    links for every URL that may still yield a page. *)
Definition budget (s : Scraper) (urls : list string) (k : nat) (c : Crawl) : nat :=
  List.length (links c) + k * pending (processed c) (baseURL s :: urls).

(** ** Modes chapters and pages *)

(** A crawl state with the organization of its scraper set to pages. *)
Definition as_pages (c : Crawl) : Crawl :=
  {| scraper :=
       {| baseURL := baseURL (scraper c); outputPath := outputPath (scraper c);
          outputDir := outputDir (scraper c);
          visitedURLs := visitedURLs (scraper c);
          domainPrefix := domainPrefix (scraper c);
          organization := ByPages;
          pages := pages (scraper c);
          singlePage := singlePage (scraper c) |};
     links := links c; processed := processed c;
     mainContent := mainContent c; clock := clock c; files := files c;
     trace := trace c |}.

(** ** Rendering *)



(** ** Paths *)

(** A name that names a file of the directory it is joined to: not empty,
    without a separator, and neither [.] nor [..]. *)
Definition plain (name : string) : Prop :=
  name <> EmptyString /\ no_byte "/" name = true
  /\ name <> "."%string /\ name <> ".."%string.

(** An element [Clean] keeps: not empty, not [.], without a separator. *)
Definition good (e : string) : Prop :=
  e <> EmptyString /\ e <> "."%string /\ no_byte "/" e = true.

(** What [filepath.Join] puts before a plain name: the cleaned directory
    and a separator; nothing at all for the current directory. *)
Definition under (dir : string) : string :=
  if String.eqb (GoPath.Clean dir) "." then EmptyString
  else if String.eqb (GoPath.Clean dir) "/" then "/"
  else GoPath.Clean dir +:+ "/".

(** A stack [Clean] can hold, last element first: good elements, with
    [..] only at the bottom of a path that is not rooted. *)
Fixpoint tidy (rooted : bool) (st : list string) : Prop :=
  match st with
  | [] => True
  | e :: rest =>
    good e /\ tidy rooted rest
    /\ (e = ".."%string ->
        rooted = false /\ (rest = [] \/ List.hd EmptyString rest = ".."%string))
  end.

(** The URLs of a list, each at its first occurrence. *)
Definition first_seen (l : list string) : list string :=
  fold_left (fun acc u => if existsb (String.eqb u) acc then acc
                          else (acc ++ [u])%list)
            l [].

(** * Facts about the byte-string functions *)

#[local] Arguments String.append : simpl nomatch.

Ltac by_bytes c :=
  destruct c as [[|] [|] [|] [|] [|] [|] [|] [|]]; vm_compute;
  try reflexivity; try discriminate.

Section StringFacts.
Import GoUtf8 GoStrings.

Lemma byte_val_range c : (0 <= byte_val c < 256)%Z.
Proof. by_bytes c; split; discriminate || reflexivity. Qed.

Lemma byte_val_of z : byte_val (byte_of z) = Z.land z 255.
Proof.
  unfold byte_val, byte_of.
  assert (H : (0 <= Z.land z 255 < 256)%Z).
  { change 255%Z with (Z.ones 8). rewrite Z.land_ones by lia.
    apply Z.mod_pos_bound. reflexivity. }
  rewrite N_ascii_embedding; [rewrite Z2N.id|]; lia.
Qed.

Lemma byte_val_of_small z : (0 <= z < 256)%Z -> byte_val (byte_of z) = z.
Proof.
  intros H. rewrite byte_val_of. change 255%Z with (Z.ones 8).
  rewrite Z.land_ones by lia. apply Z.mod_small. lia.
Qed.

(** A byte built by or-ing onto a marker with bit 7 set is not ASCII. *)
Lemma high_byte a y :
  Z.testbit a 7 = true -> (128 <= byte_val (byte_of (Z.lor a y)))%Z.
Proof.
  intros Ha. rewrite byte_val_of.
  set (v := Z.land (Z.lor a y) 255).
  assert (Hr : (0 <= v < 256)%Z).
  { subst v. change 255%Z with (Z.ones 8). rewrite Z.land_ones by lia.
    apply Z.mod_pos_bound. reflexivity. }
  assert (Hb : Z.testbit v 7 = true).
  { subst v. rewrite Z.land_spec, Z.lor_spec, Ha. reflexivity. }
  destruct (Z_lt_le_dec v 128) as [Hlt|]; [|assumption].
  rewrite Z.testbit_true in Hb by lia.
  change (2 ^ 7)%Z with 128%Z in Hb.
  rewrite Z.div_small in Hb by lia. discriminate.
Qed.

(** ** Length, [slice_to], [slice_from], append *)

Lemma str_length_app (a b : string) :
  String.length (a +:+ b) = String.length a + String.length b.
Proof. induction a; simpl; auto. Qed.

Lemma str_app_empty_r (a : string) : a +:+ EmptyString = a.
Proof. induction a; simpl; congruence. Qed.

Lemma str_app_assoc (a b c : string) : (a +:+ b) +:+ c = a +:+ (b +:+ c).
Proof. induction a; simpl; congruence. Qed.

Lemma length_slice_to n s : String.length (slice_to n s) = Nat.min n (String.length s).
Proof.
  unfold slice_to. revert s. induction n; intros [|c s]; simpl; auto.
Qed.

Lemma slice_to_all n s : String.length s <= n -> slice_to n s = s.
Proof.
  unfold slice_to. revert s. induction n; intros [|c s]; simpl; intros H;
    try reflexivity; try lia.
  f_equal. apply IHn. lia.
Qed.

Lemma str_prefix_app (p r : string) : String.prefix p (p +:+ r) = true.
Proof.
  induction p as [|c p IH]; simpl.
  - destruct r; reflexivity.
  - destruct (ascii_dec c c); [assumption|contradiction].
Qed.

Lemma str_prefix_split (p s : string) :
  String.prefix p s = true -> s = p +:+ slice_from (String.length p) s.
Proof.
  revert s. induction p as [|c p IH]; intros s H; simpl.
  - reflexivity.
  - destruct s as [|d s]; simpl in H; [discriminate|].
    destruct (ascii_dec c d); [|discriminate]. subst. f_equal. auto.
Qed.

Lemma slice_from_app (p r : string) : slice_from (String.length p) (p +:+ r) = r.
Proof. induction p; simpl; auto. Qed.

Lemma str_prefix_iff (p s : string) :
  String.prefix p s = true <-> exists r, s = p +:+ r.
Proof.
  split.
  - intros H. eexists. apply str_prefix_split, H.
  - intros [r ->]. apply str_prefix_app.
Qed.

Lemma TrimPrefix_app (p r : string) : TrimPrefix (p +:+ r) p = r.
Proof. unfold TrimPrefix, HasPrefix. rewrite str_prefix_app. apply slice_from_app. Qed.

(** ** Bytewise predicates and maps *)

Lemma all_bytes_app p (a b : string) :
  all_bytes p (a +:+ b) = all_bytes p a && all_bytes p b.
Proof. induction a; simpl; auto. rewrite IHa. apply andb_assoc. Qed.

Lemma all_bytes_slice_to p n s : all_bytes p s = true -> all_bytes p (slice_to n s) = true.
Proof.
  unfold slice_to. revert s. induction n; intros [|c s]; simpl; auto.
  intros H. apply andb_true_iff in H as [-> H]. simpl. auto.
Qed.

Lemma all_bytes_impl (p q : ascii -> bool) s :
  (forall c, p c = true -> q c = true) ->
  all_bytes p s = true -> all_bytes q s = true.
Proof.
  intros Hpq. induction s; simpl; auto.
  intros H. apply andb_true_iff in H as [H1 H2].
  rewrite (Hpq _ H1). simpl. auto.
Qed.

Lemma all_bytes_map p f s :
  all_bytes p (map_bytes f s) = all_bytes (fun c => p (f c)) s.
Proof. induction s; simpl; congruence. Qed.

Lemma all_bytes_and p q s :
  all_bytes (fun c => p c && q c) s = all_bytes p s && all_bytes q s.
Proof.
  induction s; simpl; auto. rewrite IHs.
  destruct (p a), (q a), (all_bytes p s), (all_bytes q s); reflexivity.
Qed.

Lemma map_bytes_map f g s : map_bytes f (map_bytes g s) = map_bytes (fun c => f (g c)) s.
Proof. induction s; simpl; congruence. Qed.

Lemma map_bytes_ext f g s : (forall c, f c = g c) -> map_bytes f s = map_bytes g s.
Proof. intros H. induction s; simpl; congruence. Qed.

Lemma map_bytes_fix p f s :
  (forall c, p c = true -> f c = c) -> all_bytes p s = true -> map_bytes f s = s.
Proof.
  intros H. induction s; simpl; auto.
  intros Hs. apply andb_true_iff in Hs as [H1 H2].
  rewrite (H _ H1). f_equal. auto.
Qed.

Lemma length_map_bytes f s : String.length (map_bytes f s) = String.length s.
Proof. induction s; simpl; congruence. Qed.

Lemma str_concat_cons (s : string) (l : list string) :
  String.concat EmptyString (s :: l) = s +:+ String.concat EmptyString l.
Proof. destruct l; simpl; [symmetry; apply str_app_empty_r | reflexivity]. Qed.

Lemma all_bytes_concat p (l : list string) :
  Forall (fun s => all_bytes p s = true) l ->
  all_bytes p (String.concat EmptyString l) = true.
Proof.
  induction 1 as [|s l Hs Hl IH]; [reflexivity|].
  rewrite str_concat_cons, all_bytes_app, Hs, IH. reflexivity.
Qed.

(** ** [ReplaceAll] of one byte by one byte *)


Lemma ReplaceAll_byte c d s :
  ReplaceAll s (String c EmptyString) (String d EmptyString)
  = map_bytes (subst_byte c d) s.
Proof.
  unfold ReplaceAll. induction s as [|a s IH]; [reflexivity|].
  unfold replace_from; fold replace_from. unfold String.prefix; fold String.prefix.
  unfold subst_byte at 1. simpl map_bytes.
  destruct (ascii_dec c a) as [->|Hne].
  - rewrite Ascii.eqb_refl.
    replace (String.prefix EmptyString s) with true by (destruct s; reflexivity).
    simpl. f_equal. exact IH.
  - replace (Ascii.eqb a c) with false
      by (symmetry; apply Ascii.eqb_neq; congruence).
    f_equal. exact IH.
Qed.

End StringFacts.


(** * [sanitizeFilename] *)

Section SanitizeFacts.
Import GoUtf8 GoStrings.

Lemma scrub_safe c : safe_byte (scrub c) = true.
Proof. by_bytes c. Qed.

Lemma scrub_fix c : safe_byte c = true -> scrub c = c.
Proof. by_bytes c. Qed.

Lemma scrub_not_upper c : not_upper c = true -> not_upper (scrub c) = true.
Proof. by_bytes c. Qed.

Lemma scrub_ascii c : is_ascii c = true -> is_ascii (scrub c) = true.
Proof. by_bytes c. Qed.

Lemma lower_byte_not_upper c : not_upper (lower_byte c) = true.
Proof. by_bytes c. Qed.

Lemma lower_byte_ascii c : is_ascii c = true -> is_ascii (lower_byte c) = true.
Proof. by_bytes c. Qed.

Lemma lower_byte_fix c : not_upper c = true -> lower_byte c = c.
Proof. by_bytes c. Qed.

Lemma replace_invalid (r : string) :
  fold_left (fun r char => ReplaceAll r char "_") invalid r = map_bytes scrub r.
Proof.
  cbv beta iota delta [fold_left invalid dquote backslash].
  rewrite !ReplaceAll_byte, !map_bytes_map.
  apply map_bytes_ext. intros c. by_bytes c.
Qed.

(** ** [ToLower] *)

Lemma ToLower_ascii tolower s :
  all_bytes is_ascii s = true -> ToLower tolower s = map_bytes lower_byte s.
Proof.
  intros H. unfold ToLower. rewrite H.
  destruct (all_bytes (fun c => negb (is_upper c)) s) eqn:Hu; [|reflexivity].
  symmetry. eapply map_bytes_fix; [|exact Hu]. apply lower_byte_fix.
Qed.

Lemma ToLower_fix tolower s :
  all_bytes is_ascii s = true -> all_bytes not_upper s = true ->
  ToLower tolower s = s.
Proof.
  intros Ha Hu. rewrite ToLower_ascii by assumption.
  eapply map_bytes_fix; [|exact Hu]. apply lower_byte_fix.
Qed.

Lemma high_not_upper a y :
  Z.testbit a 7 = true -> not_upper (byte_of (Z.lor a y)) = true.
Proof.
  intros Ha. pose proof (high_byte a y Ha) as H.
  unfold not_upper, is_upper.
  destruct (Z.leb_spec (byte_val (byte_of (Z.lor a y))) 90); [lia|].
  rewrite andb_false_r. reflexivity.
Qed.

Lemma encode3_not_upper r : all_bytes not_upper (encode3 r) = true.
Proof.
  unfold encode3. cbn [all_bytes].
  rewrite !high_not_upper by reflexivity. reflexivity.
Qed.

Lemma EncodeRune_not_upper r :
  ~ (65 <= r <= 90)%Z -> all_bytes not_upper (EncodeRune r) = true.
Proof.
  intros Hr. unfold EncodeRune.
  destruct ((0 <=? r)%Z && (r <=? 127)%Z) eqn:H1.
  - apply andb_true_iff in H1 as [H0 H1].
    apply Z.leb_le in H0, H1. cbn [all_bytes].
    unfold not_upper, is_upper. rewrite byte_val_of_small by lia.
    destruct (Z.leb_spec 65 r), (Z.leb_spec r 90); simpl; try reflexivity; lia.
  - destruct ((0 <=? r)%Z && (r <=? 2047)%Z).
    { cbn [all_bytes]. rewrite !high_not_upper by reflexivity. reflexivity. }
    destruct ((r <? 0)%Z || (MaxRune <? r)%Z || (55296 <=? r)%Z && (r <=? 57343)%Z).
    { apply encode3_not_upper. }
    destruct (r <=? 65535)%Z; [apply encode3_not_upper|].
    cbn [all_bytes]. rewrite !high_not_upper by reflexivity. reflexivity.
Qed.

Lemma Map_not_upper mapping s :
  (forall r, ~ (65 <= mapping r <= 90)%Z) ->
  all_bytes not_upper (Map mapping s) = true.
Proof.
  intros H. unfold Map. apply all_bytes_concat.
  induction (runes s) as [|c l IH]; simpl; constructor; [|exact IH].
  destruct (0 <=? mapping c)%Z; [|reflexivity].
  apply EncodeRune_not_upper, H.
Qed.

Lemma ToLower_not_upper tolower s :
  (forall r, ~ (65 <= tolower r <= 90)%Z) ->
  all_bytes not_upper (ToLower tolower s) = true.
Proof.
  intros H. unfold ToLower.
  destruct (all_bytes is_ascii s).
  - destruct (all_bytes (fun c => negb (is_upper c)) s) eqn:Hu; [exact Hu|].
    rewrite all_bytes_map. clear. induction s; simpl; auto.
    rewrite lower_byte_not_upper. assumption.
  - apply Map_not_upper, H.
Qed.

(** ** The shape of [sanitizeFilename] *)

Context {env : GoEnv}.


Lemma sanitizeFilename_eq name :
  sanitizeFilename name
  = if 100 <? String.length (scrubbed name) then slice_to 100 (scrubbed name)
    else scrubbed name.
Proof. unfold sanitizeFilename, scrubbed. rewrite replace_invalid. reflexivity. Qed.

Lemma scrubbed_nonempty name : 0 < String.length (scrubbed name).
Proof.
  unfold scrubbed.
  destruct (Nat.eqb_spec
              (String.length (map_bytes scrub (ToLower unicode_ToLower name))) 0);
    simpl; lia.
Qed.

Lemma scrubbed_all p name :
  (forall c, p (scrub c) = true) -> all_bytes p "unnamed" = true ->
  all_bytes p (scrubbed name) = true.
Proof.
  intros Hs Hu. unfold scrubbed.
  destruct (String.length _ =? 0); [assumption|].
  rewrite all_bytes_map. induction (ToLower _ _); simpl; auto.
  rewrite Hs. assumption.
Qed.

Lemma sanitizeFilename_all p name :
  all_bytes p (scrubbed name) = true ->
  all_bytes p (sanitizeFilename name) = true.
Proof.
  intros H. rewrite sanitizeFilename_eq.
  destruct (100 <? _); [apply all_bytes_slice_to|]; assumption.
Qed.

Lemma sanitizeFilename_length name :
  0 < String.length (sanitizeFilename name) <= 100.
Proof.
  rewrite sanitizeFilename_eq. pose proof (scrubbed_nonempty name).
  destruct (Nat.ltb_spec 100 (String.length (scrubbed name))).
  - rewrite length_slice_to. lia.
  - lia.
Qed.

Lemma sanitizeFilename_safe name :
  all_bytes safe_byte (sanitizeFilename name) = true.
Proof.
  apply sanitizeFilename_all, scrubbed_all; [apply scrub_safe|reflexivity].
Qed.

Lemma sanitizeFilename_not_upper name :
  (forall r, ~ (65 <= unicode_ToLower r <= 90)%Z) ->
  all_bytes not_upper (sanitizeFilename name) = true.
Proof.
  intros H. apply sanitizeFilename_all. unfold scrubbed.
  destruct (String.length _ =? 0); [reflexivity|].
  rewrite all_bytes_map.
  eapply all_bytes_impl; [|apply (ToLower_not_upper _ name H)].
  intros c. apply scrub_not_upper.
Qed.

Lemma sanitizeFilename_ascii name :
  all_bytes is_ascii name = true ->
  all_bytes is_ascii (sanitizeFilename name) = true
  /\ all_bytes not_upper (sanitizeFilename name) = true.
Proof.
  intros Ha. split; apply sanitizeFilename_all; unfold scrubbed;
    (destruct (String.length _ =? 0); [reflexivity|]);
    rewrite ToLower_ascii by assumption;
    rewrite map_bytes_map, all_bytes_map.
  - eapply all_bytes_impl; [|exact Ha].
    intros c Hc. apply scrub_ascii, lower_byte_ascii, Hc.
  - clear. induction name; simpl; auto.
    rewrite scrub_not_upper by apply lower_byte_not_upper. assumption.
Qed.

(** A name that lower-casing leaves alone, free of reserved bytes, not
    empty and at most 100 bytes long is a fixed point. *)
Lemma sanitizeFilename_fixed o :
  ToLower unicode_ToLower o = o ->
  all_bytes safe_byte o = true ->
  0 < String.length o <= 100 ->
  sanitizeFilename o = o.
Proof.
  intros Hl Hs Hn. rewrite sanitizeFilename_eq. unfold scrubbed.
  rewrite Hl. rewrite (map_bytes_fix safe_byte scrub o scrub_fix Hs).
  destruct (Nat.eqb_spec (String.length o) 0); [lia|].
  destruct (Nat.ltb_spec 100 (String.length o)); [lia|reflexivity].
Qed.

End SanitizeFacts.


(** * Searching and splitting *)

Section SplitFacts.
Import GoUtf8 GoStrings.

Lemma split_from_cons sep piece c t :
  split_from sep 0 piece (String c t)
  = if String.prefix sep (String c t)
    then piece :: split_from sep (String.length sep - 1) EmptyString t
    else split_from sep 0 (piece +:+ String c EmptyString) t.
Proof. reflexivity. Qed.

Lemma before_first_cons sep c t :
  before_first sep (String c t)
  = if String.prefix sep (String c t) then EmptyString
    else String c (before_first sep t).
Proof. reflexivity. Qed.

Lemma after_first_cons sep c t :
  after_first sep (String c t)
  = if String.prefix sep (String c t)
    then Some (slice_from (String.length sep) (String c t))
    else after_first sep t.
Proof. reflexivity. Qed.

Lemma str_prefix_empty s : String.prefix EmptyString s = true.
Proof. destruct s; reflexivity. Qed.

Lemma str_prefix_byte c d s :
  String.prefix (String c EmptyString) (String d s) = Ascii.eqb d c.
Proof.
  simpl. destruct (ascii_dec c d) as [->|Hne].
  - rewrite Ascii.eqb_refl. destruct s; reflexivity.
  - symmetry. apply Ascii.eqb_neq. congruence.
Qed.

Lemma str_prefix_length p s : String.prefix p s = true -> String.length p <= String.length s.
Proof.
  intros H. apply str_prefix_split in H. apply (f_equal String.length) in H.
  rewrite str_length_app in H. lia.
Qed.

Lemma Contains_nil sub : Contains EmptyString sub = String.prefix sub EmptyString.
Proof. unfold Contains. apply orb_false_r. Qed.

Lemma Contains_cons c t sub :
  Contains (String c t) sub = String.prefix sub (String c t) || Contains t sub.
Proof. reflexivity. Qed.

Lemma Contains_infix s sub : Contains s sub = true <-> infix_of sub s.
Proof.
  split.
  - induction s as [|c s IH]; intros H.
    + rewrite Contains_nil in H. apply str_prefix_split in H.
      exists EmptyString, (slice_from (String.length sub) EmptyString). exact H.
    + rewrite Contains_cons in H. apply orb_true_iff in H as [H|H].
      * exists EmptyString, (slice_from (String.length sub) (String c s)).
        apply (str_prefix_split _ _ H).
      * destruct (IH H) as (a & b & ->). exists (String c a), b. reflexivity.
  - intros (a & b & ->). induction a as [|c a IH].
    + change (EmptyString +:+ sub +:+ b) with (sub +:+ b).
      destruct (sub +:+ b) eqn:E.
      * rewrite Contains_nil, <- E. apply str_prefix_app.
      * rewrite Contains_cons, <- E, str_prefix_app. reflexivity.
    + change (String c a +:+ sub +:+ b) with (String c (a +:+ sub +:+ b)).
      rewrite Contains_cons, IH. apply orb_true_r.
Qed.



(** ** [Split] against [Index] *)

Lemma split_from_skip sep k piece t :
  k <= String.length t ->
  split_from sep k piece t = split_from sep 0 piece (slice_from k t).
Proof.
  revert t. induction k as [|k IH]; intros t Hk.
  - destruct t; reflexivity.
  - destruct t as [|c t]; simpl in Hk; [lia|].
    simpl. apply IH. lia.
Qed.

(** The recursion of Go's [genSplit]: cut at the first occurrence, go on
    with what follows it. *)
Lemma split_from_index sep piece s :
  sep <> EmptyString ->
  split_from sep 0 piece s
  = (piece +:+ before_first sep s)
      :: match after_first sep s with
         | None => []
         | Some r => split_from sep 0 EmptyString r
         end.
Proof.
  intros Hsep. revert piece. induction s as [|c s IH]; intros piece.
  - destruct sep; [contradiction|]. simpl. rewrite str_app_empty_r. reflexivity.
  - rewrite split_from_cons, before_first_cons, after_first_cons.
    destruct (String.prefix sep (String c s)) eqn:Hp.
    + rewrite str_app_empty_r. f_equal.
      rewrite split_from_skip.
      * destruct sep as [|d sep]; [contradiction|]. simpl.
        rewrite Nat.sub_0_r. reflexivity.
      * apply str_prefix_length in Hp. simpl in Hp. lia.
    + rewrite IH. rewrite str_app_assoc. reflexivity.
Qed.

Lemma Split_index s sep :
  sep <> EmptyString ->
  Split s sep
  = before_first sep s
      :: match after_first sep s with
         | None => []
         | Some r => Split r sep
         end.
Proof.
  intros H. unfold Split. destruct sep; [contradiction|].
  rewrite split_from_index by assumption. reflexivity.
Qed.

Lemma split_from_length_byte c piece s :
  List.length (split_from (String c EmptyString) 0 piece s) = S (count_byte c s).
Proof.
  revert piece. induction s as [|d s IH]; intros piece; [reflexivity|].
  rewrite split_from_cons, str_prefix_byte. simpl count_byte.
  destruct (Ascii.eqb d c); simpl; rewrite IH; reflexivity.
Qed.

Lemma Split_length_byte c s :
  List.length (Split s (String c EmptyString)) = S (count_byte c s).
Proof. apply split_from_length_byte. Qed.

Lemma Split_nonempty s sep : sep <> EmptyString -> 1 <= List.length (Split s sep).
Proof. intros H. rewrite Split_index by assumption. simpl. lia. Qed.

(** A string without the separator is one piece; the pieces of
    [a/rest] are [a] and the pieces of [rest]. *)
Lemma before_first_clean c a rest :
  no_byte c a = true ->
  before_first (String c EmptyString) (a +:+ String c rest) = a
  /\ after_first (String c EmptyString) (a +:+ String c rest) = Some rest.
Proof.
  induction a as [|d a IH]; intros H.
  - change (EmptyString +:+ String c rest) with (String c rest).
    rewrite before_first_cons, after_first_cons, str_prefix_byte, Ascii.eqb_refl.
    split; reflexivity.
  - simpl in H. apply andb_true_iff in H as [Hd Ha].
    change (String d a +:+ String c rest) with (String d (a +:+ String c rest)).
    rewrite before_first_cons, after_first_cons, str_prefix_byte.
    apply negb_true_iff in Hd. rewrite Hd.
    destruct (IH Ha) as [-> ->]. split; reflexivity.
Qed.

Lemma before_first_none c a :
  no_byte c a = true ->
  before_first (String c EmptyString) a = a
  /\ after_first (String c EmptyString) a = None.
Proof.
  induction a as [|d a IH]; intros H; [split; reflexivity|].
  simpl in H. apply andb_true_iff in H as [Hd Ha].
  rewrite before_first_cons, after_first_cons, str_prefix_byte.
  apply negb_true_iff in Hd. rewrite Hd.
  destruct (IH Ha) as [-> ->]. split; reflexivity.
Qed.

Lemma Split_concat c (segs : list string) :
  segs <> [] ->
  Forall (fun seg => no_byte c seg = true) segs ->
  Split (String.concat (String c EmptyString) segs) (String c EmptyString) = segs.
Proof.
  intros Hne Hall. induction Hall as [|a segs Ha Hall IH]; [contradiction|].
  rewrite Split_index by discriminate.
  destruct segs as [|b segs].
  - simpl. destruct (before_first_none c a Ha) as [-> ->]. reflexivity.
  - change (String.concat (String c EmptyString) (a :: b :: segs))
      with (a +:+ String c EmptyString
              +:+ String.concat (String c EmptyString) (b :: segs)).
    change (String c EmptyString +:+ ?x) with (String c x).
    destruct (before_first_clean c a
                (String.concat (String c EmptyString) (b :: segs)) Ha) as [-> ->].
    rewrite IH by discriminate. reflexivity.
Qed.

(** ** [Trim] *)

Lemma TrimRight_clean s cutset :
  all_bytes (fun c => negb (mem_byte c cutset)) s = true -> TrimRight s cutset = s.
Proof.
  induction s as [|c s IH]; simpl; intros H; [reflexivity|].
  apply andb_true_iff in H as [Hc Hs]. rewrite (IH Hs).
  apply negb_true_iff in Hc. rewrite Hc. destruct s; reflexivity.
Qed.

Lemma TrimRight_app a b cutset :
  TrimRight b cutset <> EmptyString ->
  TrimRight (a +:+ b) cutset = a +:+ TrimRight b cutset.
Proof.
  intros Hb. induction a as [|c a IH]; [reflexivity|].
  simpl. rewrite IH.
  destruct (a +:+ TrimRight b cutset) eqn:E; [|reflexivity].
  destruct a; simpl in E; [contradiction|discriminate].
Qed.

Lemma TrimLeft_clean c s cutset :
  mem_byte c cutset = false -> TrimLeft (String c s) cutset = String c s.
Proof. intros H. simpl. rewrite H. reflexivity. Qed.

End SplitFacts.


(** * Depth level *)

Section Level.
Import GoUtf8 GoStrings GoPath.

Lemma concat_slash_cons a b (segs : list string) :
  String.concat "/" (a :: b :: segs)
  = (a +:+ "/") +:+ String.concat "/" (b :: segs).
Proof. rewrite str_app_assoc. reflexivity. Qed.

Lemma no_byte_cutset s :
  no_byte "/" s = true ->
  all_bytes (fun c => negb (mem_byte c "/")) s = true.
Proof.
  apply all_bytes_impl. intros c H. simpl. rewrite orb_false_r. exact H.
Qed.

Lemma TrimRight_segments (segs : list string) :
  segs <> [] ->
  Forall (fun seg => seg <> EmptyString /\ no_byte "/" seg = true) segs ->
  TrimRight (String.concat "/" segs) "/" = String.concat "/" segs
  /\ String.concat "/" segs <> EmptyString.
Proof.
  intros Hne Hall. induction Hall as [|a segs [Ha Hs] Hall IH]; [contradiction|].
  destruct segs as [|b segs].
  - simpl. split; [|assumption]. apply TrimRight_clean, no_byte_cutset, Hs.
  - destruct IH as [IH1 IH2]; [discriminate|].
    rewrite concat_slash_cons. split.
    + rewrite (TrimRight_app (a +:+ "/") (String.concat "/" (b :: segs)));
        rewrite IH1; [reflexivity|assumption].
    + destruct a; [contradiction|discriminate].
Qed.

Lemma TrimLeft_segments (segs : list string) :
  segs <> [] ->
  Forall (fun seg => seg <> EmptyString /\ no_byte "/" seg = true) segs ->
  TrimLeft (String.concat "/" segs) "/" = String.concat "/" segs.
Proof.
  intros Hne Hall. destruct Hall as [|a segs [Ha Hs] Hall]; [contradiction|].
  destruct a as [|c a]; [contradiction|].
  simpl in Hs. apply andb_true_iff in Hs as [Hc _].
  assert (E : exists t, String.concat "/" (String c a :: segs) = String c t).
  { destruct segs; simpl; eauto. }
  destruct E as [t ->]. apply TrimLeft_clean.
  simpl. rewrite orb_false_r. apply negb_true_iff, Hc.
Qed.

Lemma Trim_segments (segs : list string) :
  segs <> [] ->
  Forall (fun seg => seg <> EmptyString /\ no_byte "/" seg = true) segs ->
  Trim ("/" +:+ String.concat "/" segs) "/" = String.concat "/" segs.
Proof.
  intros Hne Hall. unfold Trim.
  destruct (TrimRight_segments segs Hne Hall) as [H1 H2].
  rewrite TrimRight_app by (rewrite H1; assumption). rewrite H1.
  change ("/" +:+ ?x) with (String "/" x). simpl TrimLeft.
  apply TrimLeft_segments; assumption.
Qed.

Lemma pageLevel_count s url :
  pageLevel s url = S (count_byte "/" (Trim (TrimPrefix url (baseURL s)) "/")).
Proof. unfold pageLevel. apply Split_length_byte. Qed.

Lemma pageLevel_base s : pageLevel s (baseURL s) = 1.
Proof.
  unfold pageLevel.
  rewrite <- (str_app_empty_r (baseURL s)) at 1. rewrite TrimPrefix_app.
  reflexivity.
Qed.

Lemma pageLevel_path s (segs : list string) :
  segs <> [] ->
  Forall (fun seg => seg <> EmptyString /\ no_byte "/" seg = true) segs ->
  pageLevel s (baseURL s +:+ "/" +:+ String.concat "/" segs) = List.length segs.
Proof.
  intros Hne Hall. unfold pageLevel.
  rewrite TrimPrefix_app, Trim_segments by assumption.
  rewrite Split_concat; [reflexivity|assumption|].
  eapply Forall_impl; [exact Hall|]. intros seg [_ H]. exact H.
Qed.

End Level.


(** * The crawl loop *)

Section Turns.
Context {env : GoEnv}.
Variable w : World.

Lemma write_fields filepath content c :
  let c' := fst (writeContentToFile w filepath content c) in
  scraper c' = scraper c /\ links c' = links c /\ processed c' = processed c
  /\ mainContent c' = mainContent c /\ clock c' = S (clock c)
  /\ exists ok, trace c' = trace c ++ [EvWrite filepath content ok].
Proof.
  unfold writeContentToFile.
  destruct (mkdir_all w (clock c) (GoPath.Dir filepath)
            && write_file w (clock c) filepath content); simpl;
    repeat split; eauto.
Qed.

Lemma scrapePage_URL s url resp page :
  scrapePage s url resp = Some page -> URL page = url.
Proof.
  unfold scrapePage. destruct resp; [|discriminate].
  intros H. inversion H. reflexivity.
Qed.

Lemma same_config_refl s : same_config s s.
Proof. repeat split. Qed.

Lemma same_config_trans s1 s2 s3 :
  same_config s1 s2 -> same_config s2 s3 -> same_config s1 s3.
Proof.
  unfold same_config. intros (?&?&?&?&?&?&?) (?&?&?&?&?&?&?).
  repeat split; congruence.
Qed.

Lemma iterate_turn c : links c <> [] -> turn w c (iterate w c).
Proof.
  intros Hne. unfold iterate.
  destruct (links c) as [|u rest] eqn:Hl; [contradiction|]. clear Hne.
  cbn [processed note with_links].
  destruct (mget (processed c) u) eqn:Hp.
  { eapply turn_skip; eauto. }
  cbn [scraper clock note with_links].
  destruct (scrapePage (scraper c) u (http_get w (clock c) u)) as [page|] eqn:Hs.
  2: { eapply turn_fail; eauto. }
  set (c1 := emit [EvScrape u true] (note [EvDequeue u] (with_links rest c))).
  set (c2 := match organization (scraper c1) with
             | SingleFile => with_mainContent (mainContent c1 +:+ Content page) c1
             | _ => fst (writeContentToFile w
                           (GoPath.Join (outputDir (scraper c1)) (Filename page))
                           (Content page) c1)
             end).
  assert (H2 : scraper c2 = scraper c /\ links c2 = rest
               /\ processed c2 = processed c
               /\ exists wr, trace c2 = trace c ++ [EvDequeue u; EvScrape u true] ++ wr
                             /\ Forall is_write wr).
  { subst c2. destruct (organization (scraper c1)).
    - simpl. repeat split; auto. exists []. rewrite <- app_assoc. split; [reflexivity|constructor].
    - destruct (write_fields (GoPath.Join (outputDir (scraper c1)) (Filename page))
                             (Content page) c1) as (E1&E2&E3&_&_&ok&E4).
      rewrite E1, E2, E3. repeat split; auto. eexists [_].
      rewrite E4. simpl. rewrite <- !app_assoc. split; [reflexivity|].
      repeat constructor.
    - destruct (write_fields (GoPath.Join (outputDir (scraper c1)) (Filename page))
                             (Content page) c1) as (E1&E2&E3&_&_&ok&E4).
      rewrite E1, E2, E3. repeat split; auto. eexists [_].
      rewrite E4. simpl. rewrite <- !app_assoc. split; [reflexivity|].
      repeat constructor. }
  clearbody c2. destruct H2 as (E1 & E2 & E3 & wr & E4 & Hwr).
  set (c3 := with_processed _ (add_page page c2)).
  assert (Hcfg : same_config (scraper c) (scraper c3)).
  { subst c3. simpl. rewrite E1. repeat split. }
  destruct (getAllDocLinks (scraper c3) (http_get w (clock c3) u)) as [newLinks|].
  - eapply (turn_page w c _ u rest page wr true
              (List.filter (fun link => negb (mget (processed c3) link)) newLinks));
      eauto.
    + simpl. rewrite E2. reflexivity.
    + simpl. rewrite E3. reflexivity.
    + simpl. rewrite E1. reflexivity.
    + simpl. rewrite E4, <- !app_assoc. reflexivity.
    + apply Forall_forall. intros l Hin.
      apply list_elem_of_In, filter_In in Hin as [_ Hin].
      apply negb_true_iff in Hin. exact Hin.
  - eapply (turn_page w c _ u rest page wr false []); eauto.
    + simpl. rewrite E2, app_nil_r. reflexivity.
    + simpl. rewrite E3. reflexivity.
    + simpl. rewrite E1. reflexivity.
    + simpl. rewrite E4, <- !app_assoc. reflexivity.
Qed.

End Turns.


Section TraceFacts.

Lemma enqueued_app t1 t2 : enqueued (t1 ++ t2) = enqueued t1 ++ enqueued t2.
Proof. apply omap_app. Qed.
Lemma dequeued_app t1 t2 : dequeued (t1 ++ t2) = dequeued t1 ++ dequeued t2.
Proof. apply omap_app. Qed.
Lemma attempts_app t1 t2 : attempts (t1 ++ t2) = attempts t1 ++ attempts t2.
Proof. apply omap_app. Qed.
Lemma scraped_app ok t1 t2 : scraped ok (t1 ++ t2) = scraped ok t1 ++ scraped ok t2.
Proof. apply omap_app. Qed.
Lemma writes_app t1 t2 : writes (t1 ++ t2) = writes t1 ++ writes t2.
Proof. apply omap_app. Qed.

Lemma writes_only wr :
  Forall is_write wr ->
  enqueued wr = [] /\ dequeued wr = [] /\ attempts wr = []
  /\ forall ok, scraped ok wr = [].
Proof.
  induction 1 as [|e wr He _ (IH1 & IH2 & IH3 & IH4)]; [repeat split|].
  destruct e; try contradiction. repeat split; auto.
Qed.

Lemma enqueues_only (l : list string) :
  enqueued (List.map EvEnqueue l) = l /\ dequeued (List.map EvEnqueue l) = []
  /\ attempts (List.map EvEnqueue l) = []
  /\ forall ok, scraped ok (List.map EvEnqueue l) = [].
Proof.
  induction l as [|u l (IH1 & IH2 & IH3 & IH4)]; [repeat split|].
  repeat split; auto. cbn. f_equal. exact IH1.
Qed.

End TraceFacts.

Section Invariant.
Context {env : GoEnv}.
Variable w : World.

Lemma processed_iff s0 c u :
  Inv s0 c -> mget (processed c) u = true <-> u ∈ scraped true (trace c).
Proof.
  intros I. unfold mget. split.
  - intros H. destruct (processed c !! u) as [b|] eqn:E; [|discriminate].
    assert (Hd : u ∈ dom (processed c)) by (apply elem_of_dom; eauto).
    rewrite (inv_dom _ _ I) in Hd. set_solver.
  - intros H. assert (Hd : u ∈ dom (processed c)).
    { rewrite (inv_dom _ _ I). set_solver. }
    apply elem_of_dom in Hd as [b Hb]. rewrite Hb.
    rewrite (inv_true _ _ I _ _ Hb). reflexivity.
Qed.

Lemma Inv_start s : Inv s (start s).
Proof.
  constructor; simpl.
  - apply same_config_refl.
  - rewrite app_nil_r. reflexivity.
  - constructor.
  - rewrite dom_empty_L. reflexivity.
  - intros u b. rewrite lookup_empty. discriminate.
  - reflexivity.
  - intros u. cbn. set_solver.
  - cbn. constructor.
Qed.

Lemma Inv_turn s0 c c' : Inv s0 c -> turn w c c' -> Inv s0 c'.
Proof.
  intros I T. pose proof (processed_iff s0 c) as Hproc.
  destruct T as [u rest Hl Hp ->|u rest Hl Hp Hs ->
                 |u rest page wr lk fresh Hl Hp Hs Hl' Hp' Hpg Hcfg Htr Hwr Hfresh].
  - (* the head was processed already *)
    destruct I as [I1 I2 I3 I4 I5 I6 I7 I8]. constructor; simpl; auto.
    + rewrite scraped_app. cbn. rewrite app_nil_r. exact I2.
    + rewrite scraped_app. cbn. rewrite app_nil_r. exact I3.
    + rewrite scraped_app. cbn. rewrite app_nil_r. exact I4.
    + rewrite enqueued_app, dequeued_app. cbn. rewrite app_nil_r, I6, Hl.
      rewrite <- app_assoc. reflexivity.
    + intros v. rewrite dequeued_app, !scraped_app. cbn. rewrite !app_nil_r.
      rewrite elem_of_app, I7, list_elem_of_singleton.
      split; [|tauto]. intros [H| ->]; [exact H|].
      left. apply Hproc; [constructor; assumption|exact Hp].
    + rewrite attempts_app, dequeued_app. cbn. rewrite app_nil_r.
      apply sublist_inserts_r. exact I8.
  - (* scrapePage failed *)
    destruct I as [I1 I2 I3 I4 I5 I6 I7 I8]. constructor; simpl; auto.
    + rewrite <- app_assoc, scraped_app. cbn. rewrite app_nil_r. exact I2.
    + rewrite <- app_assoc, scraped_app. cbn. rewrite app_nil_r. exact I3.
    + rewrite <- app_assoc, scraped_app. cbn. rewrite app_nil_r. exact I4.
    + rewrite <- app_assoc, enqueued_app, dequeued_app. cbn.
      rewrite app_nil_r, I6, Hl, <- app_assoc. reflexivity.
    + intros v. rewrite <- app_assoc, dequeued_app, !scraped_app. cbn.
      rewrite app_nil_r, !elem_of_app, I7, list_elem_of_singleton. tauto.
    + rewrite <- app_assoc, attempts_app, dequeued_app. cbn.
      apply sublist_app; [exact I8|reflexivity].
  - (* a page was made *)
    assert (Hnew : u ∉ scraped true (trace c)).
    { intros Hin. apply Hproc in Hin; [|exact I]. congruence. }
    destruct (writes_only wr Hwr) as (W1 & W2 & W3 & W4).
    destruct (enqueues_only fresh) as (F1 & F2 & F3 & F4).
    assert (Etrue : scraped true (trace c') = scraped true (trace c) ++ [u]).
    { rewrite Htr, !scraped_app, W4, F4. cbn. rewrite ?app_nil_r. reflexivity. }
    assert (Efalse : scraped false (trace c') = scraped false (trace c)).
    { rewrite Htr, !scraped_app, W4, F4. cbn. rewrite ?app_nil_r. reflexivity. }
    assert (Edeq : dequeued (trace c') = dequeued (trace c) ++ [u]).
    { rewrite Htr, !dequeued_app, W2, F2. cbn. rewrite ?app_nil_r. reflexivity. }
    assert (Eenq : enqueued (trace c') = enqueued (trace c) ++ fresh).
    { rewrite Htr, !enqueued_app, W1, F1. cbn. reflexivity. }
    assert (Eatt : attempts (trace c') = attempts (trace c) ++ [u]).
    { rewrite Htr, !attempts_app, W3, F3. cbn. rewrite ?app_nil_r. reflexivity. }
    destruct I as [I1 I2 I3 I4 I5 I6 I7 I8]. constructor.
    + eapply same_config_trans; eassumption.
    + rewrite Hpg, map_app, I2, Etrue, <- app_assoc. simpl.
      rewrite (scrapePage_URL _ _ _ _ Hs). reflexivity.
    + rewrite Etrue. apply NoDup_app. split; [exact I3|]. split.
      * intros x Hx Hx'. apply list_elem_of_singleton in Hx'. subst. auto.
      * apply NoDup_singleton.
    + rewrite Hp', Etrue, dom_insert_L, I4, list_to_set_app_L. set_solver.
    + intros v b. rewrite Hp'. intros H.
      apply lookup_insert_Some in H as [[_ <-]|[_ H]]; [reflexivity|eauto].
    + rewrite Eenq, Edeq, Hl', I6, Hl, <- !app_assoc. reflexivity.
    + intros v. rewrite Edeq, Etrue, Efalse, !elem_of_app, I7,
        list_elem_of_singleton. tauto.
    + rewrite Eatt, Edeq. apply sublist_app; [exact I8|reflexivity].
Qed.

Lemma iterate_done c : links c = [] -> iterate w c = c.
Proof. intros H. unfold iterate. rewrite H. reflexivity. Qed.

Lemma Inv_iterate s0 c : Inv s0 c -> Inv s0 (iterate w c).
Proof.
  intros I. destruct (links c) eqn:E.
  - rewrite iterate_done; assumption.
  - eapply Inv_turn; [exact I|]. apply iterate_turn. congruence.
Qed.

Lemma Inv_run s n : Inv s (run w n (start s)).
Proof.
  induction n as [|n IH]; [apply Inv_start|].
  unfold run. simpl. apply Inv_iterate. exact IH.
Qed.

(** The loop run to the end is one of the states [run] goes through. *)
Lemma crawl_run fuel c c' :
  crawl w fuel c = Some c' -> exists n, c' = run w n c /\ links c' = [].
Proof.
  revert c. induction fuel as [|k IH]; intros c; simpl.
  - destruct (links c) eqn:E; [|discriminate].
    intros H. inversion H. subst. exists 0. split; [reflexivity|assumption].
  - destruct (links c) eqn:E.
    + intros H. inversion H. subst. exists 0. split; [reflexivity|assumption].
    + intros H. destruct (IH _ H) as (n & -> & Hl).
      exists (S n). split; [|assumption].
      unfold run. rewrite Nat.iter_succ_r. reflexivity.
Qed.

End Invariant.

(** * The claims about the crawl *)

Section CrawlClaims.
Context {env : GoEnv}.
Variable w : World.

Lemma processed_size s0 c :
  Inv s0 c -> size (processed c) = List.length (scraped true (trace c)).
Proof.
  intros I. rewrite <- size_dom, (inv_dom _ _ I).
  apply size_list_to_set, (inv_nodup _ _ I).
Qed.

Lemma enqueue_time c :
  exists fresh,
    enqueued (trace (iterate w c)) = enqueued (trace c) ++ fresh
    /\ Forall (fun l => mget (processed (iterate w c)) l = false) fresh.
Proof.
  destruct (links c) eqn:E.
  - rewrite iterate_done by assumption. exists []. rewrite app_nil_r. split; constructor.
  - assert (T : turn w c (iterate w c)) by (apply iterate_turn; congruence).
    destruct T as [u rest Hl Hp ->|u rest Hl Hp Hs ->
        |u rest page wr lk fresh Hl Hp Hs Hl' Hp' Hpg Hcfg Htr Hwr Hfresh].
    + exists []. simpl. rewrite enqueued_app. cbn. rewrite !app_nil_r.
      split; [reflexivity|constructor].
    + exists []. simpl. rewrite <- app_assoc, enqueued_app. cbn.
      rewrite !app_nil_r. split; [reflexivity|constructor].
    + exists fresh. split; [|exact Hfresh].
      destruct (writes_only wr Hwr) as (W1 & _).
      destruct (enqueues_only fresh) as (F1 & _).
      rewrite Htr, !enqueued_app, W1, F1. reflexivity.
Qed.

(** C1, as amended.  At every moment of every crawl (any world, any
    scraper, any number of turns): no URL is scraped successfully twice and
    the recorded pages are exactly the successful scrapes; the processed map
    holds exactly those URLs, so its size is their number; the queue is
    first-in first-out (what was enqueued is what was dequeued followed by
    what still waits), and a URL may stand in it several times; the URLs
    dequeued so far are the processed ones together with those whose scrape
    failed, so that without a failed scrape the size of the processed map is
    the number of distinct URLs dequeued; and every URL a turn enqueues is
    not in the processed map when it is enqueued. *)
Theorem crawl_dedup (s : Scraper) (n : nat) :
  NoDup (scraped true (trace (run w n (start s))))
  /\ List.map URL (pages (scraper (run w n (start s))))
     = List.map URL (pages s) ++ scraped true (trace (run w n (start s)))
  /\ (forall u, mget (processed (run w n (start s))) u = true
                <-> u ∈ scraped true (trace (run w n (start s))))
  /\ size (processed (run w n (start s)))
     = List.length (scraped true (trace (run w n (start s))))
  /\ enqueued (trace (run w n (start s)))
     = dequeued (trace (run w n (start s))) ++ links (run w n (start s))
  /\ (forall u, u ∈ dequeued (trace (run w n (start s)))
                <-> u ∈ scraped true (trace (run w n (start s)))
                    \/ u ∈ scraped false (trace (run w n (start s))))
  /\ (scraped false (trace (run w n (start s))) = [] ->
      size (processed (run w n (start s)))
      = size (list_to_set (dequeued (trace (run w n (start s)))) : gset string))
  /\ (exists fresh,
         enqueued (trace (iterate w (run w n (start s))))
         = enqueued (trace (run w n (start s))) ++ fresh
         /\ Forall (fun l => mget (processed (iterate w (run w n (start s)))) l = false)
                   fresh).
Proof.
  pose proof (Inv_run w s n) as I.
  set (c := run w n (start s)) in *.
  split; [apply (inv_nodup _ _ I)|].
  split; [apply (inv_pages _ _ I)|].
  split; [intros u; apply (processed_iff _ _ _ I)|].
  split; [apply (processed_size _ _ I)|].
  split; [apply (inv_queue _ _ I)|].
  split; [apply (inv_dequeued _ _ I)|].
  split; [|apply enqueue_time].
  intros Hfail. rewrite <- size_dom, (inv_dom _ _ I). f_equal.
  apply set_eq. intros u. rewrite !elem_of_list_to_set.
  rewrite (inv_dequeued _ _ I u), Hfail. set_solver.
Qed.

End CrawlClaims.

(** C1: the claim as stated fails.  On the sample site the seed links to
    page [a] twice and to page [b] twice, and [b] never loads: [a] and [b]
    are each enqueued twice, and at the end of the crawl two URLs are in
    the processed map while three distinct URLs were dequeued. *)
Lemma crawl_dedup_counterexample :
  crawl (env := Sample.go) Sample.site 8 (start (Sample.scraper SingleFile false))
  = Some (run (env := Sample.go) Sample.site 7 (start (Sample.scraper SingleFile false)))
  /\ enqueued (trace (run (env := Sample.go) Sample.site 7
                          (start (Sample.scraper SingleFile false))))
     = [Sample.seed; Sample.page_a; Sample.page_a; Sample.page_b; Sample.page_b]
  /\ size (processed (run (env := Sample.go) Sample.site 7
                          (start (Sample.scraper SingleFile false)))) = 2
  /\ size (list_to_set
             (dequeued (trace (run (env := Sample.go) Sample.site 7
                                   (start (Sample.scraper SingleFile false)))))
           : gset string) = 3.
Proof.
  split; [vm_compute; reflexivity|].
  split; [vm_compute; reflexivity|].
  split; vm_compute; reflexivity.
Qed.

(** C1: the amended claim at work on the sample site with every page
    loading: no scrape fails, and the processed map has as many entries as
    distinct URLs were dequeued. *)
Lemma crawl_dedup_witness :
  size (processed (run (env := Sample.go) Sample.healthy 7
                       (start (Sample.scraper ByPages false))))
  = size (list_to_set
            (dequeued (trace (run (env := Sample.go) Sample.healthy 7
                                  (start (Sample.scraper ByPages false)))))
          : gset string).
Proof.
  destruct (crawl_dedup (env := Sample.go) Sample.healthy
              (Sample.scraper ByPages false) 7)
    as (_ & _ & _ & _ & _ & _ & H & _).
  apply H. vm_compute. reflexivity.
Defined.

Section RetryClaims.
Context {env : GoEnv}.
Variable w : World.

Lemma failed_turn c u rest :
  links c = u :: rest ->
  mget (processed c) u = false ->
  scrapePage (scraper c) u (http_get w (clock c) u) = None ->
  iterate w c = emit [EvScrape u false] (note [EvDequeue u] (with_links rest c)).
Proof.
  intros Hl Hp Hs. unfold iterate. rewrite Hl.
  cbn [processed scraper clock note with_links]. rewrite Hp, Hs. reflexivity.
Qed.

(** C2, as amended.  At every moment of every crawl: when the scrape of the
    URL at the head of the queue fails, the turn ends there: the URL leaves
    the queue, the rest of the queue is what the crawl goes on with, no page
    is recorded, nothing is written or enqueued, the URL is not marked as
    processed, and exactly one scrape of it was attempted (no retry on the
    spot).  The scrape attempts of a run follow its dequeues one for one at
    most, so a URL is scraped again only when another copy of it is
    dequeued; and a URL that only ever failed is not in the processed map,
    so nothing keeps such a copy from being enqueued or scraped. *)
Theorem failed_page_abandoned (s : Scraper) (n : nat) :
  (forall u rest,
      links (run w n (start s)) = u :: rest ->
      mget (processed (run w n (start s))) u = false ->
      scrapePage (scraper (run w n (start s))) u
                 (http_get w (clock (run w n (start s))) u) = None ->
      links (iterate w (run w n (start s))) = rest
      /\ scraper (iterate w (run w n (start s))) = scraper (run w n (start s))
      /\ processed (iterate w (run w n (start s))) = processed (run w n (start s))
      /\ mainContent (iterate w (run w n (start s)))
         = mainContent (run w n (start s))
      /\ files (iterate w (run w n (start s))) = files (run w n (start s))
      /\ trace (iterate w (run w n (start s)))
         = trace (run w n (start s)) ++ [EvDequeue u; EvScrape u false])
  /\ attempts (trace (run w n (start s)))
       `sublist_of` dequeued (trace (run w n (start s)))
  /\ (forall u, u ∈ scraped false (trace (run w n (start s))) ->
                u ∉ scraped true (trace (run w n (start s))) ->
                mget (processed (run w n (start s))) u = false).
Proof.
  pose proof (Inv_run w s n) as I.
  set (c := run w n (start s)) in *.
  split; [|split].
  - intros u rest Hl Hp Hs. rewrite (failed_turn c u rest Hl Hp Hs). simpl.
    rewrite <- app_assoc. repeat split; reflexivity.
  - apply (inv_attempts _ _ I).
  - intros u _ Hnot. destruct (mget (processed c) u) eqn:E; [|reflexivity].
    exfalso. apply Hnot. apply (processed_iff _ _ _ I). exact E.
Qed.

End RetryClaims.

(** C2: the claim as stated fails.  On the sample site page [b] never
    loads and the seed links to it twice: its scrape fails, and the crawl
    scrapes it a second time in the same run. *)
Lemma failed_page_counterexample :
  attempts (trace (run (env := Sample.go) Sample.site 7
                       (start (Sample.scraper SingleFile false))))
  = [Sample.seed; Sample.page_a; Sample.page_b; Sample.page_b]
  /\ scraped false (trace (run (env := Sample.go) Sample.site 7
                               (start (Sample.scraper SingleFile false))))
     = [Sample.page_b; Sample.page_b]
  /\ links (run (env := Sample.go) Sample.site 7
                (start (Sample.scraper SingleFile false))) = [].
Proof.
  split; [vm_compute; reflexivity|].
  split; vm_compute; reflexivity.
Qed.

(** C2: the amended claim at work: after three turns on the sample site
    page [b] heads the queue, its scrape fails, and the fourth turn adds
    the dequeue and the one failed scrape to the trace and leaves the other
    copy of [b] in the queue. *)
Lemma failed_page_abandoned_witness :
  links (iterate (env := Sample.go) Sample.site
                 (run (env := Sample.go) Sample.site 3
                      (start (Sample.scraper SingleFile false))))
  = [Sample.page_b]
  /\ trace (iterate (env := Sample.go) Sample.site
                    (run (env := Sample.go) Sample.site 3
                         (start (Sample.scraper SingleFile false))))
     = trace (run (env := Sample.go) Sample.site 3
                  (start (Sample.scraper SingleFile false)))
         ++ [EvDequeue Sample.page_b; EvScrape Sample.page_b false].
Proof.
  destruct (failed_page_abandoned (env := Sample.go) Sample.site
              (Sample.scraper SingleFile false) 3) as (H & _).
  destruct (H Sample.page_b [Sample.page_b]) as (H1 & _ & _ & _ & _ & H2);
    [vm_compute; reflexivity ..|].
  split; [exact H1|exact H2].
Defined.

(** * The claims about file names and depth *)

Section NameClaims.
Context {env : GoEnv}.
Import GoStrings GoPath.

(** The fallback of [pageFilename] never fires: a sanitized name is never
    empty. *)
Lemma pageFilename_from_title title url :
  pageFilename title url = sanitizeFilename title +:+ ".md".
Proof.
  unfold pageFilename.
  destruct (String.eqb_spec (sanitizeFilename title) EmptyString) as [E|]; [|reflexivity].
  pose proof (sanitizeFilename_length title) as H. rewrite E in H. simpl in H. lia.
Qed.

(** C3.  What the code does where the claim fails: a page without a title
    is named [unnamed.md] whatever its URL is, since [sanitizeFilename]
    already turned the empty title into its placeholder and the fall-back to
    the last segment of the URL is never reached.  For the page at
    [https://example.com/docs/intro] the fall-back would give [intro.md],
    which is what the claim asks for. *)
Theorem empty_title_filename
    (s : Scraper) (url : string) (blocks : list Block) (hrefs : list string) :
  option_map Filename
    (scrapePage s url
       (Some {| doc_h1 := None; doc_blocks := blocks; doc_hrefs := hrefs |}))
  = Some "unnamed.md"
  /\ sanitizeFilename (Base "https://example.com/docs/intro") +:+ ".md"
     = "intro.md".
Proof.
  split; [|vm_compute; reflexivity].
  unfold scrapePage. cbv beta iota delta [doc_h1 option_map Filename].
  rewrite pageFilename_from_title. reflexivity.
Qed.

(** C4, as amended.  For every input string, provided the case table never
    yields an ASCII capital: the output of [sanitizeFilename] is not empty,
    is at most 100 bytes long, holds no ASCII capital and none of the
    reserved bytes; applying [sanitizeFilename] to the output returns it
    unchanged whenever lower-casing leaves the output alone, and so whenever
    the output, or already the input, is made of ASCII bytes.  (An output
    cut inside a multi-byte character is not left alone by lower-casing.) *)
Theorem sanitizeFilename_properties (name : string) :
  (forall r, ~ (65 <= unicode_ToLower r <= 90)%Z) ->
  sanitizeFilename name <> EmptyString
  /\ String.length (sanitizeFilename name) <= 100
  /\ all_bytes not_upper (sanitizeFilename name) = true
  /\ all_bytes safe_byte (sanitizeFilename name) = true
  /\ (ToLower unicode_ToLower (sanitizeFilename name) = sanitizeFilename name ->
      sanitizeFilename (sanitizeFilename name) = sanitizeFilename name)
  /\ (all_bytes is_ascii (sanitizeFilename name) = true ->
      sanitizeFilename (sanitizeFilename name) = sanitizeFilename name)
  /\ (all_bytes is_ascii name = true ->
      sanitizeFilename (sanitizeFilename name) = sanitizeFilename name).
Proof.
  intros Htable. pose proof (sanitizeFilename_length name) as Hlen.
  pose proof (sanitizeFilename_safe name) as Hsafe.
  split; [intros E; rewrite E in Hlen; simpl in Hlen; lia|].
  split; [lia|].
  split; [apply sanitizeFilename_not_upper, Htable|].
  split; [exact Hsafe|].
  assert (Hout : all_bytes is_ascii (sanitizeFilename name) = true ->
                 sanitizeFilename (sanitizeFilename name) = sanitizeFilename name).
  { intros Ha. apply sanitizeFilename_fixed; [|assumption..].
    apply ToLower_fix; [exact Ha|]. apply sanitizeFilename_not_upper, Htable. }
  split; [|split; [exact Hout|]].
  - intros Hfix. apply sanitizeFilename_fixed; assumption.
  - intros Hascii. apply Hout. apply (sanitizeFilename_ascii name Hascii).
Qed.

(** C8.  The level of the page [scrapePage] makes of a URL is one more than
    the number of separators in what is left of the URL once the base URL
    is stripped from its front (only when the URL starts with it) and the
    separators are trimmed from both ends: the number of pieces between
    the separators left, an empty piece between two adjacent separators
    counted, and never less than 1.  It is 1 for the base URL itself, the
    number of segments for the base URL followed by a path of segments,
    and so 2 for [base/a/b]; for a URL that does not start with the base
    URL nothing is stripped and the separators of the whole URL count. *)
Theorem pageLevel_segments
    (s : Scraper) (url : string) (doc : Document) (page : Page) :
  scrapePage s url (Some doc) = Some page ->
  Level page = S (count_byte "/" (Trim (TrimPrefix url (baseURL s)) "/"))
  /\ 1 <= Level page
  /\ (url = baseURL s -> Level page = 1)
  /\ (forall segs,
         segs <> [] -> Forall segment segs ->
         url = baseURL s +:+ "/" +:+ String.concat "/" segs ->
         Level page = List.length segs)
  /\ (forall a b,
         segment a -> segment b ->
         url = baseURL s +:+ "/" +:+ a +:+ "/" +:+ b -> Level page = 2)
  /\ (HasPrefix url (baseURL s) = false ->
      Level page = S (count_byte "/" (Trim url "/"))).
Proof.
  intros H.
  assert (HL : Level page = pageLevel s url).
  { unfold scrapePage in H. injection H as <-. reflexivity. }
  rewrite HL. clear H HL page doc.
  split; [apply pageLevel_count|].
  split; [rewrite pageLevel_count; lia|].
  split; [intros ->; apply pageLevel_base|].
  split; [intros segs Hne Hall ->; apply pageLevel_path; assumption|].
  split.
  - intros a b Ha Hb ->.
    apply (pageLevel_path s [a; b]); [discriminate|].
    constructor; [exact Ha|]. constructor; [exact Hb|]. constructor.
  - intros Hp. rewrite pageLevel_count. unfold TrimPrefix. rewrite Hp.
    reflexivity.
Qed.

End NameClaims.

(** C4: the claim as stated fails.  A name of 99 bytes [a] followed by the
    two bytes of U+00E9 is cut after the first of the two; the second
    application rewrites the stray byte as U+FFFD and cuts again. *)
Lemma sanitizeFilename_counterexample :
  sanitizeFilename (env := Sample.go) Sample.long_name
  = GoStrings.Repeat "a" 99 +:+ String (GoUtf8.byte_of 195) EmptyString
  /\ sanitizeFilename (env := Sample.go)
       (sanitizeFilename (env := Sample.go) Sample.long_name)
     = GoStrings.Repeat "a" 99 +:+ String (GoUtf8.byte_of 239) EmptyString
  /\ sanitizeFilename (env := Sample.go)
       (sanitizeFilename (env := Sample.go) Sample.long_name)
     <> sanitizeFilename (env := Sample.go) Sample.long_name.
Proof.
  split; [vm_compute; reflexivity|].
  split; [vm_compute; reflexivity|].
  intros H. vm_compute in H. discriminate H.
Qed.

Lemma to_lower_no_capital (r : Z) : ~ (65 <= Sample.to_lower r <= 90)%Z.
Proof.
  unfold Sample.to_lower.
  destruct (Z.leb_spec 65 r), (Z.leb_spec r 90), (Z.leb_spec 192 r),
    (Z.leb_spec r 214), (Z.leb_spec 216 r), (Z.leb_spec r 222); simpl; lia.
Qed.

(** C4: the amended claim at work on a title with capitals and reserved
    bytes. *)
Lemma sanitizeFilename_properties_witness :
  sanitizeFilename (env := Sample.go) "Hello World: a/b.c" <> EmptyString
  /\ String.length (sanitizeFilename (env := Sample.go) "Hello World: a/b.c") <= 100
  /\ GoStrings.all_bytes not_upper
       (sanitizeFilename (env := Sample.go) "Hello World: a/b.c") = true
  /\ GoStrings.all_bytes safe_byte
       (sanitizeFilename (env := Sample.go) "Hello World: a/b.c") = true
  /\ sanitizeFilename (env := Sample.go)
       (sanitizeFilename (env := Sample.go) "Hello World: a/b.c")
     = sanitizeFilename (env := Sample.go) "Hello World: a/b.c".
Proof.
  destruct (sanitizeFilename_properties (env := Sample.go) "Hello World: a/b.c"
              to_lower_no_capital) as (H1 & H2 & H3 & H4 & _ & _ & H5).
  repeat (split; [assumption|]). apply H5. reflexivity.
Defined.

(** C8: the claim as stated fails.  In a crawl of a site whose seed links
    to [/docs/a//b] and to [/other/x] both pages are fetched and recorded,
    the first with level 3 (the empty piece between the two separators is
    counted) where it has two segments, the second with level 5 (it does
    not start with the base URL, so the pieces of the whole URL string are
    counted) where it has four pieces that are not empty, two of them in
    its path. *)
Lemma pageLevel_counterexample :
  List.map (fun p => (URL p, Level p))
    (pages (scraper (run (env := Sample.go) Sample.byways 4
                         (start (Sample.scraper ByPages false)))))
  = [("https://example.com/docs", 1);
     ("https://example.com/docs/a//b", 3);
     ("https://example.com/other/x", 5)]
  /\ claimedLevel (Sample.scraper ByPages false)
       "https://example.com/docs/a//b" = 2
  /\ claimedLevel (Sample.scraper ByPages false)
       "https://example.com/other/x" = 4
  /\ option_map Path (GoUrl.parse "https://example.com/other/x")
     = Some "/other/x".
Proof. repeat (split; [vm_compute; reflexivity|]). vm_compute. reflexivity. Qed.

(** C8: the amended claim at work: the page made of [base/guide/install]
    has level 2. *)
Lemma pageLevel_segments_witness :
  exists page,
    scrapePage (env := Sample.go) (Sample.scraper ByPages false)
      (baseURL (Sample.scraper ByPages false) +:+ "/guide/install")
      (Some (Sample.doc [])) = Some page
    /\ Level page = 2.
Proof.
  eexists. split; [reflexivity|].
  destruct (pageLevel_segments (env := Sample.go) (Sample.scraper ByPages false)
              (baseURL (Sample.scraper ByPages false) +:+ "/guide/install")
              (Sample.doc []) _ eq_refl) as (_ & _ & _ & _ & H & _).
  apply (H "guide" "install");
    [split; [discriminate|reflexivity]..|reflexivity].
Defined.

(** * The claims about URLs and code fences *)

Section UrlClaims.
Context {env : GoEnv}.
Import GoStrings.

Lemma str_prefix_weaken p q s :
  String.prefix (p +:+ q) s = true -> String.prefix p s = true.
Proof.
  intros H. apply str_prefix_iff in H as [r ->].
  rewrite str_app_assoc. apply str_prefix_app.
Qed.

(** C5, as amended.  For every scraper and href: [resolveURL] returns href
    unchanged when href starts with the four bytes [http] (whether or not
    that is a scheme, and no other scheme is recognised); it returns the
    scheme of the base URL, a colon and href when href starts with [//],
    and the empty string there when the base URL does not parse; it returns
    the domain prefix followed by href when href starts with a single [/];
    and in every other case the base URL, one [/] and href.  The domain
    prefix of a scraper made by [NewScraper] from a URL that parses is its
    [scheme://host]. *)
Theorem resolveURL_rules (s : Scraper) :
  (forall rest, resolveURL s ("http" +:+ rest) = "http" +:+ rest)
  /\ (forall rest u,
         url_Parse (baseURL s) = Some u ->
         resolveURL s ("//" +:+ rest) = Scheme u +:+ ":" +:+ "//" +:+ rest)
  /\ (forall rest,
         url_Parse (baseURL s) = None ->
         resolveURL s ("//" +:+ rest) = EmptyString)
  /\ (forall rest,
         HasPrefix rest "/" = false ->
         resolveURL s ("/" +:+ rest) = domainPrefix s +:+ "/" +:+ rest)
  /\ (forall href,
         HasPrefix href "http" = false -> HasPrefix href "/" = false ->
         resolveURL s href = baseURL s +:+ "/" +:+ href)
  /\ (forall rawURL outputPath org single u,
         url_Parse rawURL = Some u ->
         domainPrefix (NewScraper rawURL outputPath org single)
         = Scheme u +:+ "://" +:+ Host u).
Proof.
  split; [|split; [|split; [|split; [|split]]]].
  - intros rest. unfold resolveURL, HasPrefix.
    rewrite str_prefix_app. reflexivity.
  - intros rest u Hu. unfold resolveURL, HasPrefix.
    change (String.prefix "http" ("//" +:+ rest)) with false.
    rewrite (str_prefix_app "//" rest), Hu. reflexivity.
  - intros rest Hu. unfold resolveURL, HasPrefix.
    change (String.prefix "http" ("//" +:+ rest)) with false.
    rewrite (str_prefix_app "//" rest), Hu. reflexivity.
  - intros rest Hrest. unfold resolveURL, HasPrefix.
    change (String.prefix "http" ("/" +:+ rest)) with false.
    change (String.prefix "//" ("/" +:+ rest)) with (HasPrefix rest "/").
    rewrite Hrest, (str_prefix_app "/" rest). reflexivity.
  - intros href Hhttp Hslash. unfold resolveURL. rewrite Hhttp, Hslash.
    destruct (HasPrefix href "//") eqn:E; [|reflexivity].
    unfold HasPrefix in *. apply (str_prefix_weaken "/" "/") in E. congruence.
  - intros rawURL outputPath org single u Hu. simpl.
    unfold extractDomainPrefix. rewrite Hu. reflexivity.
Qed.

Lemma existsb_ignore relPath :
  existsb (fun ignore => Contains relPath ignore) ignorePaths = true
  <-> exists ignore, In ignore ignorePaths /\ infix_of ignore relPath.
Proof.
  rewrite existsb_exists. split; intros (ig & Hin & H); exists ig; split; auto;
    apply Contains_infix; assumption.
Qed.

Lemma shouldProcessURL_iff s urlStr :
  shouldProcessURL s urlStr = true
  <-> same_host s urlStr /\ mget (visitedURLs s) urlStr = false
      /\ ~ denylisted s urlStr.
Proof.
  unfold shouldProcessURL, same_host, denylisted. split.
  - destruct (url_Parse (baseURL s)) as [base|]; [|discriminate].
    destruct (url_Parse urlStr) as [checkURL|]; [|discriminate].
    destruct (String.eqb_spec (Host checkURL) (Host base)) as [Hh|]; [|discriminate].
    cbn [negb]. destruct (mget (visitedURLs s) urlStr); [discriminate|].
    intros H. apply negb_true_iff in H.
    split; [eauto|]. split; [reflexivity|].
    intros (base' & check' & ig & E1 & E2 & Hin & Hinf).
    inversion E1. inversion E2. subst.
    assert (existsb (fun ignore => Contains
                       (TrimPrefix (Path check') (Path base')) ignore)
                    ignorePaths = true)
      by (apply existsb_ignore; exists ig; split; assumption).
    congruence.
  - intros ((base & checkURL & E1 & E2 & Hh) & Hv & Hd).
    rewrite E1, E2, Hh, String.eqb_refl, Hv. cbn [negb].
    apply negb_true_iff.
    destruct (existsb _ ignorePaths) eqn:E; [|reflexivity].
    exfalso. apply Hd. apply existsb_ignore in E as (ig & Hin & Hinf).
    exists base, checkURL, ig. auto.
Qed.

(** C6.  For every scraper and URL string: [shouldProcessURL] answers
    [true] exactly when the URL and the base URL parse and name the same
    host, the URL is not marked in [visitedURLs], and the path of the URL
    relative to the path of the base URL contains no entry of the denylist;
    so it answers [false] for a URL on another host, for a visited URL, for
    a URL whose relative path contains a denylisted entry such as [/blog/],
    and also for a URL that does not parse and for every URL when the base
    URL does not parse. *)
Theorem shouldProcessURL_in_scope (s : Scraper) (urlStr : string) :
  (shouldProcessURL s urlStr = true
   <-> same_host s urlStr /\ mget (visitedURLs s) urlStr = false
       /\ ~ denylisted s urlStr)
  /\ (~ same_host s urlStr -> shouldProcessURL s urlStr = false)
  /\ (mget (visitedURLs s) urlStr = true -> shouldProcessURL s urlStr = false)
  /\ (denylisted s urlStr -> shouldProcessURL s urlStr = false)
  /\ In "/blog/" ignorePaths
  /\ (other_host s urlStr -> shouldProcessURL s urlStr = false)
  /\ (url_Parse urlStr = None -> shouldProcessURL s urlStr = false)
  /\ (url_Parse (baseURL s) = None -> shouldProcessURL s urlStr = false).
Proof.
  pose proof (shouldProcessURL_iff s urlStr) as H.
  assert (Hn : ~ same_host s urlStr -> shouldProcessURL s urlStr = false).
  { intros Hn. destruct (shouldProcessURL s urlStr); [|reflexivity].
    exfalso. apply Hn. apply H. reflexivity. }
  split; [exact H|].
  split; [exact Hn|].
  split; [|split; [|split; [|split; [|split]]]].
  - intros Hv. destruct (shouldProcessURL s urlStr); [|reflexivity].
    destruct H as [H _]. destruct (H eq_refl) as (_ & Hv' & _). congruence.
  - intros Hd. destruct (shouldProcessURL s urlStr); [|reflexivity].
    destruct H as [H _]. destruct (H eq_refl) as (_ & _ & Hd'). contradiction.
  - unfold ignorePaths. simpl. tauto.
  - intros (base & checkURL & E1 & E2 & Hh). apply Hn.
    intros (base' & check' & E1' & E2' & Hh'). congruence.
  - intros E. apply Hn. intros (base' & check' & _ & E2' & _). congruence.
  - intros E. apply Hn. intros (base' & check' & E1' & _ & _). congruence.
Qed.






End UrlClaims.

(** C6: the claim as stated fails.  [https://example.com/docs/%zz] starts
    with the base URL, names no other host, is not visited and holds no
    denylist entry anywhere, and is rejected all the same: [url.Parse]
    refuses its escape.  And with the base URL [https://example.com/docs/]
    the URL [https://example.com/docs/blog/post], whose path contains
    [/blog/], is accepted: the separator before [blog] goes with the base
    path. *)
Lemma shouldProcessURL_counterexample :
  GoStrings.HasPrefix "https://example.com/docs/%zz"
                      (baseURL (Sample.scraper SingleFile false)) = true
  /\ ~ other_host (env := Sample.go) (Sample.scraper SingleFile false)
         "https://example.com/docs/%zz"
  /\ mget (visitedURLs (Sample.scraper SingleFile false))
          "https://example.com/docs/%zz" = false
  /\ ~ denylisted (env := Sample.go) (Sample.scraper SingleFile false)
         "https://example.com/docs/%zz"
  /\ existsb (fun ignore =>
                GoStrings.Contains "https://example.com/docs/%zz" ignore)
             ignorePaths = false
  /\ shouldProcessURL (env := Sample.go) (Sample.scraper SingleFile false)
       "https://example.com/docs/%zz" = false
  /\ option_map Path (GoUrl.parse "https://example.com/docs/blog/post")
     = Some "/docs/blog/post"
  /\ GoStrings.Contains "/docs/blog/post" "/blog/" = true
  /\ shouldProcessURL (env := Sample.go) Sample.scraper_slash
       "https://example.com/docs/blog/post" = true.
Proof.
  split; [vm_compute; reflexivity|].
  split; [intros (base & checkURL & _ & E & _); vm_compute in E; discriminate E|].
  split; [vm_compute; reflexivity|].
  split; [intros (base & checkURL & ig & _ & E & _); vm_compute in E;
          discriminate E|].
  repeat (split; [vm_compute; reflexivity|]). vm_compute. reflexivity.
Qed.

(** C5: the claim as stated fails.  [mailto:docs@example.com] carries a
    scheme and is not returned unchanged; [httpd/install] carries none and
    is returned unchanged instead of being joined to the base URL; for
    [//cdn.example.com/lib.js] the result is not the scheme followed by
    href, a colon stands between them; and with a base URL that does not
    parse the result for it is the empty string. *)
Lemma resolveURL_counterexample :
  has_scheme "mailto:docs@example.com" = true
  /\ resolveURL (env := Sample.go) (Sample.scraper SingleFile false)
       "mailto:docs@example.com"
     = "https://example.com/docs/mailto:docs@example.com"
  /\ has_scheme "httpd/install" = false
  /\ resolveURL (env := Sample.go) (Sample.scraper SingleFile false)
       "httpd/install" = "httpd/install"
  /\ resolveURL (env := Sample.go) (Sample.scraper SingleFile false)
       "//cdn.example.com/lib.js" = "https://cdn.example.com/lib.js"
  /\ resolveURL (env := Sample.go) Sample.scraper_bad_base
       "//cdn.example.com/lib.js" = EmptyString.
Proof. repeat (split; [vm_compute; reflexivity|]). vm_compute. reflexivity. Qed.


Section ScrapeClaims.
Context {env : GoEnv}.
Variable w : World.
Import GoStrings.

Lemma write_scraper filepath content c c' ok :
  writeContentToFile w filepath content c = (c', ok) -> scraper c' = scraper c.
Proof.
  intros H. destruct (write_fields w filepath content c) as (E & _).
  rewrite H in E. exact E.
Qed.

Lemma crawl_config fuel s c :
  crawl w fuel (start s) = Some c -> same_config s (scraper c).
Proof.
  intros H. destruct (crawl_run w _ _ _ H) as (n & -> & _).
  apply (inv_config _ _ (Inv_run w s n)).
Qed.

Lemma Scrape_config fuel s c ok :
  Scrape w fuel s = Some (c, ok) -> same_config s (scraper c).
Proof.
  unfold Scrape. destruct (singlePage s).
  - unfold scrapeSingle. intros H. inversion H as [H']. clear H.
    destruct (scrapePage s (baseURL s) _).
    + destruct (organization s); apply write_scraper in H'; simpl in H';
        rewrite H'; apply same_config_refl.
    + inversion H'. apply same_config_refl.
  - destruct (crawl w fuel (start s)) as [c0|] eqn:E; [|discriminate].
    pose proof (crawl_config _ _ _ E) as Hc. unfold createIndex.
    destruct (organization (scraper c0)); intros H; inversion H as [H'];
      apply write_scraper in H'; rewrite H'; exact Hc.
Qed.

(** C9.  For every crawl of a scraper made by [NewScraper], in any world:
    the [visitedURLs] map of the scraper is empty at every moment of the run
    and in the state [Scrape] returns, so its look-up in [shouldProcessURL]
    answers [false] for every URL and [shouldProcessURL] decides by host and
    denylist alone; the duplicates are removed by the [processed] map of the
    loop, which is a local of [Scrape]. *)
Theorem visitedURLs_never_populated
    (rawURL outputPath : string) (org : Organization) (single : bool)
    (n fuel : nat) :
  visitedURLs (scraper (run w n (start (NewScraper rawURL outputPath org single))))
  = ∅
  /\ (forall u,
         mget (visitedURLs
                 (scraper (run w n (start (NewScraper rawURL outputPath org single)))))
              u = false)
  /\ (forall u,
         shouldProcessURL
           (scraper (run w n (start (NewScraper rawURL outputPath org single)))) u
         = true
         <-> same_host
               (scraper (run w n (start (NewScraper rawURL outputPath org single)))) u
             /\ ~ denylisted
                   (scraper (run w n (start (NewScraper rawURL outputPath org single))))
                   u)
  /\ (forall c ok,
         Scrape w fuel (NewScraper rawURL outputPath org single) = Some (c, ok) ->
         visitedURLs (scraper c) = ∅
         /\ forall u, mget (visitedURLs (scraper c)) u = false).
Proof.
  set (s := NewScraper rawURL outputPath org single).
  assert (Hrun : visitedURLs (scraper (run w n (start s))) = ∅).
  { destruct (inv_config _ _ (Inv_run w s n)) as (_ & _ & _ & H & _).
    rewrite H. reflexivity. }
  split; [exact Hrun|]. split; [|split].
  - intros u. rewrite Hrun. reflexivity.
  - intros u. rewrite shouldProcessURL_iff, Hrun.
    split; [intros (H1 & _ & H2); auto|intros (H1 & H2); auto].
  - intros c ok H.
    destruct (Scrape_config _ _ _ _ H) as (_ & _ & _ & Hv & _).
    rewrite Hv. split; [reflexivity|]. intros u. reflexivity.
Qed.

Lemma render_blocks (blocks : list Block) (init : string) :
  fold_left (fun acc b => acc +:+ renderBlock b) blocks init
  = init +:+ String.concat EmptyString (List.map renderBlock blocks).
Proof.
  revert init. induction blocks as [|b blocks IH]; intros init.
  - simpl. rewrite str_app_empty_r. reflexivity.
  - simpl fold_left. rewrite IH. simpl List.map.
    rewrite str_concat_cons, str_app_assoc. reflexivity.
Qed.

Lemma scrapePage_shape s url resp page :
  scrapePage s url resp = Some page ->
  URL page = url
  /\ Filename page = sanitizeFilename (Title page) +:+ ".md"
  /\ exists body,
       Content page = nl +:+ "## Source: " +:+ url +:+ nl +:+ nl +:+ body.
Proof.
  unfold scrapePage. destruct resp as [doc|]; [|discriminate].
  intros H. apply (inj Some) in H. rewrite <- H.
  cbv beta iota delta [URL Filename Title Content].
  split; [reflexivity|]. split; [apply pageFilename_from_title|].
  rewrite render_blocks. destruct (doc_h1 doc); eexists;
    rewrite !str_app_assoc; reflexivity.
Qed.


End ScrapeClaims.



(** * Further properties of the program *)

(** ** The turns of the loop, case by case *)

Section StepFacts.
Context {env : GoEnv}.
Variable w : World.

Lemma resolveURL_config s s' href :
  same_config s s' -> resolveURL s' href = resolveURL s href.
Proof.
  intros (Hb & _ & _ & _ & Hd & _). unfold resolveURL. rewrite Hb, Hd. reflexivity.
Qed.

Lemma shouldProcessURL_config s s' u :
  same_config s s' -> shouldProcessURL s' u = shouldProcessURL s u.
Proof.
  intros (Hb & _ & _ & Hv & _). unfold shouldProcessURL. rewrite Hb, Hv. reflexivity.
Qed.

Lemma getAllDocLinks_config s s' resp :
  same_config s s' -> getAllDocLinks s' resp = getAllDocLinks s resp.
Proof.
  intros H. unfold getAllDocLinks. destruct resp as [doc|]; [|reflexivity].
  f_equal. induction (doc_hrefs doc) as [|h l IH]; [reflexivity|].
  simpl. rewrite (resolveURL_config _ _ h H), (shouldProcessURL_config _ _ _ H), IH.
  reflexivity.
Qed.

Lemma scrapePage_config s s' u resp :
  same_config s s' -> scrapePage s' u resp = scrapePage s u resp.
Proof.
  intros (Hb & _). unfold scrapePage, pageLevel. rewrite Hb. reflexivity.
Qed.

Lemma skipped_turn c u rest :
  links c = u :: rest -> mget (processed c) u = true ->
  iterate w c = note [EvDequeue u] (with_links rest c).
Proof.
  intros Hl Hp. unfold iterate. rewrite Hl.
  cbn [processed note with_links]. rewrite Hp. reflexivity.
Qed.

Lemma write_result filepath content c :
  exists ok,
    ok = (mkdir_all w (clock c) (GoPath.Dir filepath)
          && write_file w (clock c) filepath content)
    /\ snd (writeContentToFile w filepath content c) = ok
    /\ scraper (fst (writeContentToFile w filepath content c)) = scraper c
    /\ links (fst (writeContentToFile w filepath content c)) = links c
    /\ processed (fst (writeContentToFile w filepath content c)) = processed c
    /\ mainContent (fst (writeContentToFile w filepath content c)) = mainContent c
    /\ clock (fst (writeContentToFile w filepath content c)) = S (clock c)
    /\ trace (fst (writeContentToFile w filepath content c))
       = trace c ++ [EvWrite filepath content ok]
    /\ files (fst (writeContentToFile w filepath content c))
       = if ok then <[filepath := content]> (files c) else files c.
Proof.
  unfold writeContentToFile.
  destruct (mkdir_all w (clock c) (GoPath.Dir filepath)
            && write_file w (clock c) filepath content);
    eexists; (split; [reflexivity|]); simpl; repeat split; reflexivity.
Qed.

Lemma iterate_step c : step w c (iterate w c).
Proof.
  destruct (links c) as [|u rest] eqn:Hl.
  { apply step_done; [assumption|]. unfold iterate. rewrite Hl. reflexivity. }
  destruct (mget (processed c) u) eqn:Hp.
  { eapply step_skip; eauto using skipped_turn. }
  destruct (scrapePage (scraper c) u (http_get w (clock c) u)) as [page|] eqn:Hs.
  2: { eapply step_fail; eauto using failed_turn. }
  unfold iterate. rewrite Hl. cbn [processed scraper clock note with_links].
  rewrite Hp, Hs.
  set (c1 := emit [EvScrape u true] (note [EvDequeue u] (with_links rest c))).
  set (c2 := match organization (scraper c1) with
             | SingleFile => with_mainContent (mainContent c1 +:+ Content page) c1
             | _ => fst (writeContentToFile w
                           (GoPath.Join (outputDir (scraper c1)) (Filename page))
                           (Content page) c1)
             end).
  assert (H2 : scraper c2 = scraper c /\ links c2 = rest
               /\ processed c2 = processed c /\ clock c2 = linkTime c
               /\ exists wr, trace c2 = trace c ++ [EvDequeue u; EvScrape u true] ++ wr
                             /\ kept w c c2 page wr).
  { subst c2. unfold kept, linkTime. change (scraper c1) with (scraper c).
    destruct (organization (scraper c)).
    - simpl. repeat split; auto. exists []. rewrite <- app_assoc.
      repeat split; reflexivity.
    - destruct (write_result (GoPath.Join (outputDir (scraper c)) (Filename page))
                             (Content page) c1)
        as (ok & E0 & _ & E1 & E2 & E3 & E4 & E7 & E5 & E6).
      rewrite E1, E2, E3, E7. do 4 (split; [reflexivity|]).
      exists [EvWrite (GoPath.Join (outputDir (scraper c)) (Filename page))
                      (Content page) ok].
      rewrite E5. simpl. rewrite <- !app_assoc. split; [reflexivity|].
      exists ok. repeat split; assumption.
    - destruct (write_result (GoPath.Join (outputDir (scraper c)) (Filename page))
                             (Content page) c1)
        as (ok & E0 & _ & E1 & E2 & E3 & E4 & E7 & E5 & E6).
      rewrite E1, E2, E3, E7. do 4 (split; [reflexivity|]).
      exists [EvWrite (GoPath.Join (outputDir (scraper c)) (Filename page))
                      (Content page) ok].
      rewrite E5. simpl. rewrite <- !app_assoc. split; [reflexivity|].
      exists ok. repeat split; assumption. }
  clearbody c2. destruct H2 as (E1 & E2 & E3 & Ec & wr & E4 & Hk).
  set (c3 := with_processed _ (add_page page c2)).
  assert (Hcfg : same_config (scraper c) (scraper c3)).
  { subst c3. simpl. rewrite E1. repeat split. }
  assert (Hkept : forall c', mainContent c' = mainContent c2 -> files c' = files c2 ->
                             kept w c c' page wr).
  { intros c' Hm Hf. unfold kept in *. rewrite Hm, Hf. exact Hk. }
  destruct (getAllDocLinks (scraper c3) (http_get w (clock c3) u)) as [newLinks|] eqn:Hg.
  - eapply (step_page w c _ u rest page wr true
              (List.filter (fun link => negb (mget (processed c3) link)) newLinks));
      eauto.
    + simpl. rewrite E2. reflexivity.
    + simpl. rewrite E3. reflexivity.
    + simpl. rewrite E1. reflexivity.
    + simpl. rewrite E4, <- !app_assoc. reflexivity.
    + simpl. rewrite Ec. reflexivity.
    + unfold followed. rewrite <- Ec.
      change (clock c2) with (clock c3).
      rewrite <- (getAllDocLinks_config _ _ _ Hcfg), Hg.
      split; [reflexivity|]. simpl. rewrite E3. reflexivity.
  - eapply (step_page w c _ u rest page wr false []); eauto.
    + simpl. rewrite E2, app_nil_r. reflexivity.
    + simpl. rewrite E3. reflexivity.
    + simpl. rewrite E1. reflexivity.
    + simpl. rewrite E4, <- !app_assoc. reflexivity.
    + simpl. rewrite Ec. reflexivity.
    + unfold followed. rewrite <- Ec.
      change (clock c2) with (clock c3).
      rewrite <- (getAllDocLinks_config _ _ _ Hcfg), Hg.
      split; reflexivity.
Qed.

End StepFacts.

(** ** The books of a run *)

Section BookFacts.
Context {env : GoEnv}.
Variable w : World.

Lemma str_concat_app (l1 l2 : list string) :
  String.concat EmptyString (l1 ++ l2)
  = String.concat EmptyString l1 +:+ String.concat EmptyString l2.
Proof.
  induction l1 as [|a l1 IH]; [reflexivity|].
  change ((a :: l1) ++ l2) with (a :: (l1 ++ l2)).
  rewrite !str_concat_cons, IH, str_app_assoc. reflexivity.
Qed.

Lemma linkFetches_app t1 t2 :
  linkFetches (t1 ++ t2) = linkFetches t1 ++ linkFetches t2.
Proof. apply omap_app. Qed.

Lemma replay_app t1 t2 :
  replay (t1 ++ t2)
  = fold_left written t2 (replay t1).
Proof. apply fold_left_app. Qed.

Lemma enqueues_silent (l : list string) :
  writes (List.map EvEnqueue l) = []
  /\ linkFetches (List.map EvEnqueue l) = []
  /\ forall m, fold_left written (List.map EvEnqueue l) m = m.
Proof.
  induction l as [|u l (IH1 & IH2 & IH3)]; [repeat split|].
  repeat split; auto.
Qed.

Lemma getAllDocLinks_sound s resp found :
  getAllDocLinks s resp = Some found ->
  Forall (fun u => u <> EmptyString /\ shouldProcessURL s u = true) found.
Proof.
  unfold getAllDocLinks. destruct resp as [doc|]; [|discriminate].
  intros H. apply (inj Some) in H. subst found.
  apply Forall_forall. intros u Hu.
  apply list_elem_of_In, filter_In in Hu as [_ Hu].
  apply andb_true_iff in Hu as [H1 H2]. split; [|exact H2].
  apply negb_true_iff in H1. intros ->. discriminate.
Qed.

Lemma pageLevel_pos s url : 1 <= pageLevel s url.
Proof. rewrite pageLevel_count. lia. Qed.

Lemma Ledger_start s : Ledger w s (start s) [].
Proof.
  constructor; simpl.
  - rewrite app_nil_r. reflexivity.
  - constructor.
  - destruct (organization s); split; reflexivity.
  - reflexivity.
  - reflexivity.
  - cbn. constructor; [left; reflexivity|constructor].
Qed.

Lemma Ledger_step s0 c c' ps :
  same_config s0 (scraper c) -> Ledger w s0 c ps -> step w c c' ->
  exists ps', Ledger w s0 c' ps'.
Proof.
  intros Hcfg [L1 L2 L3 L4 L5 L6]
    [Hl ->|u rest Hl Hp ->|u rest Hl Hp Hs ->
     |u rest page wr lk fresh Hl Hp Hs Hl' Hp' Hpg Hcfg' Htr Hck Hk Hf].
  - exists ps. constructor; assumption.
  - exists ps. constructor; simpl; auto.
    + rewrite writes_app. cbn. rewrite app_nil_r. exact L3.
    + rewrite replay_app. exact L4.
    + rewrite linkFetches_app, scraped_app. cbn. rewrite !app_nil_r. exact L5.
    + rewrite enqueued_app. cbn. rewrite app_nil_r. exact L6.
  - exists ps. constructor; simpl; auto.
    + rewrite <- app_assoc, writes_app. cbn. rewrite app_nil_r. exact L3.
    + rewrite <- app_assoc, replay_app. exact L4.
    + rewrite <- app_assoc, linkFetches_app, scraped_app. cbn.
      rewrite !app_nil_r. exact L5.
    + rewrite <- app_assoc, enqueued_app. cbn. rewrite app_nil_r. exact L6.
  - exists (ps ++ [page]).
    destruct (enqueues_silent fresh) as (S1 & S2 & S3).
    destruct (enqueues_only fresh) as (F1 & _ & _ & F4).
    assert (Horg : organization (scraper c) = organization s0)
      by (destruct Hcfg as (_ & _ & _ & _ & _ & H & _); exact H).
    assert (Hdir : outputDir (scraper c) = outputDir s0)
      by (destruct Hcfg as (_ & _ & H & _); exact H).
    assert (Hwr : writes wr
                  = match organization s0 with
                    | SingleFile => []
                    | _ => [pageFile s0 page]
                    end
                  /\ linkFetches wr = [] /\ scraped true wr = []
                  /\ enqueued wr = []
                  /\ mainContent c'
                     = match organization s0 with
                       | SingleFile => mainContent c +:+ Content page
                       | _ => mainContent c
                       end
                  /\ files c'
                     = fold_left written wr (files c)).
    { unfold kept in Hk. rewrite Horg, Hdir in Hk. unfold pageFile.
      destruct (organization s0).
      - destruct Hk as (-> & -> & ->). repeat split.
      - destruct Hk as (ok & _ & -> & -> & ->). destruct ok; repeat split.
      - destruct Hk as (ok & _ & -> & -> & ->). destruct ok; repeat split. }
    destruct Hwr as (W1 & W2 & W3 & W4 & W5 & W6).
    constructor.
    + rewrite Hpg, L1, app_assoc. reflexivity.
    + apply Forall_app. split; [exact L2|]. constructor; [|constructor].
      rewrite (scrapePage_URL _ _ _ _ Hs).
      exists (clock c). rewrite <- (scrapePage_config _ _ _ _ Hcfg). exact Hs.
    + rewrite Htr, !writes_app, W1, S1. cbn. rewrite W5.
      destruct (organization s0); destruct L3 as [L3 L3'];
        rewrite L3, L3', ?map_app, ?str_concat_app, ?app_nil_r; cbn;
        rewrite ?str_app_empty_r; split; reflexivity.
    + rewrite Htr, W6, L4, !replay_app. simpl fold_left.
      rewrite fold_left_app. simpl. rewrite S3. reflexivity.
    + rewrite Htr, !linkFetches_app, !scraped_app, W2, W3, S2, F4, L5. cbn.
      rewrite ?app_nil_r. reflexivity.
    + rewrite Htr, !enqueued_app, W4, F1. cbn.
      apply Forall_app. split; [exact L6|].
      unfold followed in Hf.
      rewrite (getAllDocLinks_config _ _ _ Hcfg) in Hf.
      destruct (getAllDocLinks s0 (http_get w (linkTime c) u)) as [newLinks|] eqn:Hg.
      * destruct Hf as (_ & ->). apply getAllDocLinks_sound in Hg.
        apply Forall_forall. intros l Hin.
        apply list_elem_of_In, filter_In in Hin as [Hin _].
        apply list_elem_of_In in Hin.
        right. exact (proj1 (Forall_forall _ _) Hg l Hin).
      * destruct Hf as (_ & ->). constructor.
Qed.

Lemma run_S n c : run w (S n) c = iterate w (run w n c).
Proof. reflexivity. Qed.

Lemma Ledger_run s n : exists ps, Ledger w s (run w n (start s)) ps.
Proof.
  induction n as [|n [ps IH]]; [exists []; apply Ledger_start|].
  rewrite run_S. eapply Ledger_step; [|exact IH|apply iterate_step].
  apply (inv_config _ _ (Inv_run w s n)).
Qed.

End BookFacts.

(** ** Scope and requests *)

Section CrawlBooks.
Context {env : GoEnv}.
Variable w : World.
Import GoStrings.

Lemma Forall_sublist {A} (P : A -> Prop) (l1 l2 : list A) :
  l1 `sublist_of` l2 -> Forall P l2 -> Forall P l1.
Proof.
  intros Hs. induction Hs as [|x l1 l2 _ IH|x l1 l2 _ IH]; intros HP;
    [constructor| |]; inversion HP; subst; [constructor|]; auto.
Qed.

(** The turn that makes a page, read off [iterate]. *)
Lemma iterate_page c u rest page :
  links c = u :: rest ->
  mget (processed c) u = false ->
  scrapePage (scraper c) u (http_get w (clock c) u) = Some page ->
  exists wr lk fresh,
    links (iterate w c) = rest ++ fresh
    /\ processed (iterate w c) = <[u := true]> (processed c)
    /\ pages (scraper (iterate w c)) = pages (scraper c) ++ [page]
    /\ same_config (scraper c) (scraper (iterate w c))
    /\ trace (iterate w c)
       = trace c ++ [EvDequeue u; EvScrape u true] ++ wr
                 ++ [EvLinks u lk] ++ List.map EvEnqueue fresh
    /\ clock (iterate w c) = S (linkTime c)
    /\ kept w c (iterate w c) page wr
    /\ followed w c u lk fresh.
Proof.
  intros Hl Hp Hs.
  destruct (iterate_step w c)
    as [Hl' _|u' rest' Hl' Hp' _|u' rest' Hl' Hp' Hs' _
        |u' rest' page' wr lk fresh Hl' Hp' Hs' H1 H2 H3 H4 H5 H6 H7 H8];
    rewrite Hl in Hl'; try discriminate; inversion Hl'; subst u' rest'.
  - congruence.
  - congruence.
  - rewrite Hs in Hs'. inversion Hs'. subst page'.
    exists wr, lk, fresh. do 7 (split; [assumption|]). assumption.
Qed.

(** X1. Every URL the crawl enqueues, holds in its queue or requests is the
    seed or a link [getAllDocLinks] let through: a non-empty URL on the host
    of the seed whose relative path is not denylisted. *)
Theorem crawl_stays_in_scope (s : Scraper) (n : nat) :
  Forall (admitted s) (enqueued (trace (run w n (start s))))
  /\ Forall (admitted s) (links (run w n (start s)))
  /\ Forall (admitted s) (attempts (trace (run w n (start s))))
  /\ (forall u, u ∈ attempts (trace (run w n (start s))) ->
                u <> baseURL s ->
                u <> EmptyString /\ same_host s u /\ ~ denylisted s u).
Proof.
  destruct (Ledger_run w s n) as [ps L].
  pose proof (Inv_run w s n) as I.
  set (c := run w n (start s)) in *.
  pose proof (led_scope _ _ _ _ L) as Henq.
  assert (Hq : Forall (admitted s) (dequeued (trace c))
               /\ Forall (admitted s) (links c)).
  { rewrite (inv_queue _ _ I) in Henq. apply Forall_app in Henq. exact Henq. }
  destruct Hq as [Hdeq Hlinks].
  assert (Hatt : Forall (admitted s) (attempts (trace c))).
  { eapply Forall_sublist; [apply (inv_attempts _ _ I)|exact Hdeq]. }
  split; [exact Henq|]. split; [exact Hlinks|]. split; [exact Hatt|].
  intros u Hu Hne.
  destruct (proj1 (Forall_forall _ _) Hatt u Hu) as [->|[H1 H2]]; [contradiction|].
  apply shouldProcessURL_iff in H2 as (H2 & _ & H3). auto.
Qed.

(** X2. A page costs two requests: every successful scrape is followed by one
    call of [getAllDocLinks] on the same URL, and by no other.  When that
    second request fails the page stays recorded and processed, and
    nothing is enqueued for it. *)
Theorem page_fetched_twice (s : Scraper) (n : nat) :
  linkFetches (trace (run w n (start s))) = scraped true (trace (run w n (start s)))
  /\ (forall u rest page,
         links (run w n (start s)) = u :: rest ->
         mget (processed (run w n (start s))) u = false ->
         scrapePage (scraper (run w n (start s))) u
                    (http_get w (clock (run w n (start s))) u) = Some page ->
         getAllDocLinks (scraper (run w n (start s)))
                        (http_get w (linkTime (run w n (start s))) u) = None ->
         links (iterate w (run w n (start s))) = rest
         /\ pages (scraper (iterate w (run w n (start s))))
            = pages (scraper (run w n (start s))) ++ [page]
         /\ mget (processed (iterate w (run w n (start s)))) u = true
         /\ enqueued (trace (iterate w (run w n (start s))))
            = enqueued (trace (run w n (start s)))
         /\ linkFetches (trace (iterate w (run w n (start s))))
            = linkFetches (trace (run w n (start s))) ++ [u]).
Proof.
  destruct (Ledger_run w s n) as [ps L].
  set (c := run w n (start s)) in *.
  split; [apply (led_fetch _ _ _ _ L)|].
  intros u rest page Hl Hp Hs Hg.
  destruct (iterate_page c u rest page Hl Hp Hs)
    as (wr & lk & fresh & H1 & H2 & H3 & _ & H5 & _ & Hk & Hf).
  unfold followed in Hf. rewrite Hg in Hf. destruct Hf as (-> & ->).
  assert (Hwr : enqueued wr = [] /\ linkFetches wr = []).
  { unfold kept in Hk. destruct (organization (scraper c)).
    - destruct Hk as (-> & _). split; reflexivity.
    - destruct Hk as (ok & _ & -> & _). split; reflexivity.
    - destruct Hk as (ok & _ & -> & _). split; reflexivity. }
  destruct Hwr as [W1 W2].
  rewrite H1, H2, H3, H5, app_nil_r.
  split; [reflexivity|]. split; [reflexivity|].
  split; [unfold mget; rewrite lookup_insert_eq; reflexivity|].
  rewrite !enqueued_app, !linkFetches_app, W1, W2. cbn.
  rewrite !app_nil_r. split; reflexivity.
Qed.

End CrawlBooks.

(** X2 at work: the seed of the sample site answers its first request only;
    its page is recorded and the queue is empty after the turn. *)
Lemma page_fetched_twice_witness :
  links (iterate (env := Sample.go) Scenes.once
                 (run (env := Sample.go) Scenes.once 0
                      (start (Sample.scraper SingleFile false)))) = []
  /\ List.map URL
       (pages (scraper (iterate (env := Sample.go) Scenes.once
                          (run (env := Sample.go) Scenes.once 0
                               (start (Sample.scraper SingleFile false))))))
     = [Sample.seed].
Proof.
  destruct (page_fetched_twice (env := Sample.go) Scenes.once
              (Sample.scraper SingleFile false) 0) as (_ & H).
  destruct (H Sample.seed [] Sample.seed_page) as (H1 & H2 & _);
    [vm_compute; reflexivity ..|].
  split; [exact H1|]. rewrite H2. vm_compute. reflexivity.
Defined.

(** ** What a run writes *)

Section Output.
Context {env : GoEnv}.
Variable w : World.
Import GoStrings GoPath.

Lemma length_Repeat s n : String.length (Repeat s n) = n * String.length s.
Proof. induction n; simpl; [reflexivity|]. rewrite str_length_app, IHn. reflexivity. Qed.

Lemma Repeat_two k : Repeat " " (2 * k) = Repeat "  " k.
Proof.
  induction k as [|k IH]; [reflexivity|].
  replace (2 * S k) with (S (S (2 * k))) by lia.
  cbn [Repeat]. rewrite IH. reflexivity.
Qed.

Lemma written_none tr m : writes tr = [] -> fold_left written tr m = m.
Proof.
  revert m. induction tr as [|e tr IH]; intros m H; [reflexivity|].
  destruct e; try discriminate; simpl; apply IH; exact H.
Qed.

Lemma indexContent_lines s :
  indexContent s
  = indexHeader s +:+ String.concat EmptyString (List.map indexLine (pages s)).
Proof.
  unfold indexContent, indexHeader.
  generalize ("# Documentation: " +:+ corpusTitle s +:+ nl +:+ nl
              +:+ "## Table of Contents" +:+ nl +:+ nl).
  induction (pages s) as [|p l IH]; intros init.
  - simpl. rewrite str_app_empty_r. reflexivity.
  - simpl fold_left. rewrite IH. simpl List.map.
    rewrite str_concat_cons, str_app_assoc. reflexivity.
Qed.

Lemma corpusTitle_config s s' : same_config s s' -> corpusTitle s' = corpusTitle s.
Proof. intros (H & _). unfold corpusTitle. rewrite H. reflexivity. Qed.

(** [Scrape] in crawl mode: the loop, then one write. *)
Lemma Scrape_crawl fuel s :
  singlePage s = false ->
  Scrape w fuel s
  = option_map (fun c => writeContentToFile w (finalFile c).1 (finalFile c).2 c)
               (crawl w fuel (start s)).
Proof.
  intros H. unfold Scrape, finalFile, createIndex. rewrite H.
  destruct (crawl w fuel (start s)) as [c|]; [|reflexivity].
  cbn [option_map]. destruct (organization (scraper c)); reflexivity.
Qed.

(** What [Scrape] returns in crawl mode, against the state the loop ended
    in. *)
Lemma Scrape_end fuel s c ok :
  singlePage s = false ->
  Scrape w fuel s = Some (c, ok) ->
  exists n,
    crawl w fuel (start s) = Some (run w n (start s))
    /\ links (run w n (start s)) = []
    /\ ok = (mkdir_all w (clock (run w n (start s)))
                       (Dir (finalFile (run w n (start s))).1)
             && write_file w (clock (run w n (start s)))
                           (finalFile (run w n (start s))).1
                           (finalFile (run w n (start s))).2)
    /\ scraper c = scraper (run w n (start s))
    /\ trace c = trace (run w n (start s))
                 ++ [EvWrite (finalFile (run w n (start s))).1
                             (finalFile (run w n (start s))).2 ok]
    /\ files c = if ok
                 then <[(finalFile (run w n (start s))).1
                        := (finalFile (run w n (start s))).2]>
                        (files (run w n (start s)))
                 else files (run w n (start s)).
Proof.
  intros Hs H. rewrite (Scrape_crawl _ _ Hs) in H.
  destruct (crawl w fuel (start s)) as [c0|] eqn:E; [|discriminate].
  destruct (crawl_run w _ _ _ E) as (n & -> & Hl).
  exists n. split; [reflexivity|]. split; [exact Hl|].
  simpl in H. apply (inj Some) in H.
  destruct (write_result w (finalFile (run w n (start s))).1
                         (finalFile (run w n (start s))).2 (run w n (start s)))
    as (ok' & E0 & E1 & E2 & _ & _ & _ & _ & E3 & E4).
  rewrite H in E1, E2, E3, E4. simpl in E1, E2, E3, E4.
  rewrite <- E1 in E0, E3, E4.
  split; [exact E0|]. split; [exact E2|]. split; [exact E3|]. exact E4.
Qed.

(** X3. Every page a crawl records carries the level [scrapePage] computed from
    its URL, which is at least 1: the count [page.Level-1] that
    [createIndex] hands to [strings.Repeat] is never negative, and the
    entry of the page is indented by two spaces per level above the
    first. *)
Theorem recorded_levels
    (rawURL outputPath : string) (org : Organization) (single : bool) (n : nat) :
  Forall (fun p =>
            Level p = pageLevel (NewScraper rawURL outputPath org single) (URL p)
            /\ 1 <= Level p
            /\ exists rest,
                 indexLine p = Repeat " " (2 * (Level p - 1)) +:+ "- [" +:+ rest)
         (pages (scraper (run w n (start (NewScraper rawURL outputPath org single))))).
Proof.
  destruct (Ledger_run w (NewScraper rawURL outputPath org single) n) as [ps L].
  rewrite (led_pages _ _ _ _ L). simpl.
  eapply Forall_impl; [apply (led_made _ _ _ _ L)|].
  intros p [t Hp]. unfold scrapePage in Hp.
  destruct (http_get w t (URL p)); [|discriminate].
  apply (inj Some) in Hp.
  assert (Hl : Level p = pageLevel (NewScraper rawURL outputPath org single) (URL p)).
  { rewrite <- Hp at 1. reflexivity. }
  split; [exact Hl|]. split; [rewrite Hl; apply pageLevel_pos|].
  unfold indexLine. eexists.
  rewrite <- Repeat_two. reflexivity.
Qed.

(** X4. In mode single the loop writes no file: the corpus grows in memory,
    one page after the other in the order of scraping, and [Scrape] ends
    with one write of the heading followed by the corpus to the output
    path. *)
Theorem single_file_corpus (rawURL outputPath : string) (n fuel : nat) :
  let s := NewScraper rawURL outputPath SingleFile false in
  mainContent (run w n (start s))
  = String.concat EmptyString
      (List.map Content (pages (scraper (run w n (start s)))))
  /\ writes (trace (run w n (start s))) = []
  /\ files (run w n (start s)) = ∅
  /\ forall c ok,
       Scrape w fuel s = Some (c, ok) ->
       writes (trace c)
       = [(outputPath,
           "# Documentation: " +:+ corpusTitle s +:+ nl +:+ nl
           +:+ String.concat EmptyString (List.map Content (pages (scraper c))))]
       /\ List.map URL (pages (scraper c)) = scraped true (trace c)
       /\ files c
          = if ok
            then {[ outputPath :=
                      "# Documentation: " +:+ corpusTitle s +:+ nl +:+ nl
                      +:+ String.concat EmptyString
                            (List.map Content (pages (scraper c))) ]}
            else ∅.
Proof.
  intros s.
  assert (Hrun : forall k,
             mainContent (run w k (start s))
             = String.concat EmptyString
                 (List.map Content (pages (scraper (run w k (start s)))))
             /\ writes (trace (run w k (start s))) = []
             /\ files (run w k (start s)) = ∅).
  { intros k. destruct (Ledger_run w s k) as [ps L].
    pose proof (led_store _ _ _ _ L) as [H1 H2]. simpl in H1, H2.
    rewrite (led_pages _ _ _ _ L). simpl. split; [exact H1|]. split; [exact H2|].
    rewrite (led_files _ _ _ _ L). apply written_none, H2. }
  destruct (Hrun n) as (H1 & H2 & H3).
  split; [exact H1|]. split; [exact H2|]. split; [exact H3|].
  intros c ok H.
  destruct (Scrape_end fuel s c ok eq_refl H) as (k & _ & _ & _ & Es & Et & Ef).
  destruct (Hrun k) as (K1 & K2 & K3).
  pose proof (Inv_run w s k) as I.
  assert (Hfin : finalFile (run w k (start s))
                 = (outputPath,
                    "# Documentation: " +:+ corpusTitle s +:+ nl +:+ nl
                    +:+ String.concat EmptyString
                          (List.map Content (pages (scraper c))))).
  { unfold finalFile.
    destruct (inv_config _ _ I) as (_ & Ho & _ & _ & _ & Hg & _).
    rewrite Hg, Ho, (corpusTitle_config _ _ (inv_config _ _ I)), K1, Es.
    reflexivity. }
  rewrite Hfin in Et, Ef. simpl in Et, Ef.
  split.
  - rewrite Et, writes_app, K2. reflexivity.
  - split.
    + rewrite Es, Et, scraped_app. cbn. rewrite app_nil_r.
      rewrite (inv_pages _ _ I). reflexivity.
    + rewrite Ef, K3. destruct ok; reflexivity.
Qed.

Lemma page_writes s n :
  organization s <> SingleFile ->
  exists ps,
    pages (scraper (run w n (start s))) = pages s ++ ps
    /\ writes (trace (run w n (start s))) = List.map (pageFile s) ps
    /\ mainContent (run w n (start s)) = EmptyString
    /\ Forall (fun p => Filename p = sanitizeFilename (Title p) +:+ ".md") ps.
Proof.
  intros Horg. destruct (Ledger_run w s n) as [ps L]. exists ps.
  split; [apply (led_pages _ _ _ _ L)|].
  pose proof (led_store _ _ _ _ L) as H.
  assert (H' : mainContent (run w n (start s)) = EmptyString
               /\ writes (trace (run w n (start s))) = List.map (pageFile s) ps).
  { destruct (organization s); [contradiction|exact H|exact H]. }
  destruct H' as [H1 H2]. split; [exact H2|]. split; [exact H1|].
  eapply Forall_impl; [apply (led_made _ _ _ _ L)|].
  intros p [t Hp]. apply scrapePage_shape in Hp as (_ & Hp & _). exact Hp.
Qed.

(** X5. In modes chapters and pages the corpus stays empty and the loop calls
    [writeContentToFile] once for every page it records, in the order of
    scraping and whether or not the write succeeds: to the output directory
    joined with the file name of the page, the sanitized title with the
    Markdown extension. *)
Theorem page_files
    (rawURL outputPath : string) (org : Organization) (single : bool) (n : nat) :
  org <> SingleFile ->
  writes (trace (run w n (start (NewScraper rawURL outputPath org single))))
  = List.map (pageFile (NewScraper rawURL outputPath org single))
             (pages (scraper (run w n (start (NewScraper rawURL outputPath org single)))))
  /\ mainContent (run w n (start (NewScraper rawURL outputPath org single)))
     = EmptyString
  /\ Forall (fun p => Filename p = sanitizeFilename (Title p) +:+ ".md")
            (pages (scraper (run w n (start (NewScraper rawURL outputPath org single))))).
Proof.
  intros Horg.
  destruct (page_writes (NewScraper rawURL outputPath org single) n Horg)
    as (ps & H1 & H2 & H3 & H4).
  rewrite H1, H2, H3. simpl. repeat split. exact H4.
Qed.

(** X6. In modes chapters and pages [Scrape] ends with the write of
    [index.md] in the output directory: its heading, then one entry for
    every page recorded, in the order of scraping; the pages recorded are
    the URLs scraped with success, each once, so a page whose own file
    could not be written is listed all the same. *)
Theorem index_lists_pages
    (rawURL outputPath : string) (org : Organization) (fuel : nat)
    (c : Crawl) (ok : bool) :
  org <> SingleFile ->
  Scrape w fuel (NewScraper rawURL outputPath org false) = Some (c, ok) ->
  writes (trace c)
  = List.map (pageFile (NewScraper rawURL outputPath org false)) (pages (scraper c))
    ++ [(Join (outputDir (NewScraper rawURL outputPath org false)) "index.md",
         indexHeader (NewScraper rawURL outputPath org false)
         +:+ String.concat EmptyString (List.map indexLine (pages (scraper c))))]
  /\ List.map URL (pages (scraper c)) = scraped true (trace c)
  /\ NoDup (List.map URL (pages (scraper c))).
Proof.
  intros Horg H. set (s := NewScraper rawURL outputPath org false) in *.
  destruct (Scrape_end fuel s c ok eq_refl H) as (k & _ & _ & _ & Es & Et & _).
  destruct (page_writes s k Horg) as (ps & K1 & K2 & _).
  pose proof (Inv_run w s k) as I.
  assert (Hfin : finalFile (run w k (start s))
                 = (Join (outputDir s) "index.md",
                    indexHeader s
                    +:+ String.concat EmptyString
                          (List.map indexLine (pages (scraper c))))).
  { unfold finalFile.
    destruct (inv_config _ _ I) as (_ & _ & Hd & _ & _ & Hg & _).
    rewrite Hg, Hd, indexContent_lines, Es.
    unfold indexHeader. rewrite (corpusTitle_config _ _ (inv_config _ _ I)).
    destruct (organization s) eqn:E; [|reflexivity..].
    exfalso. apply Horg. exact E. }
  rewrite Hfin in Et. simpl in Et.
  assert (Hurl : List.map URL (pages (scraper c)) = scraped true (trace c)).
  { rewrite Es, Et, scraped_app. cbn. rewrite app_nil_r.
    rewrite (inv_pages _ _ I). reflexivity. }
  split; [|split; [exact Hurl|]].
  - rewrite Et, writes_app, K2, Es, K1. reflexivity.
  - rewrite Hurl, Et, scraped_app. cbn. rewrite app_nil_r.
    apply (inv_nodup _ _ I).
Qed.

(** X7. In crawl mode the error [Scrape] returns is the error of its last
    write and nothing else: a page that could not be fetched, or whose file
    could not be written, is logged and forgotten.  So a crawl whose seed
    does not load still ends with the write of the corpus file, which then
    holds the heading alone, or of the index, and reports no error if that
    write succeeds. *)
Theorem crawl_errors_not_returned (s : Scraper) (fuel : nat) :
  singlePage s = false ->
  (forall c ok,
      Scrape w fuel s = Some (c, ok) ->
      exists n,
        links (run w n (start s)) = []
        /\ trace c = trace (run w n (start s))
                     ++ [EvWrite (finalFile (run w n (start s))).1
                                 (finalFile (run w n (start s))).2 ok]
        /\ ok = (mkdir_all w (clock (run w n (start s)))
                           (Dir (finalFile (run w n (start s))).1)
                 && write_file w (clock (run w n (start s)))
                               (finalFile (run w n (start s))).1
                               (finalFile (run w n (start s))).2))
  /\ (http_get w 0 (baseURL s) = None ->
      exists c ok,
        Scrape w (S fuel) s = Some (c, ok)
        /\ ok = (mkdir_all w 1 (Dir (finalFile (start s)).1)
                 && write_file w 1 (finalFile (start s)).1 (finalFile (start s)).2)
        /\ pages (scraper c) = pages s
        /\ trace c = [EvEnqueue (baseURL s); EvDequeue (baseURL s);
                      EvScrape (baseURL s) false;
                      EvWrite (finalFile (start s)).1 (finalFile (start s)).2 ok]
        /\ (organization s = SingleFile ->
            finalFile (start s)
            = (outputPath s, "# Documentation: " +:+ corpusTitle s +:+ nl +:+ nl))
        /\ (organization s <> SingleFile -> pages s = [] ->
            finalFile (start s)
            = (Join (outputDir s) "index.md", indexHeader s))).
Proof.
  intros Hs. split.
  - intros c ok H.
    destruct (Scrape_end _ _ _ _ Hs H) as (n & _ & Hl & Hok & _ & Et & _).
    exists n. auto.
  - intros Hget.
    assert (Hit : iterate w (start s)
                  = emit [EvScrape (baseURL s) false]
                         (note [EvDequeue (baseURL s)] (with_links [] (start s)))).
    { apply failed_turn; [reflexivity|reflexivity|].
      simpl. rewrite Hget. reflexivity. }
    rewrite (Scrape_crawl _ _ Hs). simpl crawl. rewrite Hit.
    set (c1 := emit _ _).
    assert (Hc : crawl w fuel c1 = Some c1) by (destruct fuel; reflexivity).
    rewrite Hc. cbn [option_map].
    change (finalFile c1) with (finalFile (start s)).
    destruct (write_result w (finalFile (start s)).1 (finalFile (start s)).2 c1)
      as (ok & E0 & E1 & E2 & _ & _ & _ & _ & E3 & _).
    destruct (writeContentToFile w (finalFile (start s)).1
                                 (finalFile (start s)).2 c1) as [c ok'].
    simpl in E1, E2, E3. rewrite E1.
    exists c, ok. split; [reflexivity|]. split; [exact E0|].
    split; [rewrite E2; reflexivity|]. split; [rewrite E3; reflexivity|].
    unfold finalFile. cbn [start scraper mainContent]. split.
    + intros ->. rewrite str_app_empty_r. reflexivity.
    + intros Horg Hp. rewrite indexContent_lines, Hp. cbn [List.map String.concat].
      destruct (organization s); [contradiction|..];
        rewrite str_app_empty_r; reflexivity.
Qed.

End Output.

(** ** The disk *)

Section Disk.
Context {env : GoEnv}.
Variable w : World.
Import GoStrings GoPath.

(** Induction over the states of a run. *)
Lemma run_invariant (P : Crawl -> Prop) s :
  P (start s) ->
  (forall c c', same_config s (scraper c) -> P c -> step w c c' -> P c') ->
  forall n, P (run w n (start s)).
Proof.
  intros H0 Hstep. induction n as [|n IH]; [exact H0|].
  rewrite run_S. eapply Hstep; [|exact IH|apply iterate_step].
  apply (inv_config _ _ (Inv_run w s n)).
Qed.

(** X8. When the disk never fails, in modes chapters and pages, the file at a
    path holds at every moment the content of the last page recorded whose
    file has that path: of two pages with the same file name the later one
    replaces the earlier one, and a path no page maps to holds no file. *)
Theorem page_file_last_wins
    (rawURL outputPath : string) (org : Organization) (single : bool)
    (n : nat) (path : string) :
  org <> SingleFile ->
  (forall t dir, mkdir_all w t dir = true) ->
  (forall t p content, write_file w t p content = true) ->
  files (run w n (start (NewScraper rawURL outputPath org single))) !! path
  = option_map Content
      (last (List.filter
               (fun p => String.eqb
                           (pageFile (NewScraper rawURL outputPath org single) p).1
                           path)
               (pages (scraper (run w n
                                  (start (NewScraper rawURL outputPath org single))))))).
Proof.
  intros Horg Hmk Hwr. set (s := NewScraper rawURL outputPath org single).
  revert n.
  apply (run_invariant
           (fun c => files c !! path
                     = option_map Content
                         (last (List.filter
                                  (fun p => String.eqb (pageFile s p).1 path)
                                  (pages (scraper c))))) s); [reflexivity|].
  intros c c' Hcfg IH
    [Hl ->|u rest Hl Hp ->|u rest Hl Hp Hs ->
     |u rest page wr lk fresh Hl Hp Hs _ _ Hpg _ _ _ Hk _]; try exact IH.
  assert (Ho : organization (scraper c) = org)
    by (destruct Hcfg as (_ & _ & _ & _ & _ & H & _); exact H).
  assert (Hd : outputDir (scraper c) = outputDir s)
    by (destruct Hcfg as (_ & _ & H & _); exact H).
  assert (Hf : files c' = <[(pageFile s page).1 := Content page]> (files c)).
  { unfold kept in Hk. rewrite Ho, Hd, !Hmk, !Hwr in Hk.
    destruct org; [contradiction|..]; destruct Hk as (ok & -> & _ & _ & Hf);
      exact Hf. }
  rewrite Hf, Hpg, List.filter_app, last_app. cbn [List.filter].
  destruct (String.eqb_spec (pageFile s page).1 path) as [E|E].
  - rewrite E, lookup_insert_eq. reflexivity.
  - rewrite lookup_insert_ne by exact E. exact IH.
Qed.

End Disk.

(** X8 at work: the three pages of the sample site share the title [Guide];
    after the crawl the file [guide.md] holds the page scraped last. *)
Lemma page_file_last_wins_witness :
  files (run (env := Sample.go) Sample.healthy 7
             (start (Sample.scraper ByPages false))) !! "out/doc/guide.md"%string
  = Some (nl +:+ "## Source: " +:+ Sample.page_b +:+ nl +:+ nl
          +:+ "# Guide" +:+ nl +:+ nl +:+ "text" +:+ nl +:+ nl
          +:+ "---" +:+ nl +:+ nl).
Proof.
  etransitivity;
    [apply (page_file_last_wins (env := Sample.go) Sample.healthy
              Sample.seed "out/doc.md" ByPages false 7 "out/doc/guide.md");
     [discriminate|reflexivity|reflexivity]|].
  vm_compute. reflexivity.
Defined.

(** X5 at work: on the sample site the loop writes three times, each time to
    [out/doc/guide.md]. *)
Lemma page_files_witness :
  List.map fst
    (writes (trace (run (env := Sample.go) Sample.healthy 7
                        (start (Sample.scraper ByPages false)))))
  = ["out/doc/guide.md"; "out/doc/guide.md"; "out/doc/guide.md"]%string.
Proof.
  destruct (page_files (env := Sample.go) Sample.healthy
              Sample.seed "out/doc.md" ByPages false 7) as (H & _);
    [discriminate|].
  change (NewScraper (env := Sample.go) Sample.seed "out/doc.md" ByPages false)
    with (Sample.scraper ByPages false) in H.
  rewrite H. vm_compute. reflexivity.
Defined.

(** X6 at work on the sample site in mode pages. *)
Lemma index_lists_pages_witness :
  exists c ok,
    Scrape (env := Sample.go) Sample.healthy 7 (Sample.scraper ByPages false)
    = Some (c, ok)
    /\ List.map URL (pages (scraper c)) = scraped true (trace c)
    /\ NoDup (List.map URL (pages (scraper c))).
Proof.
  destruct (Scrape (env := Sample.go) Sample.healthy 7
                   (Sample.scraper ByPages false)) as [[c ok]|] eqn:E;
    [|vm_compute in E; discriminate E].
  exists c, ok. split; [reflexivity|].
  destruct (index_lists_pages (env := Sample.go) Sample.healthy
              Sample.seed "out/doc.md" ByPages 7 c ok) as (_ & H2 & H3);
    [discriminate|exact E|].
  split; assumption.
Defined.

(** X7 at work: with the network down, [Scrape] in mode single writes the
    heading alone and reports success. *)
Lemma crawl_errors_not_returned_witness :
  exists c,
    Scrape (env := Sample.go) Sample.offline 1 (Sample.scraper SingleFile false)
    = Some (c, true)
    /\ writes (trace c) = [("out/doc.md", "# Documentation: example.com/docs" +:+ nl +:+ nl)].
Proof.
  destruct (crawl_errors_not_returned (env := Sample.go) Sample.offline
              (Sample.scraper SingleFile false) 0 eq_refl) as (_ & H).
  destruct (H eq_refl) as (c & ok & H1 & H2 & _ & H4 & H5 & _).
  simpl in H2. subst ok. exists c. split; [exact H1|].
  rewrite H4, (H5 eq_refl). vm_compute. reflexivity.
Defined.

(** X4 at work: on the sample site [Scrape] in mode single writes once, to
    the output path. *)
Lemma single_file_corpus_witness :
  exists c ok,
    Scrape (env := Sample.go) Sample.healthy 7 (Sample.scraper SingleFile false)
    = Some (c, ok)
    /\ List.map fst (writes (trace c)) = ["out/doc.md"]%string
    /\ List.map URL (pages (scraper c)) = scraped true (trace c).
Proof.
  destruct (Scrape (env := Sample.go) Sample.healthy 7
                   (Sample.scraper SingleFile false)) as [[c ok]|] eqn:E;
    [|vm_compute in E; discriminate E].
  exists c, ok. split; [reflexivity|].
  destruct (single_file_corpus (env := Sample.go) Sample.healthy
              Sample.seed "out/doc.md" 0 7) as (_ & _ & _ & H).
  destruct (H c ok E) as (H1 & H2 & _).
  split; [rewrite H1; reflexivity|exact H2].
Defined.

(** ** Termination *)

Section Termination.
Context {env : GoEnv}.
Variable w : World.

Lemma mget_insert (m : gmap string bool) u v :
  mget (<[u := true]> m) v = if String.eqb v u then true else mget m v.
Proof.
  unfold mget. destruct (String.eqb_spec v u) as [->|Hne].
  - rewrite lookup_insert_eq. reflexivity.
  - rewrite lookup_insert_ne by congruence. reflexivity.
Qed.

Lemma pending_insert_le m u urls :
  pending (<[u := true]> m) urls <= pending m urls.
Proof.
  unfold pending. induction urls as [|v urls IH]; [reflexivity|].
  simpl. rewrite mget_insert.
  destruct (String.eqb v u); simpl; destruct (mget m v); simpl; lia.
Qed.

Lemma pending_insert_lt m u urls :
  In u urls -> mget m u = false ->
  pending (<[u := true]> m) urls + 1 <= pending m urls.
Proof.
  intros Hin Hm. induction urls as [|v urls IH]; [contradiction|].
  unfold pending in *. simpl. rewrite mget_insert.
  destruct (String.eqb_spec v u) as [->|Hne].
  - rewrite Hm. simpl.
    pose proof (pending_insert_le m u urls) as H. unfold pending in H. lia.
  - destruct Hin as [->|Hin]; [contradiction|].
    specialize (IH Hin). destruct (mget m v); simpl; lia.
Qed.

Lemma crawl_more fuel fuel' c c' :
  crawl w fuel c = Some c' -> fuel <= fuel' -> crawl w fuel' c = Some c'.
Proof.
  revert fuel' c. induction fuel as [|k IH]; intros fuel' c; simpl.
  - destruct (links c) eqn:E; [|discriminate].
    intros H _. destruct fuel'; simpl; rewrite E; exact H.
  - destruct (links c) eqn:E.
    + intros H _. destruct fuel'; simpl; rewrite E; exact H.
    + intros H Hle. destruct fuel' as [|k']; [lia|].
      simpl. rewrite E. apply IH; [exact H|lia].
Qed.

Lemma crawl_run_le fuel c c' :
  crawl w fuel c = Some c' ->
  exists n, n <= fuel /\ c' = run w n c /\ links c' = [].
Proof.
  revert c. induction fuel as [|k IH]; intros c; simpl.
  - destruct (links c) eqn:E; [|discriminate].
    intros H. inversion H. subst. exists 0. auto.
  - destruct (links c) eqn:E.
    + intros H. inversion H. subst. exists 0. split; [lia|]. auto.
    + intros H. destruct (IH _ H) as (n & Hn & -> & Hl).
      exists (S n). split; [lia|]. split; [|assumption].
      unfold run. rewrite Nat.iter_succ_r. reflexivity.
Qed.

Lemma budget_step s urls k c c' :
  finite_site w s urls k ->
  same_config s (scraper c) ->
  Forall (fun l => In l (baseURL s :: urls)) (links c) ->
  links c <> [] ->
  step w c c' ->
  Forall (fun l => In l (baseURL s :: urls)) (links c')
  /\ budget s urls k c' + 1 <= budget s urls k c.
Proof.
  intros Hsite Hcfg Hall Hne
    [Hl ->|u rest Hl Hp ->|u rest Hl Hp Hs ->
     |u rest page wr lk fresh Hl Hp Hs Hl' Hp' _ _ _ _ _ Hf];
    [contradiction|..]; rewrite Hl in Hall; inversion Hall as [|? ? Hu Hrest];
    subst; unfold budget.
  - simpl. rewrite Hl. simpl. split; [exact Hrest|lia].
  - simpl. rewrite Hl. simpl. split; [exact Hrest|lia].
  - rewrite Hl', Hp', Hl. unfold followed in Hf.
    rewrite (getAllDocLinks_config _ _ _ Hcfg) in Hf.
    pose proof (pending_insert_lt (processed c) u _ Hu Hp) as Hpend.
    assert (Hfresh : List.length fresh <= k
                     /\ Forall (fun l => In l (baseURL s :: urls)) fresh).
    { destruct (getAllDocLinks s (http_get w (linkTime c) u)) as [found|] eqn:Hg.
      - destruct Hf as (_ & ->). destruct (Hsite _ _ _ Hg) as [H1 H2]. split.
        + etransitivity; [apply filter_length_le|exact H1].
        + apply Forall_forall. intros l Hin.
          apply list_elem_of_In, filter_In in Hin as [Hin _].
          apply list_elem_of_In in Hin.
          exact (proj1 (Forall_forall _ _) H2 l Hin).
      - destruct Hf as (_ & ->). split; [simpl; lia|constructor]. }
    destruct Hfresh as [F1 F2]. split.
    + apply Forall_app. split; assumption.
    + rewrite length_app. simpl List.length.
      set (p' := pending (<[u := true]> (processed c)) _) in *.
      set (p := pending (processed c) _) in *.
      assert (k * p' + k <= k * p) by nia. lia.
Qed.

Lemma crawl_enough s urls k fuel c :
  finite_site w s urls k ->
  same_config s (scraper c) ->
  Forall (fun l => In l (baseURL s :: urls)) (links c) ->
  budget s urls k c <= fuel ->
  exists c', crawl w fuel c = Some c'.
Proof.
  intros Hsite. revert c. induction fuel as [|f IH]; intros c Hcfg Hall Hb.
  - unfold budget in Hb. destruct (links c) eqn:E; [|simpl in Hb; lia].
    exists c. simpl. rewrite E. reflexivity.
  - simpl. destruct (links c) eqn:E; [eauto|].
    assert (Hne : links c <> []) by congruence.
    rewrite <- E in Hall.
    pose proof (iterate_step w c) as Hstep.
    destruct (budget_step s urls k c _ Hsite Hcfg Hall Hne Hstep) as [H1 H2].
    apply IH; [|exact H1|lia].
    destruct Hstep as [? ->|? ? ? ? ->|? ? ? ? ? ->|? ? ? ? ? ? ? ? ? ? ? ? Hc];
      try exact Hcfg.
    eapply same_config_trans; eassumption.
Qed.

Lemma kept_silent c c' page wr :
  kept w c c' page wr ->
  enqueued wr = [] /\ dequeued wr = [] /\ attempts wr = []
  /\ forall ok, scraped ok wr = [].
Proof.
  unfold kept. destruct (organization (scraper c)).
  - intros (-> & _). repeat split.
  - intros (ok & _ & -> & _). repeat split.
  - intros (ok & _ & -> & _). repeat split.
Qed.

Lemma enqueued_in_site s urls k n :
  finite_site w s urls k ->
  Forall (fun l => In l (baseURL s :: urls)) (enqueued (trace (run w n (start s)))).
Proof.
  intros Hsite. revert n.
  apply (run_invariant w
           (fun c => Forall (fun l => In l (baseURL s :: urls)) (enqueued (trace c)))
           s).
  { cbn. constructor; [left; reflexivity|constructor]. }
  intros c c' Hcfg IH
    [Hl ->|u rest Hl Hp ->|u rest Hl Hp Hs ->
     |u rest page wr lk fresh Hl Hp Hs _ _ _ _ Htr _ Hk Hf].
  - exact IH.
  - simpl. rewrite enqueued_app. cbn. rewrite app_nil_r. exact IH.
  - simpl. rewrite <- app_assoc, enqueued_app. cbn. rewrite app_nil_r. exact IH.
  - destruct (kept_silent _ _ _ _ Hk) as (W1 & _).
    destruct (enqueues_only fresh) as (F1 & _).
    rewrite Htr, !enqueued_app, W1, F1. cbn.
    apply Forall_app. split; [exact IH|].
    unfold followed in Hf. rewrite (getAllDocLinks_config _ _ _ Hcfg) in Hf.
    destruct (getAllDocLinks s (http_get w (linkTime c) u)) as [found|] eqn:Hg.
    + destruct Hf as (_ & ->). destruct (Hsite _ _ _ Hg) as [_ H2].
      apply Forall_forall. intros l Hin.
      apply list_elem_of_In, filter_In in Hin as [Hin _].
      apply list_elem_of_In in Hin.
      exact (proj1 (Forall_forall _ _) H2 l Hin).
    + destruct Hf as (_ & ->). constructor.
Qed.

(** X9. On a site that is finite (every page gives at most [k] links in scope,
    all among the seed and a list [urls]) the crawl comes to an end:
    [Scrape] returns, the loop takes at most [1 + k * (1 + length urls)]
    turns, and it records at most one page for the seed and one for every
    URL of the list. *)
Theorem crawl_terminates
    (s : Scraper) (urls : list string) (k fuel : nat) :
  finite_site w s urls k ->
  1 + k * (1 + List.length urls) <= fuel ->
  (exists c ok, Scrape w fuel s = Some (c, ok))
  /\ (exists n,
         n <= 1 + k * (1 + List.length urls)
         /\ crawl w fuel (start s) = Some (run w n (start s))
         /\ links (run w n (start s)) = [])
  /\ forall n,
       List.length (scraped true (trace (run w n (start s))))
       <= 1 + List.length urls.
Proof.
  intros Hsite Hfuel.
  assert (Hb : budget s urls k (start s) <= 1 + k * (1 + List.length urls)).
  { unfold budget, pending. simpl.
    pose proof (filter_length_le (fun u => negb (mget (∅ : gmap string bool) u)) urls).
    unfold mget at 1. rewrite lookup_empty. simpl. nia. }
  destruct (crawl_enough s urls k _ (start s) Hsite (same_config_refl s)
              ltac:(constructor; [left; reflexivity|constructor]) Hb)
    as [c0 Hc0].
  destruct (crawl_run_le _ _ _ Hc0) as (n & Hn & -> & Hl).
  pose proof (crawl_more _ _ _ _ Hc0 Hfuel) as Hc.
  split; [|split].
  - destruct (singlePage s) eqn:Es.
    + exists (scrapeSingle w s).1, (scrapeSingle w s).2.
      unfold Scrape. rewrite Es. destruct (scrapeSingle w s); reflexivity.
    + rewrite (Scrape_crawl w _ _ Es), Hc. cbn [option_map].
      destruct (writeContentToFile w _ _ _) as [c ok]. eauto.
  - exists n. auto.
  - intros m. pose proof (Inv_run w s m) as I.
    pose proof (enqueued_in_site s urls k m Hsite) as He.
    change (1 + List.length urls) with (List.length (baseURL s :: urls)).
    apply NoDup_incl_length; [apply NoDup_ListNoDup, (inv_nodup _ _ I)|].
    intros u Hu. apply list_elem_of_In in Hu.
    assert (Hd : u ∈ dequeued (trace (run w m (start s))))
      by (apply (inv_dequeued _ _ I); left; exact Hu).
    rewrite (inv_queue _ _ I) in He. apply Forall_app in He as [He _].
    exact (proj1 (Forall_forall _ _) He u Hd).
Qed.

End Termination.

(** The sample site is finite: four links a page at most, among the seed
    and its two pages. *)
Lemma healthy_finite :
  finite_site (env := Sample.go) Sample.healthy (Sample.scraper SingleFile false)
              [Sample.page_a; Sample.page_b] 4.
Proof.
  intros t u found. unfold Sample.healthy, Sample.disk_ok. cbn [http_get].
  destruct (String.eqb u Sample.seed).
  { intros H. vm_compute in H. inversion H. subst found.
    split; [simpl; lia|].
    repeat (constructor; [vm_compute; auto 10|]). constructor. }
  destruct (String.eqb u Sample.page_a).
  { intros H. vm_compute in H. inversion H. subst found.
    split; [simpl; lia|].
    repeat (constructor; [vm_compute; auto 10|]). constructor. }
  destruct (String.eqb u Sample.page_b).
  { intros H. vm_compute in H. inversion H. subst found.
    split; [simpl; lia|].
    repeat (constructor; [vm_compute; auto 10|]). constructor. }
  intros H. discriminate H.
Qed.

(** X9 at work: 13 turns are enough for the sample site. *)
Lemma crawl_terminates_witness :
  exists c ok,
    Scrape (env := Sample.go) Sample.healthy 13 (Sample.scraper SingleFile false)
    = Some (c, ok).
Proof.
  destruct (crawl_terminates (env := Sample.go) Sample.healthy
              (Sample.scraper SingleFile false)
              [Sample.page_a; Sample.page_b] 4 13 healthy_finite
              ltac:(simpl; lia)) as [H _].
  exact H.
Defined.

(** ** Seeds and modes *)

Section Seeds.
Context {env : GoEnv}.
Variable w : World.
Import GoStrings GoPath.

(** X10. A seed that [url.Parse] refuses is kept as it is, as base URL and as
    domain prefix; no URL is then in scope, no link is ever enqueued, and
    the crawl is over after the one turn that requests the seed. *)
Theorem unparsable_seed
    (rawURL outputPath : string) (org : Organization) (single : bool) (n : nat) :
  url_Parse rawURL = None ->
  baseURL (NewScraper rawURL outputPath org single) = rawURL
  /\ domainPrefix (NewScraper rawURL outputPath org single) = rawURL
  /\ (forall u, shouldProcessURL (NewScraper rawURL outputPath org single) u = false)
  /\ (forall resp found,
         getAllDocLinks (NewScraper rawURL outputPath org single) resp = Some found ->
         found = [])
  /\ enqueued (trace (run w n (start (NewScraper rawURL outputPath org single))))
     = [rawURL]
  /\ crawl w 1 (start (NewScraper rawURL outputPath org single))
     = Some (iterate w (start (NewScraper rawURL outputPath org single)))
  /\ attempts (trace (iterate w (start (NewScraper rawURL outputPath org single))))
     = [rawURL].
Proof.
  intros Hparse. set (s := NewScraper rawURL outputPath org single).
  assert (Hb : baseURL s = rawURL).
  { simpl. unfold sanitizeURL. rewrite Hparse. reflexivity. }
  assert (Hd : domainPrefix s = rawURL).
  { simpl. unfold extractDomainPrefix. rewrite Hparse. reflexivity. }
  assert (Hscope : forall u, shouldProcessURL s u = false).
  { intros u. unfold shouldProcessURL. rewrite Hb, Hparse. reflexivity. }
  assert (Hlinks : forall resp found, getAllDocLinks s resp = Some found -> found = []).
  { intros resp found H. apply getAllDocLinks_sound in H.
    destruct found as [|l found]; [reflexivity|].
    inversion H as [|? ? [_ Hl] _]. rewrite Hscope in Hl. discriminate. }
  assert (Hfresh : forall c c',
             same_config s (scraper c) -> step w c c' ->
             enqueued (trace c') = enqueued (trace c)
             /\ (forall u, links c = [u] -> links c' = [])).
  { intros c c' Hcfg
      [Hl ->|u rest Hl Hp ->|u rest Hl Hp Hs ->
       |u rest page wr lk fresh Hl Hp Hs Hl' _ _ _ Htr _ Hk Hf].
    - split; [reflexivity|]. intros u. rewrite Hl. discriminate.
    - simpl. rewrite enqueued_app. cbn. rewrite app_nil_r.
      split; [reflexivity|]. intros v. rewrite Hl. intros E. inversion E. reflexivity.
    - simpl. rewrite <- app_assoc, enqueued_app. cbn. rewrite app_nil_r.
      split; [reflexivity|]. intros v. rewrite Hl. intros E. inversion E. reflexivity.
    - assert (Hf' : fresh = []).
      { unfold followed in Hf. rewrite (getAllDocLinks_config _ _ _ Hcfg) in Hf.
        destruct (getAllDocLinks s (http_get w (linkTime c) u)) as [found|] eqn:Hg.
        - destruct Hf as (_ & ->). rewrite (Hlinks _ _ Hg). reflexivity.
        - destruct Hf as (_ & ->). reflexivity. }
      assert (Hwr : enqueued wr = []).
      { unfold kept in Hk. destruct (organization (scraper c)).
        - destruct Hk as (-> & _). reflexivity.
        - destruct Hk as (ok & _ & -> & _). reflexivity.
        - destruct Hk as (ok & _ & -> & _). reflexivity. }
      subst fresh. rewrite Htr, !enqueued_app, Hwr, Hl'. cbn. rewrite !app_nil_r.
      split; [reflexivity|]. intros v. rewrite Hl. intros E. inversion E. reflexivity. }
  split; [exact Hb|]. split; [exact Hd|]. split; [exact Hscope|].
  split; [exact Hlinks|]. split; [|split].
  - revert n. apply (run_invariant w (fun c => enqueued (trace c) = [rawURL]) s).
    + change (enqueued (trace (start s))) with [baseURL s].
      rewrite Hb. reflexivity.
    + intros c c' Hcfg IH Hstep.
      destruct (Hfresh c c' Hcfg Hstep) as [-> _]. exact IH.
  - destruct (Hfresh (start s) (iterate w (start s)) (same_config_refl s)
                (iterate_step w (start s))) as [_ H].
    specialize (H (baseURL s) eq_refl).
    simpl crawl. rewrite H. reflexivity.
  - unfold iterate. cbn [start links processed scraper clock note with_links].
    unfold mget at 1. rewrite lookup_empty. cbn [default].
    rewrite Hb.
    destruct (scrapePage s rawURL (http_get w 0 rawURL)) as [page|];
      [|reflexivity].
    set (c1 := emit _ _).
    set (c2 := match organization (scraper c1) with
               | SingleFile => _ | _ => _ end).
    assert (H2 : attempts (trace c2) = [rawURL]).
    { subst c2. destruct (organization (scraper c1)); [reflexivity|..];
        destruct (write_result w (Join (outputDir (scraper c1)) (Filename page))
                               (Content page) c1)
          as (ok & _ & _ & _ & _ & _ & _ & _ & E & _);
        rewrite E, attempts_app; reflexivity. }
    clearbody c2.
    destruct (getAllDocLinks _ _) as [newLinks|]; simpl;
      rewrite ?attempts_app, H2; cbn; rewrite ?app_nil_r;
      [|reflexivity].
    destruct (enqueues_only (List.filter
                               (fun link => negb (mget (<[rawURL := true]> (processed c2)) link))
                               newLinks)) as (_ & _ & -> & _).
    reflexivity.
Qed.

End Seeds.

(** X10 at work: with a space in the host of the seed, nothing but the seed
    is ever enqueued. *)
Lemma unparsable_seed_witness :
  enqueued (trace (run (env := Sample.go) Sample.healthy 5
                       (start Sample.scraper_bad_base)))
  = ["https://exa mple.com/docs"]%string.
Proof.
  destruct (unparsable_seed (env := Sample.go) Sample.healthy
              "https://exa mple.com/docs" "out/doc.md" SingleFile false 5)
    as (_ & _ & _ & _ & H & _); [vm_compute; reflexivity|].
  exact H.
Defined.

Section Modes.
Context {env : GoEnv}.
Variable w : World.
Import GoStrings GoPath.

Lemma scrapePage_base s s' u resp :
  baseURL s' = baseURL s -> scrapePage s' u resp = scrapePage s u resp.
Proof. intros H. unfold scrapePage, pageLevel. rewrite H. reflexivity. Qed.

Lemma getAllDocLinks_base s s' resp :
  baseURL s' = baseURL s -> domainPrefix s' = domainPrefix s ->
  visitedURLs s' = visitedURLs s ->
  getAllDocLinks s' resp = getAllDocLinks s resp.
Proof.
  intros Hb Hd Hv.
  assert (Hr : forall h, resolveURL s' h = resolveURL s h)
    by (intros h; unfold resolveURL; rewrite Hb, Hd; reflexivity).
  assert (Hp : forall u, shouldProcessURL s' u = shouldProcessURL s u)
    by (intros u; unfold shouldProcessURL; rewrite Hb, Hv; reflexivity).
  unfold getAllDocLinks. destruct resp as [doc|]; [|reflexivity].
  f_equal. induction (doc_hrefs doc) as [|h l IH]; [reflexivity|].
  simpl. rewrite Hr, Hp, IH. reflexivity.
Qed.

Ltac state_cbn :=
  cbn [scraper links processed mainContent clock files trace
       baseURL outputPath outputDir visitedURLs domainPrefix organization
       pages singlePage
       note emit with_links with_processed with_mainContent with_files
       add_page as_pages fst snd].

Lemma iterate_as_pages c :
  organization (scraper c) = ByChapters ->
  iterate w (as_pages c) = as_pages (iterate w c).
Proof.
  intros H. destruct c as [s l p m t f tr]. destruct s as [b o d v dp org ps sp].
  simpl in H. subst org. unfold iterate. state_cbn.
  destruct l as [|u rest]; [reflexivity|]. state_cbn.
  destruct (mget p u); [reflexivity|].
  rewrite (scrapePage_base
             {| baseURL := b; outputPath := o; outputDir := d; visitedURLs := v;
                domainPrefix := dp; organization := ByChapters; pages := ps;
                singlePage := sp |}
             {| baseURL := b; outputPath := o; outputDir := d; visitedURLs := v;
                domainPrefix := dp; organization := ByPages; pages := ps;
                singlePage := sp |} u _ eq_refl).
  destruct (scrapePage _ u (http_get w t u)) as [page|]; [|reflexivity].
  unfold writeContentToFile. state_cbn.
  destruct (mkdir_all w (S t) _ && write_file w (S t) _ _); state_cbn.
  all:
    match goal with
    | |- context [getAllDocLinks ?s1 ?r] =>
      match goal with
      | |- context [getAllDocLinks ?s2 r] =>
        lazymatch s1 with
        | s2 => fail
        | _ => rewrite (getAllDocLinks_base s2 s1 r eq_refl eq_refl eq_refl)
        end
      end
    end;
    destruct (getAllDocLinks _ _); reflexivity.
Qed.

Lemma run_as_pages n c :
  organization (scraper c) = ByChapters ->
  run w n (as_pages c) = as_pages (run w n c)
  /\ organization (scraper (run w n c)) = ByChapters.
Proof.
  intros H. induction n as [|n [IH1 IH2]]; [split; [reflexivity|exact H]|].
  rewrite !run_S, IH1. split; [apply iterate_as_pages, IH2|].
  destruct (iterate_step w (run w n c))
    as [? ->|? ? ? ? ->|? ? ? ? ? ->|? ? ? ? ? ? ? ? ? ? ? ? Hc]; try exact IH2.
  destruct Hc as (_ & _ & _ & _ & _ & Ho & _). rewrite Ho. exact IH2.
Qed.

(** X11. Modes chapters and pages are one and the same: started on the same
    seed in the same world, the two crawls go through the same states at
    every turn but for the mode itself (the same queue, pages, requests and
    writes), and [Scrape] ends with the same files and the same error. *)
Theorem chapters_as_pages
    (rawURL outputPath : string) (single : bool) (n fuel : nat) :
  run w n (start (NewScraper rawURL outputPath ByPages single))
  = as_pages (run w n (start (NewScraper rawURL outputPath ByChapters single)))
  /\ option_map (fun r => (trace r.1, files r.1, pages (scraper r.1), r.2))
                (Scrape w fuel (NewScraper rawURL outputPath ByPages single))
     = option_map (fun r => (trace r.1, files r.1, pages (scraper r.1), r.2))
                  (Scrape w fuel (NewScraper rawURL outputPath ByChapters single)).
Proof.
  set (sc := NewScraper rawURL outputPath ByChapters single).
  assert (Hrun : forall k, run w k (start (NewScraper rawURL outputPath ByPages single))
                           = as_pages (run w k (start sc))).
  { intros k. destruct (run_as_pages k (start sc) eq_refl) as [<- _]. reflexivity. }
  split; [apply Hrun|].
  unfold Scrape. change (singlePage (NewScraper rawURL outputPath ByPages single))
    with single. change (singlePage sc) with single.
  destruct single.
  - subst sc. unfold scrapeSingle, NewScraper. state_cbn.
    match goal with
    | |- context [scrapePage ?s1 ?a ?b] =>
      match goal with
      | |- context [scrapePage ?s2 a b] =>
        lazymatch s1 with
        | s2 => fail
        | _ => rewrite (scrapePage_base s2 s1 a b eq_refl)
        end
      end
    end.
    destruct (scrapePage _ _ _) as [page|]; [|reflexivity].
    state_cbn. unfold writeContentToFile. state_cbn.
    destruct (mkdir_all w 1 _ && write_file w 1 _ _); reflexivity.
  - assert (Hcrawl : forall f c,
               organization (scraper c) = ByChapters ->
               crawl w f (as_pages c) = option_map as_pages (crawl w f c)).
    { induction f as [|f IH]; intros c Hc; simpl; state_cbn.
      - destruct (links c); reflexivity.
      - destruct (links c) eqn:E; [reflexivity|].
        rewrite iterate_as_pages by exact Hc. apply IH.
        destruct (run_as_pages 1 c Hc) as [_ H]. exact H. }
    change (start (NewScraper rawURL outputPath ByPages false))
      with (as_pages (start sc)).
    rewrite Hcrawl by reflexivity.
    destruct (crawl w fuel (start sc)) as [c|] eqn:E; [|reflexivity].
    cbn [option_map]. state_cbn.
    destruct (crawl_run w _ _ _ E) as (k & -> & _).
    destruct (run_as_pages k (start sc) eq_refl) as [_ Ho]. rewrite Ho.
    unfold createIndex, writeContentToFile. state_cbn.
    change (indexContent (scraper (as_pages (run w k (start sc)))))
      with (indexContent (scraper (run w k (start sc)))).
    destruct (mkdir_all w _ _ && write_file w _ _ _); reflexivity.
Qed.

End Modes.

(** ** Rendering and names *)

Section Rendering.
Context {env : GoEnv}.
Import GoStrings GoPath.

Lemma str_app_nonempty a b : b <> EmptyString -> a +:+ b <> EmptyString.
Proof. intros Hb H. destruct a; [exact (Hb H)|discriminate]. Qed.



End Rendering.


Section Names.
Context {env : GoEnv}.
Import GoStrings GoPath.

(** X15. On a name of ASCII bytes [sanitizeFilename] works byte by byte: the
    result is the first 100 bytes of the name, each capital letter
    lower-cased and each reserved byte replaced by an underscore, so it is
    as long as the name up to 100; the empty name gives [unnamed]. *)
Theorem sanitizeFilename_bytewise (name : string) :
  all_bytes is_ascii name = true ->
  name <> EmptyString ->
  sanitizeFilename name
  = slice_to 100 (map_bytes (fun c => scrub (lower_byte c)) name)
  /\ String.length (sanitizeFilename name) = Nat.min 100 (String.length name)
  /\ sanitizeFilename EmptyString = "unnamed".
Proof.
  intros Ha Hne.
  assert (H : sanitizeFilename name
              = slice_to 100 (map_bytes (fun c => scrub (lower_byte c)) name)).
  { rewrite sanitizeFilename_eq. unfold scrubbed.
    rewrite ToLower_ascii by exact Ha. rewrite map_bytes_map.
    destruct (Nat.eqb_spec
                (String.length (map_bytes (fun c => scrub (lower_byte c)) name)) 0)
      as [E|E].
    { rewrite length_map_bytes in E. destruct name; [contradiction|discriminate]. }
    destruct (Nat.ltb_spec 100
                (String.length (map_bytes (fun c => scrub (lower_byte c)) name)));
      [reflexivity|].
    symmetry. apply slice_to_all. assumption. }
  split; [exact H|]. split.
  - rewrite H, length_slice_to, length_map_bytes. reflexivity.
  - unfold sanitizeFilename.
    assert (Ht : ToLower unicode_ToLower EmptyString = EmptyString) by reflexivity.
    rewrite Ht. reflexivity.
Qed.

End Names.

(** X15 at work on a title with capitals and reserved bytes. *)
Lemma sanitizeFilename_bytewise_witness :
  sanitizeFilename (env := Sample.go) "Getting Started: v1.2"
  = "getting_started__v1_2".
Proof.
  destruct (sanitizeFilename_bytewise (env := Sample.go) "Getting Started: v1.2")
    as (H & _); [reflexivity|discriminate|].
  etransitivity; [exact H|]. vm_compute. reflexivity.
Defined.

(** ** Paths *)

Section PathFacts.
Import GoStrings GoPath.

Lemma slice_to_app (a b : string) : slice_to (String.length a) (a +:+ b) = a.
Proof. unfold slice_to. induction a as [|c a IH]; simpl; [destruct b; reflexivity|]. rewrite IH. reflexivity. Qed.

Lemma TrimSuffix_app (a suf : string) : TrimSuffix (a +:+ suf) suf = a.
Proof.
  unfold TrimSuffix, HasSuffix. rewrite str_length_app.
  replace (String.length a + String.length suf - String.length suf)
    with (String.length a) by lia.
  rewrite slice_from_app, String.eqb_refl, slice_to_app.
  destruct (Nat.leb_spec (String.length suf) (String.length a + String.length suf));
    [reflexivity|lia].
Qed.

(** ** The pieces of [Split] at a byte *)

Lemma split_from_nonempty sep piece s : split_from sep 0 piece s <> [].
Proof.
  revert piece. induction s as [|c s IH]; intros piece; [discriminate|].
  rewrite split_from_cons. destruct (String.prefix sep (String c s)); [discriminate|apply IH].
Qed.

Lemma last_cons_nonempty {A} (x : A) l d : l <> [] -> List.last (x :: l) d = List.last l d.
Proof. destruct l; [contradiction|reflexivity]. Qed.

Lemma split_from_last c piece s :
  exists a, piece +:+ s
            = a +:+ List.last (split_from (String c EmptyString) 0 piece s) EmptyString.
Proof.
  revert piece. induction s as [|d s IH]; intros piece.
  - exists EmptyString. simpl. apply str_app_empty_r.
  - rewrite split_from_cons, str_prefix_byte.
    destruct (Ascii.eqb_spec d c) as [->|Hne].
    + simpl Nat.sub. rewrite last_cons_nonempty by apply split_from_nonempty.
      destruct (IH EmptyString) as [a Ha]. exists (piece +:+ String c a).
      rewrite str_app_assoc. simpl. rewrite <- Ha. reflexivity.
    + destruct (IH (piece +:+ String d EmptyString)) as [a Ha]. exists a.
      rewrite <- Ha, str_app_assoc. reflexivity.
Qed.

Lemma split_from_app c piece a b :
  split_from (String c EmptyString) 0 piece (a +:+ String c b)
  = split_from (String c EmptyString) 0 piece a
    ++ split_from (String c EmptyString) 0 EmptyString b.
Proof.
  revert piece. induction a as [|d a IH]; intros piece.
  - change (EmptyString +:+ String c b) with (String c b).
    rewrite split_from_cons, str_prefix_byte, Ascii.eqb_refl. reflexivity.
  - change (String d a +:+ String c b) with (String d (a +:+ String c b)).
    rewrite !split_from_cons, !str_prefix_byte.
    destruct (Ascii.eqb d c); simpl Nat.sub; rewrite IH; reflexivity.
Qed.

Lemma split_from_clean c piece s :
  no_byte c piece = true ->
  Forall (fun e => no_byte c e = true) (split_from (String c EmptyString) 0 piece s).
Proof.
  revert piece. induction s as [|d s IH]; intros piece Hp.
  - constructor; [exact Hp|constructor].
  - rewrite split_from_cons, str_prefix_byte.
    destruct (Ascii.eqb_spec d c) as [->|Hne].
    + constructor; [exact Hp|]. apply IH. reflexivity.
    + apply IH. unfold no_byte in *. rewrite all_bytes_app, Hp. simpl.
      apply Ascii.eqb_neq in Hne. rewrite Hne. reflexivity.
Qed.

Lemma Split_plain c b : no_byte c b = true -> Split b (String c EmptyString) = [b].
Proof.
  intros H. rewrite Split_index by discriminate.
  destruct (before_first_none c b H) as [-> ->]. reflexivity.
Qed.

Lemma last_element_suffix p : exists a, p = a +:+ last_element p.
Proof. apply (split_from_last "/" EmptyString p). Qed.

Lemma last_element_clean p : no_byte "/" (last_element p) = true.
Proof.
  unfold last_element, Split, slash.
  pose proof (split_from_clean "/" EmptyString p eq_refl) as H.
  pose proof (split_from_nonempty "/" EmptyString p) as Hne.
  induction H as [|e l He Hl IH]; [contradiction|].
  destruct l as [|e' l]; [exact He|]. apply IH. discriminate.
Qed.

(** ** [Ext] *)

Lemma ext_of_suffix e x :
  ext_of e = Some x ->
  exists a r, e = a +:+ x /\ x = "." +:+ r /\ no_byte "." r = true.
Proof.
  revert x. induction e as [|c e IH]; intros x; [discriminate|].
  simpl. destruct (ext_of e) as [y|] eqn:E.
  - intros H. inversion H. subst y.
    destruct (IH x eq_refl) as (a & r & -> & Hx & Hr).
    exists (String c a), r. auto.
  - destruct (Ascii.eqb_spec c ".") as [->|Hne]; [|discriminate].
    intros H. inversion H. exists EmptyString, e. split; [reflexivity|].
    split; [reflexivity|]. clear -E.
    induction e as [|d e IH]; [reflexivity|].
    simpl in E. destruct (ext_of e); [discriminate|].
    destruct (Ascii.eqb_spec d ".") as [|Hd]; [discriminate|].
    unfold no_byte. simpl. apply Ascii.eqb_neq in Hd. rewrite Hd. apply IH. reflexivity.
Qed.

Lemma Ext_suffix p :
  (exists a, p = a +:+ Ext p)
  /\ (Ext p = EmptyString
      \/ exists r, Ext p = "." +:+ r /\ no_byte "." r = true /\ no_byte "/" r = true).
Proof.
  unfold Ext. destruct (last_element_suffix p) as [a Ha].
  pose proof (last_element_clean p) as Hc.
  destruct (ext_of (last_element p)) as [x|] eqn:E; simpl.
  - destruct (ext_of_suffix _ _ E) as (b & r & Hb & Hx & Hr). split.
    + exists (a +:+ b). rewrite str_app_assoc, <- Hb. exact Ha.
    + right. exists r. split; [exact Hx|]. split; [exact Hr|].
      rewrite Hb, Hx in Hc. unfold no_byte in *.
      rewrite !all_bytes_app in Hc.
      apply andb_true_iff in Hc as [_ Hc]. apply andb_true_iff in Hc as [_ Hc].
      exact Hc.
  - split; [|left; reflexivity]. exists p. symmetry. apply str_app_empty_r.
Qed.

(** ** [Clean] and [Join] *)

Lemma clean_step_good rooted st seg :
  no_byte "/" seg = true -> Forall good st -> Forall good (clean_step rooted st seg).
Proof.
  intros Hs Hst. unfold clean_step, is_dot.
  destruct (String.eqb_spec seg EmptyString) as [|H1]; [exact Hst|].
  destruct (String.eqb_spec seg ".") as [|H2]; [exact Hst|]. simpl.
  assert (Hg : good seg) by (repeat split; assumption).
  destruct (String.eqb_spec seg "..") as [_|_]; [|constructor; assumption].
  destruct st as [|top rest].
  - destruct rooted; [constructor|constructor; [assumption|constructor]].
  - destruct (String.eqb top ".."); [constructor; assumption|].
    inversion Hst. assumption.
Qed.

Lemma clean_fold_good rooted l st :
  Forall (fun e => no_byte "/" e = true) l -> Forall good st ->
  Forall good (fold_left (clean_step rooted) l st).
Proof.
  intros Hl. revert st. induction Hl as [|e l He Hl IH]; intros st Hst; [exact Hst|].
  simpl. apply IH. apply clean_step_good; assumption.
Qed.

Lemma concat_snoc sep (l : list string) b :
  String.concat sep (l ++ [b])
  = match l with
    | [] => b
    | _ => String.concat sep l +:+ sep +:+ b
    end.
Proof.
  induction l as [|x l IH]; [reflexivity|].
  destruct l as [|y l]; [reflexivity|].
  change ((x :: y :: l) ++ [b]) with (x :: ((y :: l) ++ [b])).
  change (String.concat sep (x :: (y :: l) ++ [b]))
    with (x +:+ sep +:+ String.concat sep ((y :: l) ++ [b])).
  rewrite IH.
  change (String.concat sep (x :: y :: l))
    with (x +:+ sep +:+ String.concat sep (y :: l)).
  rewrite !str_app_assoc. reflexivity.
Qed.

(** A path of good elements starts with a byte that is no separator, and
    is not [.]. *)
Lemma concat_good (l : list string) :
  l <> [] -> Forall good l ->
  exists c t, String.concat "/" l = String c t /\ c <> "/"%char
              /\ String.concat "/" l <> "."%string.
Proof.
  intros Hne Hall. destruct Hall as [|e l (He1 & He2 & He3) Hl]; [contradiction|].
  destruct e as [|c e]; [contradiction|].
  assert (Hc : c <> "/"%char).
  { unfold no_byte in He3. simpl in He3. apply andb_true_iff in He3 as [H _].
    apply negb_true_iff, Ascii.eqb_neq in H. exact H. }
  destruct l as [|e' l].
  - exists c, e. simpl. auto.
  - exists c, (e +:+ "/" +:+ String.concat "/" (e' :: l)).
    split; [reflexivity|]. split; [exact Hc|].
    change (String.concat "/" (String c e :: e' :: l))
      with (String c (e +:+ "/" +:+ String.concat "/" (e' :: l))).
    intros H. inversion H as [[H1 H2]].
    destruct e; discriminate.
Qed.

Lemma plain_dir_step rooted st name :
  plain name -> clean_step rooted st name = name :: st.
Proof.
  intros (H1 & _ & H3 & H4). unfold clean_step, is_dot.
  destruct (String.eqb_spec name EmptyString); [contradiction|].
  destruct (String.eqb_spec name "."); [contradiction|].
  destruct (String.eqb_spec name ".."); [contradiction|]. reflexivity.
Qed.

Lemma plain_not_rooted name : plain name -> String.prefix "/" name = false.
Proof.
  intros (H1 & H2 & _). destruct name as [|c name]; [contradiction|].
  rewrite str_prefix_byte. unfold no_byte in H2. simpl in H2.
  apply andb_true_iff in H2 as [H _]. apply negb_true_iff in H. exact H.
Qed.

Lemma Clean_plain name : plain name -> Clean name = name.
Proof.
  intros Hp. pose proof Hp as (H1 & H2 & _).
  unfold Clean, slash. rewrite (plain_not_rooted _ Hp).
  rewrite (Split_plain "/" name H2). simpl fold_left.
  rewrite (plain_dir_step false [] name Hp). simpl.
  destruct name; [contradiction|reflexivity].
Qed.

Lemma Join_plain dir name : plain name -> Join dir name = under dir +:+ name.
Proof.
  intros Hp. pose proof Hp as (H1 & H2 & _).
  destruct dir as [|d0 dir'].
  { unfold under. simpl. rewrite <- (Clean_plain name Hp) at 2.
    unfold Join. destruct name; [contradiction|reflexivity]. }
  set (dir := String d0 dir').
  assert (Hj : Join dir name = Clean (dir +:+ "/" +:+ name)) by reflexivity.
  rewrite Hj. unfold under.
  set (rooted := String.prefix slash dir).
  set (st := fold_left (clean_step rooted) (Split dir slash) []).
  assert (Hst : Forall good st).
  { apply clean_fold_good; [|constructor]. apply (split_from_clean "/" EmptyString dir eq_refl). }
  assert (Hdir : Clean dir
                 = let out := if rooted then slash +:+ String.concat slash (rev st)
                              else String.concat slash (rev st) in
                   match out with
                   | EmptyString => "."
                   | _ => out
                   end) by reflexivity.
  cbv zeta in Hdir.
  assert (Hp' : Clean (dir +:+ "/" +:+ name)
                = if rooted
                  then slash +:+ String.concat slash (rev st ++ [name])
                  else String.concat slash (rev st ++ [name])).
  { unfold Clean.
    change (dir +:+ "/" +:+ name) with (String d0 (dir' +:+ "/" +:+ name)) at 1.
    cbv iota.
    assert (Hr : String.prefix slash (dir +:+ "/" +:+ name) = rooted).
    { unfold rooted, slash, dir.
      change (String d0 dir' +:+ "/" +:+ name) with (String d0 (dir' +:+ "/" +:+ name)).
      rewrite !str_prefix_byte. reflexivity. }
    rewrite Hr.
    assert (Hs : Split (dir +:+ "/" +:+ name) slash = Split dir slash ++ [name]).
    { unfold Split, slash.
      change (dir +:+ "/" +:+ name) with (dir +:+ String "/" name).
      rewrite split_from_app. f_equal. apply (Split_plain "/" name H2). }
    rewrite Hs, fold_left_app.
    change (fold_left (clean_step rooted) (Split dir slash) []) with st.
    change (fold_left (clean_step rooted) [name] st)
      with (clean_step rooted st name).
    rewrite (plain_dir_step rooted st name Hp).
    change (rev (name :: st)) with (rev st ++ [name]).
    assert (Hne : String.concat slash (rev st ++ [name]) <> EmptyString).
    { rewrite concat_snoc. destruct (rev st); [exact H1|].
      intros H. apply (f_equal String.length) in H.
      rewrite !str_length_app in H. simpl in H. lia. }
    destruct rooted.
    - reflexivity.
    - destruct (String.concat slash (rev st ++ [name])); [contradiction|reflexivity]. }
  rewrite Hp', Hdir, concat_snoc. unfold slash.
  destruct (rev st) as [|e l] eqn:Er.
  - simpl String.concat. destruct rooted; simpl; reflexivity.
  - assert (Hg : Forall good (e :: l)).
    { rewrite <- Er. apply Forall_rev. exact Hst. }
    destruct (concat_good (e :: l) ltac:(discriminate) Hg) as (c & t & Hc & Hc1 & Hc2).
    destruct rooted.
    + rewrite Hc. simpl. rewrite str_app_assoc. reflexivity.
    + rewrite Hc in *.
      destruct (String.eqb_spec (String c t) ".") as [|_]; [contradiction|].
      destruct (String.eqb_spec (String c t) "/") as [E|_].
      { inversion E. contradiction. }
      rewrite str_app_assoc. reflexivity.
Qed.

End PathFacts.

Section Paths.
Context {env : GoEnv}.
Variable w : World.
Import GoStrings GoPath.

(** X16. The output directory of a scraper is its output path without the
    extension: the two put together give the output path back.  The
    extension is empty or a period followed by bytes that are neither a
    period nor a separator; for an output path without extension the output
    directory is the output path itself. *)
Theorem outputDir_strips_extension
    (rawURL outputPath : string) (org : Organization) (single : bool) :
  outputDir (NewScraper rawURL outputPath org single) +:+ Ext outputPath
  = outputPath
  /\ (Ext outputPath = EmptyString
      \/ exists r, Ext outputPath = "." +:+ r
                   /\ no_byte "." r = true /\ no_byte "/" r = true)
  /\ (Ext outputPath = EmptyString ->
      outputDir (NewScraper rawURL outputPath org single) = outputPath).
Proof.
  destruct (Ext_suffix outputPath) as [[a Ha] Hext].
  assert (H : outputDir (NewScraper rawURL outputPath org single) = a).
  { simpl. rewrite Ha at 1. apply TrimSuffix_app. }
  assert (H1 : outputDir (NewScraper rawURL outputPath org single)
               +:+ Ext outputPath = outputPath)
    by (rewrite H; symmetry; exact Ha).
  split; [exact H1|]. split; [exact Hext|].
  intros E. rewrite E, str_app_empty_r in H1. exact H1.
Qed.

Lemma safe_no_slash c : safe_byte c = true -> negb (Ascii.eqb c "/") = true.
Proof. by_bytes c. Qed.

Lemma Filename_plain s url resp page :
  scrapePage s url resp = Some page -> plain (Filename page).
Proof.
  intros H. apply scrapePage_shape in H as (_ & -> & _).
  pose proof (sanitizeFilename_length (Title page)) as Hl.
  pose proof (sanitizeFilename_safe (Title page)) as Hs.
  assert (Hlen : 4 <= String.length (sanitizeFilename (Title page) +:+ ".md"))
    by (rewrite str_length_app; simpl; lia).
  repeat split.
  - intros E. rewrite E in Hlen. simpl in Hlen. lia.
  - unfold no_byte. rewrite all_bytes_app. apply andb_true_iff. split; [|reflexivity].
    eapply all_bytes_impl; [|exact Hs]. apply safe_no_slash.
  - intros E. rewrite E in Hlen. simpl in Hlen. lia.
  - intros E. rewrite E in Hlen. simpl in Hlen. lia.
Qed.

(** X17. In modes chapters and pages no title can send a page out of the
    output directory: the file name of a page holds no separator and is
    neither [.] nor [..], so every write of the loop, and the write of the
    index, goes to the cleaned output directory followed by a separator and
    the file name (to the bare file name when that directory is the current
    one). *)
Theorem writes_stay_in_directory
    (rawURL outputPath : string) (org : Organization) (single : bool) (n : nat) :
  org <> SingleFile ->
  Forall (fun pc => exists name,
              plain name
              /\ pc.1 = under (outputDir (NewScraper rawURL outputPath org single))
                        +:+ name)
         (writes (trace (run w n (start (NewScraper rawURL outputPath org single)))))
  /\ Join (outputDir (NewScraper rawURL outputPath org single)) "index.md"
     = under (outputDir (NewScraper rawURL outputPath org single)) +:+ "index.md".
Proof.
  intros Horg. set (s := NewScraper rawURL outputPath org single).
  split.
  - destruct (Ledger_run w s n) as [ps L].
    pose proof (led_store _ _ _ _ L) as H.
    assert (Hw : writes (trace (run w n (start s))) = List.map (pageFile s) ps).
    { change (organization s) with org in H.
      destruct org; [contradiction|exact (proj2 H)|exact (proj2 H)]. }
    rewrite Hw. pose proof (led_made _ _ _ _ L) as Hm.
    clear L H Hw.
    induction Hm as [|p ps [t Hp] _ IH]; [constructor|].
    simpl. constructor; [|exact IH].
    exists (Filename p). pose proof (Filename_plain _ _ _ _ Hp) as Hpl.
    split; [exact Hpl|]. apply Join_plain, Hpl.
  - apply Join_plain. repeat split; discriminate.
Qed.

End Paths.

(** X17 at work: the index of an output directory written [./out//doc] goes
    to [out/doc/index.md]. *)
Lemma writes_stay_in_directory_witness :
  GoPath.Join "./out//doc" "index.md" = "out/doc/index.md"%string
  /\ under "./out//doc" = "out/doc/"%string.
Proof.
  destruct (writes_stay_in_directory (env := Sample.go) Sample.healthy
              Sample.seed "./out//doc.md" ByPages false 0) as (_ & H);
    [discriminate|].
  split; [|vm_compute; reflexivity].
  etransitivity; [exact H|]. vm_compute. reflexivity.
Defined.

(** X16 at work: the output path [out/doc.md] gives the output directory
    [out/doc]. *)
Lemma outputDir_strips_extension_witness :
  outputDir (Sample.scraper ByPages false) = "out/doc"%string
  /\ GoPath.Ext "out/doc.md" = ".md"%string.
Proof.
  destruct (outputDir_strips_extension (env := Sample.go)
              Sample.seed "out/doc.md" ByPages false) as (H & _).
  split; [|reflexivity].
  apply (f_equal (GoStrings.slice_to 7)) in H. exact H.
Defined.

(** ** Titles *)

Section Titles.
Context {env : GoEnv}.
Import GoStrings GoPath.

Lemma TrimPrefix_suffix s pre : exists a, s = a +:+ TrimPrefix s pre.
Proof.
  unfold TrimPrefix, HasPrefix. destruct (String.prefix pre s) eqn:E.
  - exists pre. apply str_prefix_split, E.
  - exists EmptyString. reflexivity.
Qed.

(** X18. The title in the heading of the corpus file and of the index is the
    base URL without a leading [https://] and, after that, without a
    leading [http://]; a base URL that starts with neither is shown as it
    is.  So [https://example.com/docs] and [http://example.com/docs] both
    give [example.com/docs], and the title is always the end of the base
    URL. *)
Theorem corpusTitle_strips_scheme (s : Scraper) :
  (forall r, baseURL s = "https://" +:+ r ->
             corpusTitle s = TrimPrefix r "http://")
  /\ (forall r, baseURL s = "http://" +:+ r -> corpusTitle s = r)
  /\ (HasPrefix (baseURL s) "https://" = false ->
      HasPrefix (baseURL s) "http://" = false ->
      corpusTitle s = baseURL s)
  /\ exists a, baseURL s = a +:+ corpusTitle s.
Proof.
  unfold corpusTitle. split; [|split; [|split]].
  - intros r ->. rewrite TrimPrefix_app. reflexivity.
  - intros r ->.
    assert (H : TrimPrefix ("http://" +:+ r) "https://" = "http://" +:+ r).
    { unfold TrimPrefix, HasPrefix.
      assert (Hp : String.prefix "https://" ("http://" +:+ r) = false).
      { destruct (String.prefix "https://" ("http://" +:+ r)) eqn:E; [|reflexivity].
        apply str_prefix_split in E. simpl in E. inversion E. }
      rewrite Hp. reflexivity. }
    rewrite H. apply TrimPrefix_app.
  - intros H1 H2. unfold TrimPrefix at 2. rewrite H1.
    unfold TrimPrefix. rewrite H2. reflexivity.
  - destruct (TrimPrefix_suffix (baseURL s) "https://") as [a Ha].
    destruct (TrimPrefix_suffix (TrimPrefix (baseURL s) "https://") "http://")
      as [b Hb].
    exists (a +:+ b). rewrite str_app_assoc, <- Hb. exact Ha.
Qed.

End Titles.

(** X18 at work on the seed of the sample site. *)
Lemma corpusTitle_strips_scheme_witness :
  corpusTitle (Sample.scraper SingleFile false) = "example.com/docs"%string.
Proof.
  destruct (corpusTitle_strips_scheme (Sample.scraper SingleFile false))
    as (H & _).
  apply (H "example.com/docs"%string). vm_compute. reflexivity.
Defined.

(** ** Levels outside the base *)

Section Levels.
Import GoStrings GoPath.

(** A path whose last element is a segment keeps its end under
    [TrimRight], whatever stands before. *)
Lemma TrimRight_path (front : list string) (seg : string) :
  segment seg ->
  TrimRight (String.concat "/" (front ++ [seg])) "/"
  = String.concat "/" (front ++ [seg])
  /\ String.concat "/" (front ++ [seg]) <> EmptyString.
Proof.
  intros (Hne & Hc). induction front as [|a front [IH1 IH2]].
  - simpl. split; [|exact Hne]. apply TrimRight_clean, no_byte_cutset, Hc.
  - destruct (front ++ [seg]) as [|b l] eqn:E; [destruct front; discriminate|].
    change ((a :: front) ++ [seg]) with (a :: (front ++ [seg])). rewrite E.
    rewrite concat_slash_cons. split.
    + rewrite (TrimRight_app (a +:+ "/") (String.concat "/" (b :: l)));
        rewrite IH1; [reflexivity|exact IH2].
    + apply str_app_nonempty. exact IH2.
Qed.

(** X19. For a URL that does not start with the base URL nothing is stripped,
    and the level counts the pieces of the whole URL string: the scheme,
    the empty piece between the two separators that follow it and the host
    count as three, so a page at [scheme://host/a/b] next to the seed, not
    under it, has level 5 where a page at [base/a/b] has level 2. *)
Theorem pageLevel_outside_base
    (s : Scraper) (scheme host : string) (segs : list string) :
  segment scheme -> segment host -> segs <> [] -> Forall segment segs ->
  HasPrefix (scheme +:+ "//" +:+ host +:+ "/" +:+ String.concat "/" segs)
            (baseURL s) = false ->
  pageLevel s (scheme +:+ "//" +:+ host +:+ "/" +:+ String.concat "/" segs)
  = 3 + List.length segs.
Proof.
  intros (Hs1 & Hs2) (Hh1 & Hh2) Hne Hall Hpre.
  assert (Hurl : scheme +:+ "//" +:+ host +:+ "/" +:+ String.concat "/" segs
                 = String.concat "/" (scheme :: EmptyString :: host :: segs)).
  { destruct segs as [|a segs]; [contradiction|]. reflexivity. }
  unfold pageLevel, TrimPrefix. rewrite Hpre, Hurl. clear Hpre Hurl.
  assert (Hclean : Forall (fun e => no_byte "/" e = true)
                          (scheme :: EmptyString :: host :: segs)).
  { constructor; [exact Hs2|]. constructor; [reflexivity|].
    constructor; [exact Hh2|].
    eapply Forall_impl; [exact Hall|]. intros e [_ He]. exact He. }
  assert (Htrim : Trim (String.concat "/" (scheme :: EmptyString :: host :: segs)) "/"
                  = String.concat "/" (scheme :: EmptyString :: host :: segs)).
  { unfold Trim.
    destruct (exists_last Hne) as (front & seg & ->).
    assert (Hseg : segment seg).
    { apply Forall_app in Hall as [_ Hall]. inversion Hall. assumption. }
    change (scheme :: EmptyString :: host :: front ++ [seg])
      with ((scheme :: EmptyString :: host :: front) ++ [seg]).
    destruct (TrimRight_path (scheme :: EmptyString :: host :: front) seg Hseg)
      as [-> _].
    change ((scheme :: EmptyString :: host :: front) ++ [seg])
      with (scheme :: (EmptyString :: host :: front ++ [seg])).
    destruct scheme as [|c scheme]; [contradiction|].
    change (String.concat "/" (String c scheme :: EmptyString :: host :: front ++ [seg]))
      with (String c (scheme +:+ "/"
                      +:+ String.concat "/" (EmptyString :: host :: front ++ [seg]))).
    apply TrimLeft_clean. unfold no_byte in Hs2. simpl in Hs2.
    apply andb_true_iff in Hs2 as [Hc _]. simpl. rewrite orb_false_r.
    apply negb_true_iff, Hc. }
  rewrite Htrim.
  rewrite (Split_concat "/" (scheme :: EmptyString :: host :: segs)
             ltac:(discriminate) Hclean).
  reflexivity.
Qed.

End Levels.

(** X19 at work: a page next to the seed of the sample site has level 4. *)
Lemma pageLevel_outside_base_witness :
  pageLevel (Sample.scraper ByPages false) "https://example.com/learn/more" = 5.
Proof.
  apply (pageLevel_outside_base (Sample.scraper ByPages false)
           "https:" "example.com" ["learn"; "more"]%string).
  - split; [discriminate|reflexivity].
  - split; [discriminate|reflexivity].
  - discriminate.
  - constructor; [split; [discriminate|reflexivity]|].
    constructor; [split; [discriminate|reflexivity]|]. constructor.
  - vm_compute. reflexivity.
Defined.

(** ** Directories *)

Section CleanFacts.
Import GoStrings GoPath.

Lemma tidy_good rooted st : tidy rooted st -> Forall good st.
Proof.
  induction st as [|e st IH]; [constructor|].
  intros (H1 & H2 & _). constructor; auto.
Qed.

Lemma clean_step_tidy rooted st seg :
  no_byte "/" seg = true -> tidy rooted st -> tidy rooted (clean_step rooted st seg).
Proof.
  intros Hs Hst. unfold clean_step, is_dot.
  destruct (String.eqb_spec seg EmptyString) as [|H1]; [exact Hst|].
  destruct (String.eqb_spec seg ".") as [|H2]; [exact Hst|]. simpl.
  assert (Hg : good seg) by (repeat split; assumption).
  destruct (String.eqb_spec seg "..") as [E|E].
  - destruct st as [|top rest].
    + destruct rooted; [exact I|]. simpl. repeat split; auto.
    + destruct (String.eqb_spec top "..") as [Et|Et].
      * destruct Hst as (Ht & Hrest & Hdd).
        destruct (Hdd Et) as [Hr _].
        simpl. split; [exact Hg|].
        split; [split; [exact Ht|split; [exact Hrest|exact Hdd]]|].
        intros _. split; [exact Hr|]. right. exact Et.
      * destruct Hst as (_ & Hrest & _). exact Hrest.
  - simpl. split; [exact Hg|]. split; [exact Hst|]. intros E'. contradiction.
Qed.

Lemma clean_fold_tidy rooted l st :
  Forall (fun e => no_byte "/" e = true) l -> tidy rooted st ->
  tidy rooted (fold_left (clean_step rooted) l st).
Proof.
  intros Hl. revert st. induction Hl as [|e l He Hl IH]; intros st Hst; [exact Hst|].
  simpl. apply IH. apply clean_step_tidy; assumption.
Qed.

(** Cleaning what was cleaned changes nothing: the elements of a tidy
    stack go back onto the stack one by one. *)
Lemma tidy_refold rooted st :
  tidy rooted st -> fold_left (clean_step rooted) (rev st) [] = st.
Proof.
  induction st as [|e st IH]; [reflexivity|].
  intros (Hg & Hst & Hdd). simpl rev. rewrite fold_left_app, (IH Hst).
  simpl. destruct Hg as (G1 & G2 & G3). unfold clean_step, is_dot.
  destruct (String.eqb_spec e EmptyString); [contradiction|].
  destruct (String.eqb_spec e "."); [contradiction|]. simpl.
  destruct (String.eqb_spec e "..") as [E|E]; [|reflexivity].
  destruct (Hdd E) as [-> Hrest].
  destruct st as [|top rest]; [reflexivity|].
  destruct Hrest as [Hrest|Hrest]; [discriminate|].
  simpl in Hrest. rewrite Hrest. reflexivity.
Qed.

Lemma fold_skip_empty rooted l st :
  fold_left (clean_step rooted) (EmptyString :: l) st
  = fold_left (clean_step rooted) l st.
Proof. reflexivity. Qed.

Lemma good_clean st :
  Forall good st -> Forall (fun e => no_byte "/" e = true) st.
Proof. intros H. eapply Forall_impl; [exact H|]. intros e (_ & _ & He). exact He. Qed.

Lemma Clean_slash dir : Clean (Clean dir +:+ "/") = Clean dir.
Proof.
  destruct dir as [|d0 dir']; [reflexivity|].
  set (dir := String d0 dir').
  set (rooted := String.prefix slash dir).
  set (st := fold_left (clean_step rooted) (Split dir slash) []).
  assert (Ht : tidy rooted st).
  { apply clean_fold_tidy; [|exact I].
    apply (split_from_clean "/" EmptyString dir eq_refl). }
  assert (Hdir : Clean dir
                 = let out := if rooted then slash +:+ String.concat slash (rev st)
                              else String.concat slash (rev st) in
                   match out with
                   | EmptyString => "."
                   | _ => out
                   end) by reflexivity.
  cbv zeta in Hdir. rewrite Hdir. unfold slash in *.
  destruct (rev st) as [|e l] eqn:Er.
  { simpl String.concat. destruct rooted; reflexivity. }
  assert (Hg : Forall good (e :: l)).
  { rewrite <- Er. apply Forall_rev, tidy_good with rooted. exact Ht. }
  destruct (concat_good (e :: l) ltac:(discriminate) Hg) as (c & t & Hc & Hc1 & _).
  assert (Hsplit : Split (String.concat "/" (e :: l)) "/" = e :: l).
  { apply Split_concat; [discriminate|]. apply good_clean, Hg. }
  assert (Hfold : fold_left (clean_step rooted) (e :: l) [] = st).
  { rewrite <- Er. apply tidy_refold, Ht. }
  set (body := String.concat "/" (e :: l)) in *.
  assert (Hout : forall out : string,
             out <> EmptyString ->
             match out with EmptyString => "."%string | _ => out end = out).
  { intros out Ho. destruct out; [contradiction|reflexivity]. }
  destruct rooted eqn:Hr.
  - change (match "/" +:+ body with EmptyString => "."%string | _ => "/" +:+ body end)
      with ("/" +:+ body).
    unfold Clean.
    change (("/" +:+ body) +:+ "/") with (String "/" (body +:+ "/")).
    cbv iota. unfold slash. rewrite str_prefix_byte, Ascii.eqb_refl.
    assert (Hs : Split (String "/" (body +:+ "/")) "/" = EmptyString :: (e :: l) ++ [EmptyString]).
    { change (String "/" (body +:+ "/")) with (EmptyString +:+ String "/" (body +:+ "/")).
      unfold Split. rewrite split_from_app. simpl app. f_equal.
      change (body +:+ "/") with (body +:+ String "/" EmptyString).
      rewrite split_from_app. fold (Split body "/"). rewrite Hsplit. reflexivity. }
    rewrite Hs, fold_skip_empty, fold_left_app, Hfold. simpl fold_left.
    change (clean_step true st EmptyString) with st.
    rewrite Er. apply Hout. discriminate.
  - rewrite Hc. unfold Clean.
    change (String c t +:+ "/") with (String c (t +:+ "/")).
    cbv iota. unfold slash. rewrite str_prefix_byte.
    assert (Hcs : Ascii.eqb c "/" = false) by (apply Ascii.eqb_neq; exact Hc1).
    rewrite Hcs.
    assert (Hs : Split (String c (t +:+ "/")) "/" = (e :: l) ++ [EmptyString]).
    { change (String c (t +:+ "/")) with (String c t +:+ String "/" EmptyString).
      rewrite <- Hc. unfold Split. rewrite split_from_app.
      fold (Split body "/"). rewrite Hsplit. reflexivity. }
    rewrite Hs, fold_left_app, Hfold. simpl fold_left.
    change (clean_step false st EmptyString) with st.
    rewrite Er. fold body. rewrite Hc. reflexivity.
Qed.

Lemma Clean_under dir : Clean (under dir) = Clean dir.
Proof.
  unfold under.
  destruct (String.eqb_spec (Clean dir) ".") as [E|_]; [rewrite E; reflexivity|].
  destruct (String.eqb_spec (Clean dir) "/") as [E|_]; [rewrite E; reflexivity|].
  apply Clean_slash.
Qed.

(** [under] is empty or ends with a separator. *)
Lemma under_shape dir : under dir = EmptyString \/ exists v, under dir = v +:+ "/".
Proof.
  unfold under.
  destruct (String.eqb (Clean dir) "."); [left; reflexivity|]. right.
  destruct (String.eqb (Clean dir) "/"); [exists EmptyString; reflexivity|].
  eexists. reflexivity.
Qed.

Lemma last_snoc_default {A} (l : list A) x d : List.last (l ++ [x]) d = x.
Proof. induction l as [|y l IH]; [reflexivity|]. simpl. rewrite IH. destruct (l ++ [x]) eqn:E; [destruct l; discriminate|reflexivity]. Qed.

Lemma Dir_under dir name : plain name -> Dir (under dir +:+ name) = Clean dir.
Proof.
  intros Hp. pose proof Hp as (H1 & H2 & _).
  assert (Hl : last_element (under dir +:+ name) = name).
  { unfold last_element, slash. destruct (under_shape dir) as [->|[v ->]].
    - change (EmptyString +:+ name) with name.
      rewrite (Split_plain "/" name H2). reflexivity.
    - rewrite str_app_assoc. change ("/" +:+ name) with (String "/" name).
      unfold Split. rewrite split_from_app. fold (Split name "/").
      rewrite (Split_plain "/" name H2). apply last_snoc_default. }
  unfold Dir, dir_part. rewrite Hl, str_length_app.
  replace (String.length (under dir) + String.length name - String.length name)
    with (String.length (under dir)) by lia.
  rewrite slice_to_app. apply Clean_under.
Qed.

End CleanFacts.

Section Directories.
Context {env : GoEnv}.
Import GoStrings GoPath.

(** X20. Before it writes, [writeContentToFile] makes the directory of its
    target.  For the file of every page, and for the index, that directory
    is the cleaned output directory: one and the same for the whole run. *)
Theorem page_directory (s : Scraper) (url : string) (resp : option Document)
    (page : Page) :
  scrapePage s url resp = Some page ->
  Dir (Join (outputDir s) (Filename page)) = Clean (outputDir s)
  /\ Dir (Join (outputDir s) "index.md") = Clean (outputDir s).
Proof.
  intros H. pose proof (Filename_plain _ _ _ _ H) as Hp.
  assert (Hi : plain "index.md") by (repeat split; discriminate).
  rewrite (Join_plain _ _ Hp), (Join_plain _ _ Hi).
  split; apply Dir_under; assumption.
Qed.

End Directories.

(** X20 at work: the directory made for the page of the seed is [out/doc]. *)
Lemma page_directory_witness :
  GoPath.Dir (GoPath.Join "out/doc" (Filename Sample.seed_page)) = "out/doc"%string.
Proof.
  destruct (page_directory (env := Sample.go) (Sample.scraper ByPages true)
              Sample.seed (http_get Sample.healthy 0 Sample.seed)
              Sample.seed_page) as (H & _); [vm_compute; reflexivity|].
  etransitivity; [exact H|]. vm_compute. reflexivity.
Defined.

(** ** Completeness, single pages and order *)

Section Completeness.
Context {env : GoEnv}.
Variable w : World.
Import GoStrings GoPath.

Lemma run_add a b c : run w (a + b) c = run w b (run w a c).
Proof.
  induction b as [|b IH]; [rewrite Nat.add_0_r; reflexivity|].
  rewrite Nat.add_succ_r, !run_S, IH. reflexivity.
Qed.

Lemma run_stable k c : links c = [] -> run w k c = c.
Proof.
  intros H. induction k as [|k IH]; [reflexivity|].
  rewrite run_S, IH. apply iterate_done, H.
Qed.

Lemma trace_grows c : exists tr, trace (iterate w c) = trace c ++ tr.
Proof.
  destruct (iterate_step w c)
    as [_ ->|u rest _ _ ->|u rest _ _ _ ->
        |u rest page wr lk fresh _ _ _ _ _ _ _ Htr _ _ _].
  - exists []. rewrite app_nil_r. reflexivity.
  - eexists. reflexivity.
  - eexists. simpl. rewrite <- app_assoc. reflexivity.
  - eexists. exact Htr.
Qed.

Lemma trace_run_grows k c : exists tr, trace (run w k c) = trace c ++ tr.
Proof.
  induction k as [|k [tr IH]]; [exists []; rewrite app_nil_r; reflexivity|].
  rewrite run_S. destruct (trace_grows (run w k c)) as [tr' H].
  exists (tr ++ tr'). rewrite H, IH, app_assoc. reflexivity.
Qed.

(** X21. The crawl leaves no link behind.  When the loop has come to its end,
    every link that [getAllDocLinks] returned for a page the crawl recorded
    has itself been scraped, with success or without: it was processed
    before, or it went to the queue and the queue was emptied. *)
Theorem crawl_complete
    (s : Scraper) (n fuel : nat) (last : Crawl)
    (u : string) (rest : list string) (page : Page)
    (found : list string) (l : string) :
  crawl w fuel (start s) = Some last ->
  links (run w n (start s)) = u :: rest ->
  mget (processed (run w n (start s))) u = false ->
  scrapePage (scraper (run w n (start s))) u
             (http_get w (clock (run w n (start s))) u) = Some page ->
  getAllDocLinks (scraper (run w n (start s)))
                 (http_get w (linkTime (run w n (start s))) u) = Some found ->
  In l found ->
  l ∈ scraped true (trace last) \/ l ∈ scraped false (trace last).
Proof.
  intros Hend Hl Hp Hs Hg Hin.
  destruct (crawl_run w _ _ _ Hend) as (k & -> & Hk).
  set (c := run w n (start s)) in *.
  (* the loop has not ended at turn [n] *)
  assert (Hlt : S n <= k).
  { destruct (Nat.le_gt_cases (S n) k) as [|Hle]; [assumption|].
    exfalso. assert (E : c = run w k (start s)).
    { unfold c. replace n with (k + (n - k)) by lia.
      rewrite run_add. apply run_stable, Hk. }
    rewrite E, Hk in Hl. discriminate. }
  assert (Ek : run w k (start s) = run w (k - S n) (iterate w c)).
  { replace k with (S n + (k - S n)) at 1 by lia. rewrite run_add. reflexivity. }
  destruct (trace_run_grows (k - S n) (iterate w c)) as [tr Htr].
  rewrite <- Ek in Htr.
  pose proof (Inv_run w s k) as Ik.
  pose proof (Inv_run w s (S n)) as In'. rewrite run_S in In'. fold c in In'.
  destruct (iterate_page w c u rest page Hl Hp Hs)
    as (wr & lk & fresh & _ & Hp' & _ & _ & Htr' & _ & Hkept & Hf).
  unfold followed in Hf. rewrite Hg in Hf. destruct Hf as (_ & Hfresh).
  destruct (mget (<[u := true]> (processed c)) l) eqn:El.
  - (* processed already *)
    left. rewrite Htr, scraped_app, elem_of_app. left.
    apply (processed_iff _ _ _ In'). rewrite Hp'. exact El.
  - (* enqueued, hence dequeued in the end *)
    assert (Hq : l ∈ enqueued (trace (iterate w c))).
    { destruct (kept_silent w _ _ _ _ Hkept) as (W1 & _).
      destruct (enqueues_only fresh) as (F1 & _).
      rewrite Htr', !enqueued_app, W1, F1, !elem_of_app. do 4 right.
      subst fresh. apply list_elem_of_In, filter_In. split; [exact Hin|].
      rewrite El. reflexivity. }
    apply (inv_dequeued _ _ Ik).
    assert (Hq' : l ∈ enqueued (trace (run w k (start s)))).
    { rewrite Htr, enqueued_app, elem_of_app. left. exact Hq. }
    rewrite (inv_queue _ _ Ik), Hk, app_nil_r in Hq'. exact Hq'.
Qed.

(** X22. With the single-page flag [Scrape] always returns, whatever the fuel:
    it requests the seed once and nothing else, follows no link, touches
    no queue and records no page in the scraper; it writes once when the
    scrape succeeds and not at all when it fails, and the error it returns
    is that of the scrape or, after it, of the one write. *)
Theorem single_page_run (s : Scraper) (fuel : nat) :
  singlePage s = true ->
  exists c ok,
    Scrape w fuel s = Some (c, ok)
    /\ attempts (trace c) = [baseURL s]
    /\ linkFetches (trace c) = []
    /\ enqueued (trace c) = [] /\ dequeued (trace c) = []
    /\ pages (scraper c) = pages s
    /\ match scrapePage s (baseURL s) (http_get w 0 (baseURL s)) with
       | None => ok = false /\ writes (trace c) = [] /\ files c = ∅
       | Some page =>
         writes (trace c) = [(singleTarget s page, Content page)]
         /\ ok = (mkdir_all w 1 (Dir (singleTarget s page))
                  && write_file w 1 (singleTarget s page) (Content page))
       end.
Proof.
  intros Hs. unfold Scrape, scrapeSingle. rewrite Hs. cbn [clock].
  destruct (scrapePage s (baseURL s) (http_get w 0 (baseURL s))) as [page|].
  - set (c1 := emit _ _).
    assert (Hw : forall target,
               exists c ok,
                 writeContentToFile w target (Content page) c1 = (c, ok)
                 /\ attempts (trace c) = [baseURL s]
                 /\ linkFetches (trace c) = []
                 /\ enqueued (trace c) = [] /\ dequeued (trace c) = []
                 /\ pages (scraper c) = pages s
                 /\ writes (trace c) = [(target, Content page)]
                 /\ ok = (mkdir_all w 1 (Dir target)
                          && write_file w 1 target (Content page))).
    { intros target.
      destruct (write_result w target (Content page) c1)
        as (ok & E0 & E1 & E2 & _ & _ & _ & _ & E3 & _).
      destruct (writeContentToFile w target (Content page) c1) as [c ok'].
      simpl in E1, E2, E3. subst ok'. exists c, ok.
      split; [reflexivity|]. rewrite E3, E2. repeat split. exact E0. }
    unfold singleTarget.
    destruct (organization s);
      match goal with
      | |- context [writeContentToFile w ?t _ _] =>
        destruct (Hw t) as (c & ok & E & H1 & H2 & H3 & H4 & H5 & H6 & H7)
      end;
      exists c, ok; rewrite E; repeat split; assumption.
  - eexists. eexists. split; [reflexivity|]. repeat split.
Qed.

Lemma scraped_attempts ok tr : scraped ok tr `sublist_of` attempts tr.
Proof.
  induction tr as [|e tr IH]; [constructor|].
  destruct e as [?|?|u b|? ?|? ? ?]; try exact IH.
  cbn. destruct (Bool.eqb b ok); [apply sublist_skip|apply sublist_cons]; exact IH.
Qed.

Lemma first_seen_snoc l u :
  first_seen (l ++ [u])
  = if existsb (String.eqb u) (first_seen l) then first_seen l
    else (first_seen l ++ [u])%list.
Proof. unfold first_seen. rewrite fold_left_app. reflexivity. Qed.

Lemma existsb_eqb_elem (u : string) (l : list string) :
  existsb (String.eqb u) l = true <-> u ∈ l.
Proof.
  rewrite existsb_exists, list_elem_of_In. split.
  - intros (x & Hin & E). apply String.eqb_eq in E. subst x. exact Hin.
  - intros Hin. exists u. split; [exact Hin|apply String.eqb_refl].
Qed.

Lemma scraped_first_seen (s : Scraper) (n : nat) :
  scraped false (trace (run w n (start s))) = [] ->
  scraped true (trace (run w n (start s)))
  = first_seen (dequeued (trace (run w n (start s)))).
Proof.
  induction n as [|n IH]; [reflexivity|].
  rewrite run_S. set (c := run w n (start s)) in *. intros Hf.
  pose proof (Inv_run w s n) as I. fold c in I.
  assert (Hc : scraped false (trace c) = []).
  { destruct (trace_grows c) as [tr E]. rewrite E, scraped_app in Hf.
    apply app_eq_nil in Hf. tauto. }
  specialize (IH Hc).
  destruct (iterate_step w c)
    as [_ ->|u rest _ Hp ->|u rest _ _ _ E
        |u rest page wr lk fresh _ Hp _ _ _ _ _ Htr _ Hkept _].
  - exact IH.
  - cbn [note with_links trace]. rewrite scraped_app, dequeued_app.
    change (scraped true [EvDequeue u]) with (@nil string).
    change (dequeued [EvDequeue u]) with [u].
    rewrite app_nil_r, first_seen_snoc, <- IH.
    apply (processed_iff _ _ _ I) in Hp. apply existsb_eqb_elem in Hp.
    rewrite Hp. reflexivity.
  - exfalso. rewrite E in Hf. revert Hf. unfold emit, note.
    cbn [trace with_links]. rewrite !scraped_app.
    change (scraped false [EvScrape u false]) with [u].
    intros Hf. apply app_eq_nil in Hf as [_ Hf]. discriminate Hf.
  - destruct (kept_silent w _ _ _ _ Hkept) as (_ & W2 & _ & W4).
    destruct (enqueues_only fresh) as (_ & F2 & _ & F4).
    rewrite Htr, !scraped_app, !dequeued_app, W2, W4, F2, F4.
    change (scraped true [EvDequeue u; EvScrape u true]) with [u].
    change (dequeued [EvDequeue u; EvScrape u true]) with [u].
    change (scraped true [EvLinks u lk]) with (@nil string).
    change (dequeued [EvLinks u lk]) with (@nil string).
    rewrite !app_nil_r, first_seen_snoc, <- IH.
    destruct (existsb (String.eqb u) (scraped true (trace c))) eqn:Ex;
      [|reflexivity].
    apply existsb_eqb_elem, (processed_iff _ _ _ I) in Ex. congruence.
Qed.

(** X23. In a run in which no scrape fails, pages are recorded in the order in
    which their URLs first came out of the queue, which gives them out in
    the order in which they went in: the URLs of the recorded pages are
    the URLs dequeued so far, each at its first occurrence, and once the
    queue is empty the URLs enqueued, each at its first occurrence.  The
    corpus and the index of such a run list the pages breadth first. *)
Theorem pages_in_discovery_order (s : Scraper) (n : nat) :
  scraped false (trace (run w n (start s))) = [] ->
  List.map URL (pages (scraper (run w n (start s))))
  = (List.map URL (pages s)
     ++ first_seen (dequeued (trace (run w n (start s)))))%list
  /\ enqueued (trace (run w n (start s)))
     = (dequeued (trace (run w n (start s))) ++ links (run w n (start s)))%list
  /\ (links (run w n (start s)) = [] ->
      List.map URL (pages (scraper (run w n (start s))))
      = (List.map URL (pages s)
         ++ first_seen (enqueued (trace (run w n (start s)))))%list).
Proof.
  intros Hf. pose proof (Inv_run w s n) as I.
  pose proof (scraped_first_seen s n Hf) as E.
  split; [rewrite (inv_pages _ _ I), E; reflexivity|].
  split; [apply (inv_queue _ _ I)|].
  intros Hl. rewrite (inv_pages _ _ I), E, (inv_queue _ _ I), Hl, app_nil_r.
  reflexivity.
Qed.

End Completeness.

(** X21 at work: the crawl of the sample site leaves no link of the seed
    behind; page [b], which the seed links to, was scraped. *)
Lemma crawl_complete_witness :
  Sample.page_b
    ∈ scraped true (trace (run (env := Sample.go) Sample.healthy 7
                                (start (Sample.scraper SingleFile false))))
  \/ Sample.page_b
       ∈ scraped false (trace (run (env := Sample.go) Sample.healthy 7
                                    (start (Sample.scraper SingleFile false)))).
Proof.
  apply (crawl_complete (env := Sample.go) Sample.healthy
           (Sample.scraper SingleFile false) 0 8
           (run (env := Sample.go) Sample.healthy 7
                (start (Sample.scraper SingleFile false)))
           Sample.seed [] Sample.seed_page
           [Sample.page_a; Sample.page_a; Sample.page_b; Sample.page_b]
           Sample.page_b).
  - vm_compute. reflexivity.
  - vm_compute. reflexivity.
  - vm_compute. reflexivity.
  - vm_compute. reflexivity.
  - vm_compute. reflexivity.
  - simpl. auto.
Defined.

(** X22 at work: with the single-page flag and the network down,
    [Scrape] returns an error after its one request. *)
Lemma single_page_run_witness :
  exists c,
    Scrape (env := Sample.go) Sample.offline 0 (Sample.scraper ByPages true)
    = Some (c, false)
    /\ attempts (trace c) = [Sample.seed].
Proof.
  destruct (single_page_run (env := Sample.go) Sample.offline
              (Sample.scraper ByPages true) 0 eq_refl)
    as (c & ok & H1 & H2 & _ & _ & _ & _ & H3).
  assert (Hok : ok = false) by (vm_compute in H3; exact (proj1 H3)).
  subst ok. exists c. split; [exact H1|exact H2].
Defined.

(** X23 at work: in the crawl of the sample site, where every page loads and
    the seed links to [a] and [b] twice each, the pages are the seed, [a]
    and [b]. *)
Lemma pages_in_discovery_order_witness :
  List.map URL
    (pages (scraper (run (env := Sample.go) Sample.healthy 7
                         (start (Sample.scraper ByPages false)))))
  = [Sample.seed; Sample.page_a; Sample.page_b].
Proof.
  destruct (pages_in_discovery_order (env := Sample.go) Sample.healthy
              (Sample.scraper ByPages false) 7 eq_refl) as (_ & _ & H).
  etransitivity; [apply H; vm_compute; reflexivity|].
  vm_compute. reflexivity.
Defined.
